(** * The ephys-to-NWB writing engine of nwb-conversion-tools

    A shallow embedding of

      - [utils/basenwbephyswriter.py]    (class [BaseNwbEphysWriter] and the
        helpers [list_get], [set_dynamic_table_property], [check_module]),
      - [utils/basesinwbephyswriter.py]  (class [BaseSINwbEphysWriter]),
      - [utils/si013nwbephyswriter.py]   (class [SI013NwbEphysWriter] and
        [get_num_spikes]),

    followed by the statements about them.

    Python values are an inductive type, numbers of type [float] are IEEE
    binary64 numbers (the kernel's primitive floats), a method is a function
    in a state-and-exception monad over the writer object, the diagnostics
    it emitted and the files on disk.  A Python exception does not roll the
    writer back: a raising computation returns the state it reached. *)

From Stdlib Require Import ZArith String List Floats Lia.
From stdpp Require Import base option list strings pretty gmap sets.

Set Warnings "-register-all".
Open Scope string_scope.
Open Scope list_scope.

(** ** Python values *)

Inductive pyval : Type :=
| VNone
| VBool (b : bool)
| VInt (z : Z)
| VFloat (f : float)
| VStr (s : string)
| VList (l : list pyval)
| VArray (shape : list nat) (data : list float)  (* numpy.ndarray *)
| VDict (d : list (string * pyval))              (* keys in insertion order *)
| VGroup (name : string)                         (* an ElectrodeGroup object *)
| VDatetime (y m d : Z).

(** ** IEEE binary64 helpers *)

Module Float64.

(** [1e-6], that is the binary64 number nearest to it. *)
Definition micro : float := 0x1.0c6f7a0b5ed8dp-20%float.

Definition isnan (x : float) : bool := negb (PrimFloat.eqb x x).

(** Python's [float.is_integer]: finite and without a fractional part. *)
Definition is_integer (x : float) : bool :=
  match Prim2SF x with
  | S754_zero _ => true
  | S754_finite _ m e =>
      if (0 <=? e)%Z then true else (Z.pos m mod 2 ^ (- e) =? 0)%Z
  | S754_infinity _ | S754_nan => false
  end.

(** [float(z)] for a Python integer: rounded to nearest even; [None] where
    Python raises OverflowError. *)
Definition of_Z (z : Z) : option float :=
  match binary_normalize prec emax z 0 false with
  | S754_infinity _ | S754_nan => None
  | sf => Some (SF2Prim sf)
  end.


(** The order numpy sorts by: NaN after every number. *)
Definition sort_le (x y : float) : bool := PrimFloat.leb x y || isnan y.

End Float64.

(** ** Exceptions and results *)

Inductive exn : Type :=
| NotImplementedError (msg : string)
| ValueError (msg : string)
| AssertionError (msg : string)
| KeyError (key : string)
| IndexError
| TypeError (msg : string)
| AttributeError (msg : string)
| OverflowError
| ZeroDivisionError.

Inductive Res (A : Type) : Type :=
| Ok (a : A)
| Raise (e : exn).
Arguments Ok {A} a.
Arguments Raise {A} e.

Definition res_bind {A B} (k : A -> Res B) (r : Res A) : Res B :=
  match r with
  | Ok a => k a
  | Raise e => Raise e
  end.

#[export] Instance Res_ret : MRet Res := @Ok.
#[export] Instance Res_bind : MBind Res := @res_bind.

Definition is_raise {A} (r : Res A) : bool :=
  match r with Ok _ => false | Raise _ => true end.

(** ** Sequences, dicts and the few built-ins the writer uses *)

Module Py.

(** [d[k]] on a dict kept in insertion order. *)
Fixpoint dict_get {V} (d : list (string * V)) (k : string) : option V :=
  match d with
  | [] => None
  | (k', v) :: d' => if String.eqb k' k then Some v else dict_get d' k
  end.

Definition dict_mem {V} (d : list (string * V)) (k : string) : bool :=
  match dict_get d k with Some _ => true | None => false end.

(** [d[k] = v]: an existing key keeps its place, a new one goes last. *)
Fixpoint dict_set {V} (d : list (string * V)) (k : string) (v : V)
  : list (string * V) :=
  match d with
  | [] => [(k, v)]
  | (k', v') :: d' =>
      if String.eqb k' k then (k', v) :: d' else (k', v') :: dict_set d' k v
  end.

(** [d.update(u)], also [dict(d, **u)] on a copy. *)
Definition dict_update {V} (d u : list (string * V)) : list (string * V) :=
  fold_left (fun acc kv => dict_set acc kv.1 kv.2) u d.

(** [d.pop(k)] without the returned value. *)
Definition dict_remove {V} (d : list (string * V)) (k : string)
  : list (string * V) :=
  filter (fun kv => negb (String.eqb kv.1 k)) d.

Definition dict_keys {V} (d : list (string * V)) : list string := d.*1.

Definition str_mem (s : string) (l : list string) : bool :=
  existsb (String.eqb s) l.

Definition Z_mem (z : Z) (l : list Z) : bool := existsb (Z.eqb z) l.

(** [list(l).index(z)], [None] where Python raises ValueError. *)
Fixpoint Z_index (l : list Z) (z : Z) : option nat :=
  match l with
  | [] => None
  | y :: l' => if Z.eqb y z then Some O else option_map S (Z_index l' z)
  end.

(** [s.endswith(suffix)]. *)
Definition endswith (s suffix : string) : bool :=
  let n := String.length s in
  let m := String.length suffix in
  (m <=? n)%nat && String.eqb (substring (n - m) m s) suffix.

(** Iterating a value: a list gives its items, a dict its keys, a string
    its characters, an array its entries; the rest is not iterable. *)
Definition iter (v : pyval) : Res (list pyval) :=
  match v with
  | VList l => Ok l
  | VDict d => Ok (map (fun kv => VStr kv.1) d)
  | VStr s => Ok (map (fun c => VStr (String c EmptyString)) (list_ascii_of_string s))
  | VArray _ data => Ok (map VFloat data)
  | _ => Raise (TypeError "object is not iterable")
  end.

(** [len(v)], [None] for a value without a length (also a 0-d array). *)
Definition len (v : pyval) : option nat :=
  match v with
  | VList l => Some (length l)
  | VDict d => Some (length d)
  | VStr s => Some (String.length s)
  | VArray (n :: _) _ => Some n
  | _ => None
  end.

(** [float(v)] as [np.float] applies it to a real number. *)
Definition to_float (v : pyval) : Res pyval :=
  match v with
  | VBool b => Ok (VFloat (if b then 1%float else 0%float))
  | VInt z =>
      match Float64.of_Z z with
      | Some f => Ok (VFloat f)
      | None => Raise OverflowError
      end
  | VFloat f => Ok (VFloat f)
  | _ => Raise (TypeError "float() argument must be a string or a number")
  end.

End Py.

(** ** The target container

    pynwb is not part of the repository: the container is modelled as the
    table and object model the writer relies on.  A [DynamicTable] keeps its
    row ids and its columns; every column is as long as [id]; a ragged
    column keeps its values flat, with the cumulative counts in its index. *)

Inductive index_arg : Type :=
| IndexFalse
| IndexTrue
| IndexArray (counts : list Z).

Record Column : Type := {
  col_name : string;
  col_description : string;
  col_data : list pyval;
  col_index : option (list Z);
  col_table : bool
}.

Record DynamicTable : Type := {
  tbl_id : list Z;
  tbl_columns : list Column
}.

Module Table.

Definition colnames (t : DynamicTable) : list string :=
  map col_name (tbl_columns t).

Definition index_names (t : DynamicTable) : list string :=
  omap (fun c => match col_index c with
                 | Some _ => Some (col_name c +:+ "_index")
                 | None => None
                 end) (tbl_columns t).

(** [name in table]: a column or the index of a ragged column. *)
Definition contains (t : DynamicTable) (name : string) : bool :=
  Py.str_mem name (colnames t) || Py.str_mem name (index_names t).

Definition get_column (t : DynamicTable) (name : string) : option Column :=
  find (fun c => String.eqb (col_name c) name) (tbl_columns t).

(** [table[name].data]: of the index when the column is ragged. *)
Definition getitem_data (t : DynamicTable) (name : string) : option (list pyval) :=
  match get_column t name with
  | Some c =>
      match col_index c with
      | Some ix => Some (map VInt ix)
      | None => Some (col_data c)
      end
  | None =>
      match find (fun c => String.eqb (col_name c +:+ "_index") name)
                 (filter (fun c => bool_decide (is_Some (col_index c))) (tbl_columns t)) with
      | Some c => option_map (map VInt) (col_index c)
      | None => None
      end
  end.

(** [DynamicTable.add_column]. *)
Definition add_column (t : DynamicTable) (name description : string)
    (data : list pyval) (index : index_arg) (table : bool) : Res DynamicTable :=
  if Py.str_mem name (colnames t) then
    Raise (ValueError ("column '" +:+ name +:+ "' already exists"))
  else
    let rows :=
      match index with
      | IndexFalse => length data
      | IndexTrue => O
      | IndexArray counts => length counts
      end in
    if negb (rows =? length (tbl_id t))%nat then
      Raise (ValueError "column must have the same number of rows as 'id'")
    else
      let ix :=
        match index with
        | IndexFalse => None
        | IndexTrue => Some []
        | IndexArray counts => Some counts
        end in
      Ok {| tbl_id := tbl_id t;
            tbl_columns := tbl_columns t ++
              [ {| col_name := name; col_description := description;
                   col_data := data; col_index := ix; col_table := table |} ] |}.

(** One cell appended to one column. *)
Definition append_cell (c : Column) (v : pyval) : Res Column :=
  match col_index c with
  | None =>
      Ok {| col_name := col_name c; col_description := col_description c;
            col_data := col_data c ++ [v]; col_index := None;
            col_table := col_table c |}
  | Some ix =>
      items ← Py.iter v;
      let data' := col_data c ++ items in
      Ok {| col_name := col_name c; col_description := col_description c;
            col_data := data'; col_index := Some (ix ++ [Z.of_nat (length data')]);
            col_table := col_table c |}
  end.

Fixpoint append_cells (cols : list Column) (row : list (string * pyval))
  : Res (list Column) :=
  match cols with
  | [] => Ok []
  | c :: cols' =>
      match Py.dict_get row (col_name c) with
      | None => Raise (ValueError ("row data keys don't match available columns"))
      | Some v =>
          c' ← append_cell c v;
          cols'' ← append_cells cols' row;
          Ok (c' :: cols'')
      end
  end.

(** The predefined optional columns named by the row and not yet in the
    table are added first ([optional] lists them with their description
    and whether they are ragged); then the row's keys have to be the
    table's columns. *)
Fixpoint add_optional (t : DynamicTable) (optional : list (string * bool))
    (row : list (string * pyval)) : Res DynamicTable :=
  match optional with
  | [] => Ok t
  | (name, ragged) :: optional' =>
      t' ← (match Py.dict_get row name with
            | Some v =>
                if Py.str_mem name (colnames t) then Ok t
                else add_column t name name [] (if ragged then IndexTrue else IndexFalse) false
            | None => Ok t
            end);
      add_optional t' optional' row
  end.

Definition add_row (t : DynamicTable) (optional : list (string * bool))
    (id : Z) (row : list (string * pyval)) : Res DynamicTable :=
  t1 ← add_optional t optional row;
  if negb (forallb (fun k => Py.str_mem k (colnames t1)) (Py.dict_keys row)) then
    Raise (ValueError "row data keys don't match available columns")
  else
    cols ← append_cells (tbl_columns t1) row;
    Ok {| tbl_id := tbl_id t1 ++ [id]; tbl_columns := cols |}.

Definition empty (required : list string) : DynamicTable :=
  {| tbl_id := [];
     tbl_columns := map (fun n => {| col_name := n; col_description := n;
                                     col_data := []; col_index := None;
                                     col_table := false |}) required |}.

End Table.

Record ElectrodeGroup : Type := {
  eg_name : string;
  eg_description : string;
  eg_location : string;
  eg_device : string
}.

(** A value of the keyword dict an ElectricalSeries is built from. *)
Inductive data_source : Type :=
| ChunkedMemmap (buffer_size : Z) (scaled : bool)
| ChunkedGenerator (unsigned_coercion : list float) (scaled : bool)
| WholeArray (scaled : bool)
| FrameTimes (num_frames : Z).

Record H5DataIO : Type := {
  h5_data : data_source;
  h5_compression : option string;
  h5_compression_opts : option Z
}.

Inductive esval : Type :=
| EPy (v : pyval)
| ERegion (rows : list nat) (description : string)
| EData (d : H5DataIO).

(** The series is the keyword dict it was constructed from. *)
Definition ElectricalSeries : Type := list (string * esval).

Inductive interface_kind : Type := FilteredEphys | LFP.

Record DataInterface : Type := {
  di_kind : interface_kind;
  di_electrical_series : gmap string ElectricalSeries
}.

Record ProcessingModule : Type := {
  pm_description : string;
  pm_data_interfaces : gmap string DataInterface
}.

Record Epoch : Type := {
  ep_start_time : float;
  ep_stop_time : float;
  ep_tags : string
}.

Record NWBFile : Type := {
  file_kwargs : list (string * pyval);
  devices : gmap string (list (string * pyval));
  electrode_groups : gmap string ElectrodeGroup;
  electrodes : option DynamicTable;
  units : option DynamicTable;
  acquisition : gmap string ElectricalSeries;
  processing : gmap string ProcessingModule;
  epochs : option (list Epoch)
}.

Module NWB.

Definition with_devices (f : NWBFile) d : NWBFile :=
  {| file_kwargs := file_kwargs f; devices := d;
     electrode_groups := electrode_groups f; electrodes := electrodes f;
     units := units f; acquisition := acquisition f;
     processing := processing f; epochs := epochs f |}.

Definition with_electrodes (f : NWBFile) t : NWBFile :=
  {| file_kwargs := file_kwargs f; devices := devices f;
     electrode_groups := electrode_groups f; electrodes := t;
     units := units f; acquisition := acquisition f;
     processing := processing f; epochs := epochs f |}.

Definition with_units (f : NWBFile) t : NWBFile :=
  {| file_kwargs := file_kwargs f; devices := devices f;
     electrode_groups := electrode_groups f; electrodes := electrodes f;
     units := t; acquisition := acquisition f;
     processing := processing f; epochs := epochs f |}.

Definition with_acquisition (f : NWBFile) a : NWBFile :=
  {| file_kwargs := file_kwargs f; devices := devices f;
     electrode_groups := electrode_groups f; electrodes := electrodes f;
     units := units f; acquisition := a;
     processing := processing f; epochs := epochs f |}.

Definition with_processing (f : NWBFile) p : NWBFile :=
  {| file_kwargs := file_kwargs f; devices := devices f;
     electrode_groups := electrode_groups f; electrodes := electrodes f;
     units := units f; acquisition := acquisition f;
     processing := p; epochs := epochs f |}.

Definition with_epochs (f : NWBFile) e : NWBFile :=
  {| file_kwargs := file_kwargs f; devices := devices f;
     electrode_groups := electrode_groups f; electrodes := electrodes f;
     units := units f; acquisition := acquisition f;
     processing := processing f; epochs := e |}.

(** The constructor [pynwb.NWBFile], applied to keyword arguments. *)
Definition new (kwargs : list (string * pyval)) : NWBFile :=
  {| file_kwargs := kwargs; devices := ∅; electrode_groups := ∅;
     electrodes := None; units := None; acquisition := ∅;
     processing := ∅; epochs := None |}.

(** The columns an electrode table is created with, and the predefined
    ones a row may bring along. *)
Definition electrode_columns : list string :=
  ["x"; "y"; "z"; "imp"; "location"; "filtering"; "group"; "group_name"].
Definition electrode_optional : list (string * bool) :=
  [("rel_x", false); ("rel_y", false); ("rel_z", false); ("reference", false)].

(** The predefined columns of a units table, all optional. *)
Definition unit_optional : list (string * bool) :=
  [("spike_times", true); ("obs_intervals", true); ("electrodes", true);
   ("electrode_group", false); ("waveform_mean", false); ("waveform_sd", false)].

Definition electrodes_or_new (f : NWBFile) : DynamicTable :=
  match electrodes f with
  | Some t => t
  | None => Table.empty electrode_columns
  end.

Definition units_or_new (f : NWBFile) : DynamicTable :=
  match units f with
  | Some t => t
  | None => Table.empty []
  end.

(** [nwbfile.add_electrode_column(name, description, index, data)]. *)
Definition add_electrode_column (f : NWBFile) (name description : string)
    (data : list pyval) (index : index_arg) : Res NWBFile :=
  t ← Table.add_column (electrodes_or_new f) name description data index false;
  Ok (with_electrodes f (Some t)).

(** [nwbfile.add_electrode(id=..., **row)]. *)
Definition add_electrode (f : NWBFile) (id : Z) (row : list (string * pyval))
  : Res NWBFile :=
  t ← Table.add_row (electrodes_or_new f) electrode_optional id row;
  Ok (with_electrodes f (Some t)).

(** [nwbfile.add_unit_column(name, description, table)]. *)
Definition add_unit_column (f : NWBFile) (name description : string)
    (table : bool) : Res NWBFile :=
  t ← Table.add_column (units_or_new f) name description [] IndexFalse table;
  Ok (with_units f (Some t)).

(** [nwbfile.add_unit(id=..., spike_times=..., **row)]. *)
Definition add_unit (f : NWBFile) (id : Z) (row : list (string * pyval))
  : Res NWBFile :=
  t ← Table.add_row (units_or_new f) unit_optional id row;
  Ok (with_units f (Some t)).

End NWB.

(** ** Extractors

    The read-only capability the writer consumes.  A channel or unit
    property is a Python value; gains and offsets are aligned to
    [channel_ids]; the samples themselves are not modelled, only what the
    writer asks about them (item sizes, whether they are memory mapped). *)

Record RecordingExtractor : Type := {
  channel_ids : list Z;
  channel_properties : Z -> list (string * pyval);
  channel_gains : list float;
  channel_offsets : list float;
  channel_groups : option (Z -> Z);
  channel_locations : Z -> list float;
  sampling_frequency : float;
  num_frames : Z;
  traces_itemsize : Z;
  dtype_itemsize : Z;
  traces_memmap : bool -> bool;
  frame_to_time : Z -> float;
  epoch_info : list (string * (Z * Z));
  nwb_metadata : option pyval
}.

Record SortingExtractor : Type := {
  unit_ids : list Z;
  sorting_sampling_frequency : option float;
  unit_properties : Z -> list (string * pyval);
  unit_spike_train : Z -> list Z;
  unit_spike_features : Z -> list (string * list pyval);
  sorting_frame_to_time : Z -> float
}.

Module Extractor.

Definition with_nwb_metadata (r : RecordingExtractor) (m : option pyval)
  : RecordingExtractor :=
  {| channel_ids := channel_ids r; channel_properties := channel_properties r;
     channel_gains := channel_gains r; channel_offsets := channel_offsets r;
     channel_groups := channel_groups r; channel_locations := channel_locations r;
     sampling_frequency := sampling_frequency r; num_frames := num_frames r;
     traces_itemsize := traces_itemsize r; dtype_itemsize := dtype_itemsize r;
     traces_memmap := traces_memmap r; frame_to_time := frame_to_time r;
     epoch_info := epoch_info r; nwb_metadata := m |}.

Definition get_channel_property_names (r : RecordingExtractor) (chan_id : Z)
  : list string := Py.dict_keys (channel_properties r chan_id).

Definition get_channel_property (r : RecordingExtractor) (chan_id : Z)
    (name : string) : Res pyval :=
  match Py.dict_get (channel_properties r chan_id) name with
  | Some v => Ok v
  | None => Raise (ValueError (name +:+ " has not been added to channel"))
  end.

Definition get_unit_property_names (s : SortingExtractor) (unit_id : Z)
  : list string := Py.dict_keys (unit_properties s unit_id).

Definition get_unit_property (s : SortingExtractor) (unit_id : Z)
    (name : string) : Res pyval :=
  match Py.dict_get (unit_properties s unit_id) name with
  | Some v => Ok v
  | None => Raise (ValueError (name +:+ " has not been added to unit"))
  end.

Definition get_unit_spike_feature_names (s : SortingExtractor) (unit_id : Z)
  : list string := Py.dict_keys (unit_spike_features s unit_id).

Definition get_unit_spike_features (s : SortingExtractor) (unit_id : Z)
    (name : string) : Res (list pyval) :=
  match Py.dict_get (unit_spike_features s unit_id) name with
  | Some v => Ok v
  | None => Raise (ValueError (name +:+ " has not been added to unit"))
  end.

End Extractor.

(** ** The writer object and its world *)

(** The keyword arguments a writer is constructed with; [None] is a key
    that was not passed. *)
Record Kwargs : Type := {
  kw_overwrite : option bool;
  kw_write_electrical_series : option bool;
  kw_buffer_mb : option Z;
  kw_use_times : option bool;
  kw_write_as : option string;
  kw_es_key : option string;
  kw_write_scaled : option bool;
  kw_compression : option (option string);
  kw_compression_opts : option Z;
  kw_iterate : option bool;
  kw_property_descriptions : option (list (string * string));
  kw_skip_properties : option (list string);
  kw_skip_features : option (list string);
  kw_exclude_properties : option (list string);
  kw_exclude_features : option (list string)
}.

Record Writer : Type := {
  recording : option RecordingExtractor;
  sorting : option SortingExtractor;
  nwb_file_path : option string;
  nwbfile : option NWBFile;
  metadata : option pyval;
  _kwargs : Kwargs
}.

Inductive Diag : Type :=
| Warning (msg : string)
| Printed (msg : string).

(** What lies outside the writer: the diagnostics emitted so far (latest
    last), the files on disk ([None] is a file without NWB content yet),
    the memory psutil reports as available and the next uuid. *)
Record World : Type := {
  self : Writer;
  diagnostics : list Diag;
  disk : gmap string (option NWBFile);
  available_memory : Z;
  next_uuid : string
}.

Definition M (A : Type) : Type := World -> Res A * World.

Definition M_ret {A} (a : A) : M A := fun w => (Ok a, w).

Definition M_bind {A B} (k : A -> M B) (m : M A) : M B :=
  fun w =>
    match m w with
    | (Ok a, w') => k a w'
    | (Raise e, w') => (Raise e, w')
    end.

#[export] Instance M_mret : MRet M := @M_ret.
#[export] Instance M_mbind : MBind M := @M_bind.

Module Monad.

Definition raise {A} (e : exn) : M A := fun w => (Raise e, w).

Definition lift {A} (r : Res A) : M A := fun w => (r, w).

Definition get_self : M Writer := fun w => (Ok (self w), w).

Definition put_self (s : Writer) : M unit :=
  fun w => (Ok tt, {| self := s; diagnostics := diagnostics w; disk := disk w;
                      available_memory := available_memory w;
                      next_uuid := next_uuid w |}).

Definition emit (d : Diag) : M unit :=
  fun w => (Ok tt, {| self := self w; diagnostics := diagnostics w ++ [d];
                      disk := disk w; available_memory := available_memory w;
                      next_uuid := next_uuid w |}).

(** The world after one more diagnostic. *)
Definition emitted (w : World) (d : Diag) : World :=
  {| self := self w; diagnostics := diagnostics w ++ [d]; disk := disk w;
     available_memory := available_memory w; next_uuid := next_uuid w |}.

Definition warn (msg : string) : M unit := emit (Warning msg).
Definition print (msg : string) : M unit := emit (Printed msg).

Definition put_disk (d : gmap string (option NWBFile)) : M unit :=
  fun w => (Ok tt, {| self := self w; diagnostics := diagnostics w; disk := d;
                      available_memory := available_memory w;
                      next_uuid := next_uuid w |}).

Definition with_nwbfile (s : Writer) (f : option NWBFile) : Writer :=
  {| recording := recording s; sorting := sorting s;
     nwb_file_path := nwb_file_path s; nwbfile := f;
     metadata := metadata s; _kwargs := _kwargs s |}.

Definition with_metadata (s : Writer) (m : option pyval) : Writer :=
  {| recording := recording s; sorting := sorting s;
     nwb_file_path := nwb_file_path s; nwbfile := nwbfile s;
     metadata := m; _kwargs := _kwargs s |}.

Definition with_recording (s : Writer) (r : option RecordingExtractor) : Writer :=
  {| recording := r; sorting := sorting s;
     nwb_file_path := nwb_file_path s; nwbfile := nwbfile s;
     metadata := metadata s; _kwargs := _kwargs s |}.

(** [self.nwbfile], where every use is an attribute access on it. *)
Definition get_nwbfile : M NWBFile :=
  s ← get_self;
  match nwbfile s with
  | Some f => mret f
  | None => raise (AttributeError "'NoneType' object has no attribute")
  end.

Definition set_nwbfile (f : NWBFile) : M unit :=
  s ← get_self; put_self (with_nwbfile s (Some f)).

(** A container call that may raise; the container changes only when it
    returns. *)
Definition update_nwbfile (op : NWBFile -> Res NWBFile) : M unit :=
  f ← get_nwbfile; f' ← lift (op f); set_nwbfile f'.

Definition get_recording : M RecordingExtractor :=
  s ← get_self;
  match recording s with
  | Some r => mret r
  | None => raise (AttributeError "'NoneType' object has no attribute")
  end.

Definition get_sorting : M SortingExtractor :=
  s ← get_self;
  match sorting s with
  | Some r => mret r
  | None => raise (AttributeError "'NoneType' object has no attribute")
  end.

Definition get_metadata : M (option pyval) :=
  s ← get_self; mret (metadata s).

Definition set_metadata (m : pyval) : M unit :=
  s ← get_self; put_self (with_metadata s (Some m)).

Definition get_kwargs : M Kwargs := s ← get_self; mret (_kwargs s).

(** [assert cond, msg]. *)
Definition assert (cond : bool) (msg : string) : M unit :=
  if cond then mret tt else raise (AssertionError msg).

(** [for x in l: body x], no [break]. *)
Fixpoint for_each {A} (l : list A) (body : A -> M unit) : M unit :=
  match l with
  | [] => mret tt
  | x :: l' => body x;; for_each l' body
  end.

(** A loop that threads a local variable. *)
Fixpoint fold_each {A S} (l : list A) (body : S -> A -> M S) (s : S) : M S :=
  match l with
  | [] => mret s
  | x :: l' => s' ← body s x; fold_each l' body s'
  end.

(** A method keeps a relation between the world before and the world
    after, whether it returns or raises. *)
Definition keeps (R : World -> World -> Prop) {A} (m : M A) : Prop :=
  forall w, R w (m w).2.

End Monad.
Import Monad.

(** ** Metadata trees *)

Module Meta.

(** A node the code indexes with a string key has to be a mapping. *)
Definition as_dict (v : pyval) : Res (list (string * pyval)) :=
  match v with
  | VDict d => Ok d
  | _ => Raise (TypeError "not a mapping")
  end.

Definition as_str (v : pyval) : Res string :=
  match v with
  | VStr s => Ok s
  | _ => Raise (TypeError "not a str")
  end.

(** [node[key]]. *)
Definition getitem (v : pyval) (key : string) : Res pyval :=
  d ← as_dict v;
  match Py.dict_get d key with
  | Some x => Ok x
  | None => Raise (KeyError key)
  end.

(** [key in node]. *)
Definition contains (v : pyval) (key : string) : Res bool :=
  d ← as_dict v; Ok (Py.dict_mem d key).

(** [node[key] = x]. *)
Definition setitem (v : pyval) (key : string) (x : pyval) : Res pyval :=
  d ← as_dict v; Ok (VDict (Py.dict_set d key x)).

(** Modelled from the spec: [dict_deep_update] of [utils/json_schema.py],
    which is not among the sources.  "Recursively merge a user-supplied
    metadata tree onto an auto-derived default tree, with user leaves
    winning; collections at matching keys are merged by key (for
    mappings) not concatenated; unknown keys are passed through
    unchanged."  [d] is the default tree, [u] the user's. *)
Fixpoint dict_deep_update (d u : pyval) {struct u} : pyval :=
  match u, d with
  | VDict us, VDict ds =>
      VDict
        ((fix merge (us : list (string * pyval)) (acc : list (string * pyval))
            {struct us} : list (string * pyval) :=
            match us with
            | [] => acc
            | (k, v) :: us' =>
                let v' :=
                  match v, Py.dict_get acc k with
                  | VDict _, Some old => dict_deep_update old v
                  | _, _ => v
                  end in
                merge us' (Py.dict_set acc k v')
            end) us ds)
  | _, _ => u
  end.

End Meta.

(** ** [basenwbephyswriter.py] *)

Inductive extractor : Type :=
| ORecording (r : RecordingExtractor)
| OSorting (s : SortingExtractor).

(** [list_get]: safe index retrieval from a list. *)
Definition list_get {A} (li : list A) (idx : nat) (default : A) : A :=
  match li !! idx with
  | Some x => x
  | None => default
  end.

(** [check_module]: the processing module of that name, created when it is
    not there; the container comes back with it. *)
Definition check_module (f : NWBFile) (name : string) (description : option string)
  : NWBFile * ProcessingModule :=
  match processing f !! name with
  | Some m => (f, m)
  | None =>
      let m := {| pm_description := default name description;
                  pm_data_interfaces := ∅ |} in
      (NWB.with_processing f (<[name := m]> (processing f)), m)
  end.

Module TableProperty.

Definition set_column_data (c : Column) (data : list pyval) : Column :=
  {| col_name := col_name c; col_description := col_description c;
     col_data := data; col_index := col_index c; col_table := col_table c |}.

(** [col.data[ids.index(row_id)] = value] for the zipped pairs. *)
Fixpoint assign (ids : list Z) (data : list pyval) (row_ids : list Z)
    (values : list pyval) : Res (list pyval) :=
  match row_ids, values with
  | row_id :: row_ids', value :: values' =>
      match Py.Z_index ids row_id with
      | Some i =>
          if (i <? length data)%nat
          then assign ids (<[i := value]> data) row_ids' values'
          else Raise IndexError
      | None => Raise (ValueError "is not in list")
      end
  | _, _ => Ok data
  end.

Definition replace_column (t : DynamicTable) (c : Column) : DynamicTable :=
  {| tbl_id := tbl_id t;
     tbl_columns := map (fun c' => if String.eqb (col_name c') (col_name c)
                                   then c else c') (tbl_columns t) |}.

(** [set_dynamic_table_property], with [row_ids] a list of integers and
    [property_name] a string by their types. *)
Definition set_dynamic_table_property (dynamic_table : DynamicTable)
    (row_ids : list Z) (property_name : string) (values : list pyval)
    (index : index_arg) (default_value : pyval) (table : bool)
    (description : string) : Res DynamicTable :=
  let ids := tbl_id dynamic_table in
  if existsb (fun i => negb (Py.Z_mem i ids)) row_ids then
    Raise (ValueError "'ids' contains values outside the range of existing ids")
  else
    match index with
    | IndexFalse =>
        if negb (length row_ids =? length values)%nat then
          Raise (ValueError "'ids' and 'values' should be lists of same size")
        else if Table.contains dynamic_table property_name then
          match Table.get_column dynamic_table property_name with
          | Some c =>
              match col_index c with
              | None =>
                  data ← assign ids (col_data c) row_ids values;
                  Ok (replace_column dynamic_table (set_column_data c data))
              | Some _ => Raise (TypeError "assignment into the index of a ragged column")
              end
          | None => Raise (TypeError "assignment into the index of a ragged column")
          end
        else
          col_data ← assign ids (replicate (length ids) default_value) row_ids values;
          Table.add_column dynamic_table property_name description col_data index table
    | _ =>
        if Table.contains dynamic_table property_name then
          Raise (NotImplementedError "")
        else
          Table.add_column dynamic_table property_name description values index table
    end.

End TableProperty.

Module BaseNwbEphysWriter.

Definition no_kwargs : Kwargs :=
  {| kw_overwrite := None; kw_write_electrical_series := None;
     kw_buffer_mb := None; kw_use_times := None; kw_write_as := None;
     kw_es_key := None; kw_write_scaled := None; kw_compression := None;
     kw_compression_opts := None; kw_iterate := None;
     kw_property_descriptions := None; kw_skip_properties := None;
     kw_skip_features := None; kw_exclude_properties := None;
     kw_exclude_features := None |}.

(** [__init__]: one of the path and the container has to be given. *)
Definition init (object_to_write : extractor) (nwb_file_path : option string)
    (nwbfile : option NWBFile) (metadata : option pyval) (kwargs : Kwargs)
  : Res Writer :=
  if bool_decide (is_Some nwb_file_path) || bool_decide (is_Some nwbfile) then
    Ok {| recording := None; sorting := None; nwb_file_path := nwb_file_path;
          nwbfile := nwbfile; metadata := metadata; _kwargs := kwargs |}
  else Raise (AssertionError "Use either 'nwbfile' or 'nwb_file_path' arguments!").

(** [instantiate_nwbfile]: the defaults are over-written by the metadata. *)
Definition instantiate_nwbfile : M unit :=
  fun w =>
    let nwbfile_kwargs :=
      [("session_description",
        VStr "Auto-generated by NwbRecordingExtractor without description.");
       ("identifier", VStr (next_uuid w));
       ("session_start_time", VDatetime 1970 1 1)] in
    (s ← get_self;
     nwbfile_kwargs' ←
       (match metadata s with
        | Some md =>
            has ← lift (Meta.contains md "NWBFile");
            if has : bool then
              sub ← lift (Meta.getitem md "NWBFile");
              upd ← lift (Meta.as_dict sub);
              mret (Py.dict_update nwbfile_kwargs upd)
            else mret nwbfile_kwargs
        | None => mret nwbfile_kwargs
        end);
     put_self (with_nwbfile s (Some (NWB.new nwbfile_kwargs')))) w.

Definition device_defaults : list (string * pyval) :=
  [("name", VStr "Device");
   ("description", VStr "Ecephys probe. Automatically generated.")].

(** [nwbfile.create_device]: the keywords it takes are [name],
    [description] and [manufacturer]; a name is used once. *)
Definition create_device (f : NWBFile) (kwargs : list (string * pyval))
  : Res NWBFile :=
  if negb (forallb (fun k => Py.str_mem k ["name"; "description"; "manufacturer"])
                   (Py.dict_keys kwargs)) then
    Raise (TypeError "unrecognized argument")
  else
    match Py.dict_get kwargs "name" with
    | Some (VStr name) =>
        if bool_decide (is_Some (devices f !! name)) then
          Raise (ValueError ("'" +:+ name +:+ "' already exists"))
        else Ok (NWB.with_devices f (<[name := kwargs]> (devices f)))
    | _ => Raise (TypeError "incorrect type for 'name'")
    end.

(** [add_devices]: ensures the container has at least one device and
    creates the devices of [metadata['Ecephys']['Device']] that are
    missing by name. *)
Definition add_devices (metadata_arg : option pyval) : M unit :=
  print "add devices";;
  s ← get_self;
  self_metadata ←
    (match metadata s with
     | Some md => mret md
     | None => set_metadata (VDict []);; mret (VDict [])
     end);
  let metadata0 := default self_metadata metadata_arg in
  has_ecephys ← lift (Meta.contains metadata0 "Ecephys");
  metadata1 ← (if has_ecephys : bool then mret metadata0
                else lift (Meta.setitem metadata0 "Ecephys" (VDict [])));
  ecephys ← lift (Meta.getitem metadata1 "Ecephys");
  has_device ← lift (Meta.contains ecephys "Device");
  ecephys1 ← (if has_device : bool then mret ecephys
               else lift (Meta.setitem ecephys "Device" (VList [VDict device_defaults])));
  device_list ← lift (Meta.getitem ecephys1 "Device");
  devs ← lift (Py.iter device_list);
  for_each devs (fun dev =>
    match dev with
    | VDict d =>
        name ← lift (Meta.as_str (default (VStr "Device") (Py.dict_get d "name")));
        f ← get_nwbfile;
        if bool_decide (is_Some (devices f !! name)) then mret tt
        else update_nwbfile (fun f => create_device f (Py.dict_update device_defaults d))
    | _ => raise (AttributeError "object has no attribute 'get'")
    end);;
  f ← get_nwbfile;
  print "devices".

(** The methods the base class leaves to its subclasses.  A call that
    passes a keyword the signature [(self)] does not have fails before the
    body runs. *)
Definition stub {A} (unexpected_keyword : option string) : M A :=
  match unexpected_keyword with
  | Some k => raise (TypeError ("got an unexpected keyword argument '" +:+ k +:+ "'"))
  | None => raise (NotImplementedError "")
  end.

Definition write_to_nwb : M unit := stub None.
Definition write_recording : M unit := stub None.
Definition write_sorting : M unit := stub None.
Definition write_epochs : M unit := stub None.
Definition write_waveforms : M unit := stub None.
Definition get_nwb_metadata : M pyval := stub None.
Definition add_electrodes : M unit := stub None.
Definition add_electrode_groups (unexpected_keyword : option string) : M unit :=
  stub unexpected_keyword.
Definition add_electrical_series : M unit := stub None.
Definition add_units : M unit := stub None.
Definition add_epochs : M unit := stub None.

End BaseNwbEphysWriter.

(** ** [basesinwbephyswriter.py] *)

(** [np.unique] on integers: the sorted distinct values. *)
Fixpoint insert_sorted_Z (z : Z) (l : list Z) : list Z :=
  match l with
  | [] => [z]
  | y :: l' =>
      if (z <? y)%Z then z :: l
      else if (z =? y)%Z then l
      else y :: insert_sorted_Z z l'
  end.

Definition np_unique_Z (l : list Z) : list Z :=
  fold_right insert_sorted_Z [] l.

Module BaseSINwbEphysWriter.

(** [__init__]: the four extractor slots are set to [None] and stay so. *)
Definition init (object_to_write : extractor) (nwbfile : option NWBFile)
    (metadata : option pyval) (kwargs : Kwargs) : Res Writer :=
  BaseNwbEphysWriter.init object_to_write None nwbfile metadata kwargs.

(** [add_electrode_groups]: the distinct channel groups are computed, and
    then the method is looked up on [super(BaseNwbEphysWriter)], an
    unbound super object, which has no such attribute. *)
Definition add_electrode_groups : M unit :=
  r ← get_recording;
  let channel_groups_unique :=
    match channel_groups r with
    | None => [0%Z]
    | Some g => np_unique_Z (map g (channel_ids r))
    end in
  raise (AttributeError "'super' object has no attribute 'add_electrode_groups'").

End BaseSINwbEphysWriter.

(** ** [si013nwbephyswriter.py] *)

(** The candidate types of a property column, in the order of the keys of
    [channel_property_defaults]: [list], [np.ndarray], [str], [Real]. *)
Inductive proptype : Type := Tlist | Tndarray | Tstr | TReal.

#[export] Instance proptype_eq_dec : EqDecision proptype.
Proof. solve_decision. Defined.

(** The keyword dict kept per electrode column:
    [dict(description=..., data=..., index=...)], each key present or not. *)
Record col_args : Type := {
  ca_description : option pyval;
  ca_data : option (list pyval);
  ca_index : option bool
}.

Module Reconcile.

Definition candidate_types : list proptype := [Tlist; Tndarray; Tstr; TReal].

(** [isinstance(v, t)]; [bool], [int] and [float] are [numbers.Real]. *)
Definition isinstance (v : pyval) (t : proptype) : bool :=
  match t, v with
  | Tlist, VList _ => true
  | Tndarray, VArray _ _ => true
  | Tstr, VStr _ => true
  | TReal, (VBool _ | VInt _ | VFloat _) => true
  | _, _ => false
  end.

(** [channel_property_defaults]. *)
Definition channel_property_defaults (t : proptype) : pyval :=
  match t with
  | Tlist => VList []
  | Tndarray => VArray [] [PrimFloat.nan]
  | Tstr => VStr ""
  | TReal => VFloat PrimFloat.nan
  end.

(** [[t for t in channel_property_defaults if isinstance(v, t)]]. *)
Definition matching_types (v : pyval) : list proptype :=
  filter (fun t => isinstance v t) candidate_types.

Definition found_type (found : gmap string proptype) (prop : string)
  : Res proptype :=
  match found !! prop with
  | Some t => Ok t
  | None => Raise (KeyError prop)
  end.

(** The inner loop of the reconciliation, over the channels still to
    visit: [data] and [prop_chan_count] are the loop's locals, [found] is
    [found_property_types].  The boolean is [prop_skip]; the loop breaks
    when it is set. *)
Fixpoint build_data (r : RecordingExtractor) (prop : string) (chans : list Z)
    (found : gmap string proptype) (prop_chan_count : nat) (data : list pyval)
  : Res (bool * gmap string proptype * list pyval) :=
  match chans with
  | [] => Ok (false, found, data)
  | chan_id :: chans' =>
      if Py.str_mem prop (Extractor.get_channel_property_names r chan_id) then
        let prop_chan_count := S prop_chan_count in
        chan_data ← Extractor.get_channel_property r chan_id prop;
        if (prop_chan_count =? 1)%nat then
          match matching_types chan_data with
          | t :: _ =>
              let found := <[prop := t]> found in
              chan_data ← (if decide (t = TReal) then Py.to_float chan_data
                           else Ok chan_data);
              let data :=
                match last data with
                | Some d =>
                    if negb (isinstance d t)
                    then replicate (length data) (channel_property_defaults t)
                    else data
                | None => data
                end in
              build_data r prop chans' found prop_chan_count (data ++ [chan_data])
          | [] => Ok (true, found, data)
          end
        else build_data r prop chans' found prop_chan_count (data ++ [chan_data])
      else
        t ← found_type found prop;
        build_data r prop chans' found prop_chan_count
                   (data ++ [channel_property_defaults t])
  end.

(** [elec_columns[name].update(description=..., data=..., index=...)] on
    the defaultdict. *)
Definition update_column (elec_columns : list (string * col_args))
    (name : string) (description : pyval) (data : list pyval) (index : bool)
  : list (string * col_args) :=
  Py.dict_set elec_columns name
    {| ca_description := Some description; ca_data := Some data;
       ca_index := Some index |}.

(** [elec_columns[name]["description"] = description] on the defaultdict:
    reading a missing key creates its empty dict. *)
Definition set_description (elec_columns : list (string * col_args))
    (name : string) (description : pyval) : list (string * col_args) :=
  match Py.dict_get elec_columns name with
  | Some a =>
      Py.dict_set elec_columns name
        {| ca_description := Some description; ca_data := ca_data a;
           ca_index := ca_index a |}
  | None =>
      Py.dict_set elec_columns name
        {| ca_description := Some description; ca_data := None;
           ca_index := None |}
  end.

Section WithArrayType.

(** [found_property_types[prop] == ArrayType]; [ArrayType] is imported
    from [common_writer_tools], which is not among the sources. *)
Variable ArrayType_is : proptype -> bool.

(** The body of [for prop in property_names]. *)
Definition reconcile_property (r : RecordingExtractor)
    (exclude_names : list string)
    (st : gmap string proptype * list (string * col_args)) (prop : string)
  : Res (gmap string proptype * list (string * col_args)) :=
  let '(found, elec_columns) := st in
  if negb (Py.str_mem prop exclude_names) then
    '(prop_skip, found, data) ← build_data r prop (channel_ids r) found O [];
    if negb prop_skip then
      t ← found_type found prop;
      let index := ArrayType_is t in
      let prop_name_new := if String.eqb prop "brain_area" then "location" else prop in
      let found := <[prop_name_new := t]> (delete prop found) in
      Ok (found, update_column elec_columns prop_name_new (VStr prop_name_new) data index)
    else Ok (found, elec_columns)
  else Ok (found, elec_columns).

Fixpoint reconcile_properties (r : RecordingExtractor)
    (exclude_names : list string) (props : list string)
    (st : gmap string proptype * list (string * col_args))
  : Res (gmap string proptype * list (string * col_args)) :=
  match props with
  | [] => Ok st
  | prop :: props' =>
      st' ← reconcile_property r exclude_names st prop;
      reconcile_properties r exclude_names props' st'
  end.

End WithArrayType.

(** The set of the property names of all channels. *)
Definition property_names (r : RecordingExtractor) : gset string :=
  foldr (fun chan_id acc =>
           acc ∪ list_to_set (Extractor.get_channel_property_names r chan_id))
        ∅ (channel_ids r).

(** *** What the reconciliation computes

    The description the loop is compared with: the type of a column is
    that of the first value of the property; the cells are the values as
    the channels have them. *)




End Reconcile.

(** [np.unique] on floats: the array is sorted and an entry is kept when it
    differs from the one before it. *)
Fixpoint insert_sorted (x : float) (l : list float) : list float :=
  match l with
  | [] => [x]
  | y :: l' => if Float64.sort_le x y then x :: l else y :: insert_sorted x l'
  end.

Definition np_sort (l : list float) : list float := fold_right insert_sorted [] l.

Fixpoint unique_mask (prev : float) (l : list float) : list float :=
  match l with
  | [] => []
  | y :: l' =>
      if negb (PrimFloat.eqb y prev) then y :: unique_mask y l'
      else unique_mask y l'
  end.

Definition np_unique (l : list float) : list float :=
  match np_sort l with
  | [] => []
  | x :: l' => x :: unique_mask x l'
  end.

Module SI013NwbEphysWriter.

Import Reconcile.

(** [__init__]: the object to write goes to the slot of its kind. *)
Definition init (object_to_write : extractor) (nwb_file_path : option string)
    (nwbfile : option NWBFile) (metadata : option pyval) (kwargs : Kwargs)
  : Res Writer :=
  w ← BaseNwbEphysWriter.init object_to_write nwb_file_path nwbfile metadata kwargs;
  Ok {| recording := match object_to_write with ORecording r => Some r | _ => None end;
        sorting := match object_to_write with OSorting s => Some s | _ => None end;
        nwb_file_path := nwb_file_path; nwbfile := nwbfile;
        metadata := metadata; _kwargs := kwargs |}.

(** [add_electrode_groups] is not overridden: the class inherits the base
    class's method. *)
Definition add_electrode_groups := BaseNwbEphysWriter.add_electrode_groups.
Definition add_devices := BaseNwbEphysWriter.add_devices.
Definition instantiate_nwbfile := BaseNwbEphysWriter.instantiate_nwbfile.

Definition electrode_defaults : list (string * pyval) :=
  [("x", VFloat PrimFloat.nan); ("y", VFloat PrimFloat.nan);
   ("z", VFloat PrimFloat.nan); ("imp", VFloat (-1)%float);
   ("location", VStr "unknown"); ("filtering", VStr "none");
   ("group_name", VStr "0")].

(** [get_nwb_metadata]: default metadata for all recording fields. *)
Definition get_nwb_metadata : M pyval :=
  fun w =>
    (r ← get_recording;
     groups ← (match channel_groups r with
               | Some g => mret (np_unique_Z (map g (channel_ids r)))
               | None => raise (TypeError "None has no distinct values to name groups by")
               end);
     mret (VDict
       [("NWBFile", VDict
           [("session_description",
             VStr "Auto-generated by NWB-conversion-tools without description.");
            ("identifier", VStr (next_uuid w));
            ("session_start_time", VDatetime 1970 1 1)]);
        ("Ecephys", VDict
           [("Device", VList [VDict [("name", VStr "Device");
                                     ("description", VStr "no description")]]);
            ("ElectrodeGroup", VList
               (map (fun gn => VDict [("name", VStr (pretty gn));
                                      ("description", VStr "no description");
                                      ("location", VStr "unknown");
                                      ("device", VStr "Device")]) groups))])])) w.

(** An entry of [metadata['Ecephys']['Electrodes']] passes the first
    assertion when it is a dict whose keys are exactly [name] and
    [description]. *)
Definition valid_electrodes_entry (x : pyval) : bool :=
  match x with
  | VDict d =>
      forallb (fun k => Py.str_mem k ["name"; "description"]) (Py.dict_keys d)
      && Py.dict_mem d "name" && Py.dict_mem d "description"
  | _ => false
  end.

Definition entry_is_group (x : pyval) : bool :=
  match x with
  | VDict d => match Py.dict_get d "name" with
               | Some (VStr "group") => true
               | _ => false
               end
  | _ => false
  end.

(** The metadata is completed in place down to
    [metadata['Ecephys']['Electrodes']], whose entries are then checked. *)
Definition electrodes_metadata : M (list pyval) :=
  s ← get_self;
  md ← (match metadata s with
        | Some m => mret m
        | None => let m := VDict [("Ecephys", VDict [])] in
                  set_metadata m;; mret m
        end);
  has ← lift (Meta.contains md "Ecephys");
  md ← (if has : bool then mret md
        else m ← lift (Meta.setitem md "Ecephys" (VDict []));
             set_metadata m;; mret m);
  ecephys ← lift (Meta.getitem md "Ecephys");
  has ← lift (Meta.contains ecephys "Electrodes");
  ecephys ← (if has : bool then mret ecephys
             else e ← lift (Meta.setitem ecephys "Electrodes" (VList []));
                  m ← lift (Meta.setitem md "Ecephys" e);
                  set_metadata m;; mret e);
  electrodes_md ← lift (Meta.getitem ecephys "Electrodes");
  entries ← lift (Py.iter electrodes_md);
  assert (forallb valid_electrodes_entry entries)
    "Expected metadata['Ecephys']['Electrodes'] to be a list of dictionaries, containing the keys 'name' and 'description'";;
  assert (forallb (fun x => negb (entry_is_group x)) entries)
    "Passing metadata field 'group' is deprecated; pass group_name instead!";;
  mret entries.

(** The loop over [metadata['Ecephys']['Electrodes']]: the description is
    stored first, through the defaultdict, and then the name is looked
    for among the keys.  A name is a string (a dict key of the model). *)
Fixpoint apply_descriptions (entries : list pyval)
    (elec_columns : list (string * col_args)) : Res (list (string * col_args)) :=
  match entries with
  | [] => Ok elec_columns
  | x :: entries' =>
      name ← Meta.getitem x "name";
      name ← Meta.as_str name;
      description ← Meta.getitem x "description";
      let elec_columns := set_description elec_columns name description in
      if negb (Py.str_mem name (Py.dict_keys elec_columns)) then
        Raise (ValueError (name +:+ " not a property of se object"))
      else apply_descriptions entries' elec_columns
  end.

(** The defaults of the columns of an electrodes table that is already
    there, sampled from its first row. *)
Fixpoint existing_defaults (t : DynamicTable) (colnames : list string)
    (default_updated : list (string * pyval)) : Res (list (string * pyval)) :=
  match colnames with
  | [] => Ok default_updated
  | colname :: colnames' =>
      if String.eqb colname "group" then
        existing_defaults t colnames' default_updated
      else
        match Table.getitem_data t colname with
        | Some (samp_data :: _) =>
            match matching_types samp_data with
            | default_datatype :: _ =>
                existing_defaults t colnames'
                  (Py.dict_set default_updated colname
                     (channel_property_defaults default_datatype))
            | [] => Raise IndexError
            end
        | Some [] => Raise IndexError
        | None => Raise (KeyError colname)
        end
  end.

Definition key {A} (o : option A) (name : string) : Res A :=
  match o with
  | Some a => Ok a
  | None => Raise (KeyError name)
  end.

Definition item {A} (l : list A) (j : nat) : Res A :=
  match l !! j with
  | Some a => Ok a
  | None => Raise IndexError
  end.

(** *** [add_units] and [get_num_spikes] *)

Definition _default_sorting_property_descriptions : list (string * string) :=
  [("isi_violation",
    "Quality metric that measures the ISI violation ratio as a proxy for the purity of the unit.");
   ("firing_rate", "Number of spikes per unit of time.");
   ("template", "The extracellular average waveform.");
   ("max_channel", "The recording channel id with the largest amplitude.");
   ("halfwidth",
    "The full-width half maximum of the negative peak computed on the maximum channel.");
   ("peak_to_valley",
    "The duration between the negative and the positive peaks computed on the maximum channel.");
   ("snr", "The signal-to-noise ratio of the unit.");
   ("quality", "Quality of the unit as defined by phy (good, mua, noise).");
   ("spike_amplitude", "Average amplitude of peaks detected on the channel.");
   ("spike_rate", "Average rate of peaks detected on the channel.")].

(** [get_num_spikes]: the number of spikes of the chosen unit, read off the
    index of the ragged column [spike_times]. *)
Definition get_num_spikes (units_table : DynamicTable) (unit_id : Z) : Res Z :=
  match Py.Z_index (tbl_id units_table) unit_id with
  | None => Raise (ValueError (pretty unit_id +:+ " is an invalid unit_id."))
  | Some index =>
      data ← key (Table.getitem_data units_table "spike_times_index") "spike_times_index";
      match index with
      | O =>
          match data !! O with
          | Some (VInt n) => Ok n
          | _ => Raise IndexError
          end
      | S index' =>
          match data !! index, data !! index' with
          | Some (VInt n), Some (VInt n') => Ok (n - n')%Z
          | _, _ => Raise IndexError
          end
      end
  end.

(** [np.array(v).shape]: the lengths along the axes on which the nested
    sequences agree. *)
Fixpoint np_shape (v : pyval) : list nat :=
  match v with
  | VArray shape _ => shape
  | VList l =>
      let shapes := map np_shape l in
      length l ::
        match shapes with
        | [] => []
        | s :: rest => if forallb (fun s' => bool_decide (s' = s)) rest then s else []
        end
  | _ => []
  end.

(** An entry of the list [shapes] of a property: [np.nan], a length or a
    shape tuple. *)
Inductive shape_entry : Type :=
| ShapeNaN
| ShapeLen (n : nat)
| ShapeTuple (s : list nat).

#[export] Instance shape_entry_eq_dec : EqDecision shape_entry.
Proof. solve_decision. Defined.

Definition shape_entry_eqb (a b : shape_entry) : bool :=
  match a, b with
  | ShapeLen n, ShapeLen m => (n =? m)%nat
  | ShapeTuple s, ShapeTuple s' => bool_decide (s = s')
  | _, _ => false
  end.

Definition is_scalar (v : pyval) : bool :=
  match v with
  | VInt _ | VFloat _ | VStr _ | VBool _ => true
  | _ => false
  end.

Definition is_sequence (v : pyval) : bool :=
  match v with
  | VList _ | VArray _ _ => true
  | _ => false
  end.

Definition is_dict (v : pyval) : bool :=
  match v with
  | VDict _ => true
  | _ => false
  end.

(** The inner loop of the check of the property shapes; the boolean tells
    that the property is a dictionary somewhere (the loop breaks there). *)
Fixpoint property_shape_entries (s : SortingExtractor) (pr : string)
    (units : list Z) (shapes : list shape_entry) : Res (bool * list shape_entry) :=
  match units with
  | [] => Ok (false, shapes)
  | unit_id :: units' =>
      if Py.str_mem pr (Extractor.get_unit_property_names s unit_id) then
        prop_value ← Extractor.get_unit_property s unit_id pr;
        if is_scalar prop_value then
          property_shape_entries s pr units' (shapes ++ [ShapeLen 1])
        else if is_sequence prop_value then
          let shape := np_shape prop_value in
          property_shape_entries s pr units'
            (shapes ++ [match shape with
                        | [n] => ShapeLen n
                        | _ => ShapeTuple shape
                        end])
        else if is_dict prop_value then Ok (true, shapes)
        else property_shape_entries s pr units' shapes
      else property_shape_entries s pr units' (shapes ++ [ShapeNaN])
  end.

(** The loop [for pr in all_properties] that fills [property_shapes]. *)
Definition property_shape (s : SortingExtractor)
    (st : list (string * list shape_entry) * list string) (pr : string)
  : M (list (string * list shape_entry) * list string) :=
  let '(property_shapes, skip_properties) := st in
  '(is_dictionary, shapes) ← lift (property_shape_entries s pr (unit_ids s) []);
  skip_properties ←
    (if is_dictionary : bool then
       print ("Skipping property '" +:+ pr +:+ "' because dictionaries are not supported.");;
       mret (skip_properties ++ [pr])
     else mret skip_properties);
  mret (Py.dict_set property_shapes pr shapes, skip_properties).

(** The loop [for pr in property_shapes.keys()]. *)
Definition property_size (skip_properties : list string)
    (entry : string * list shape_entry) : M (list string) :=
  let '(pr, shapes) := entry in
  let elems := filter (fun e => negb (bool_decide (e = ShapeNaN))) shapes in
  match elems with
  | e0 :: _ =>
      if negb (forallb (fun e => shape_entry_eqb e e0) elems) then
        print ("Skipping property '" +:+ pr +:+ "' because it has variable size across units.");;
        mret (skip_properties ++ [pr])
      else mret skip_properties
  | [] => mret skip_properties
  end.

(** [nwbfile.add_unit_column] for a property that is written. *)
Definition add_property_column (property_descriptions : list (string * string))
    (pr : string) : M unit :=
  f ← get_nwbfile;
  let description := default "No description." (Py.dict_get property_descriptions pr) in
  let table := Py.str_mem pr ["max_channel"; "max_electrode"]
               && bool_decide (is_Some (electrodes f)) in
  update_nwbfile (fun f => NWB.add_unit_column f pr description table).

(** The keyword dict of the properties of one unit. *)
Fixpoint unit_properties_kwargs (s : SortingExtractor) (unit_id : Z)
    (write_properties : list string) (unit_kwargs : list (string * pyval))
  : Res (list (string * pyval)) :=
  match write_properties with
  | [] => Ok unit_kwargs
  | pr :: write_properties' =>
      if Py.str_mem pr (Extractor.get_unit_property_names s unit_id) then
        prop_value ← Extractor.get_unit_property s unit_id pr;
        unit_properties_kwargs s unit_id write_properties'
          (Py.dict_set unit_kwargs pr prop_value)
      else
        unit_properties_kwargs s unit_id write_properties'
          (Py.dict_set unit_kwargs pr (VFloat PrimFloat.nan))
  end.

(** A frame index as a float; frame indices are 64-bit integers. *)
Definition frame_as_float (z : Z) : float :=
  default PrimFloat.infinity (Float64.of_Z z).

(** The body of the loop that adds the units. *)
Definition add_unit_row (s : SortingExtractor) (use_times : bool) (fs : float)
    (write_properties : list string) (unit_id : Z) : M unit :=
  let train := unit_spike_train s unit_id in
  let spkt :=
    if use_times then map (sorting_frame_to_time s) train
    else map (fun frame => PrimFloat.div (frame_as_float frame) fs) train in
  unit_kwargs ← lift (unit_properties_kwargs s unit_id write_properties []);
  if Py.dict_mem unit_kwargs "id" || Py.dict_mem unit_kwargs "spike_times" then
    raise (TypeError "got multiple values for keyword argument")
  else
    update_nwbfile (fun f =>
      NWB.add_unit f unit_id
        (("spike_times", VArray [length spkt] spkt) :: unit_kwargs)).

(** How the inner loop of the check of the feature shapes ended. *)
Inductive feature_break : Type :=
| NoBreak
| BreakScalar
| BreakDict
| BreakNotShared.

(** The inner loop; [recorded] tells whether [feature_shapes[ft]] was
    assigned (it is the list [shapes] itself, so it follows the appends). *)
Fixpoint feature_shape_entries (s : SortingExtractor) (ft : string)
    (units : list Z) (shapes : list (list nat)) (recorded : bool)
  : Res (feature_break * list (list nat) * bool) :=
  match units with
  | [] => Ok (NoBreak, shapes, recorded)
  | unit_id :: units' =>
      if Py.str_mem ft (Extractor.get_unit_spike_feature_names s unit_id) then
        feat_value ← Extractor.get_unit_spike_features s unit_id ft;
        first ← item feat_value 0;
        if is_scalar first then Ok (BreakScalar, shapes, recorded)
        else if is_sequence first then
          let shape := np_shape (VList feat_value) in
          if (1 <? length shape)%nat
          then feature_shape_entries s ft units' (shapes ++ [shape]) true
          else feature_shape_entries s ft units' shapes recorded
        else if is_dict first then Ok (BreakDict, shapes, recorded)
        else feature_shape_entries s ft units' shapes recorded
      else Ok (BreakNotShared, shapes, recorded)
  end.

(** The loop [for ft in all_features] that fills [feature_shapes]. *)
Definition feature_shape (s : SortingExtractor)
    (st : list (string * list (list nat)) * list string) (ft : string)
  : M (list (string * list (list nat)) * list string) :=
  let '(feature_shapes, skip_features) := st in
  '(how, shapes, recorded) ← lift (feature_shape_entries s ft (unit_ids s) [] false);
  let feature_shapes :=
    if recorded : bool then Py.dict_set feature_shapes ft shapes else feature_shapes in
  match how with
  | BreakDict =>
      print ("Skipping feature '" +:+ ft +:+ "' because dictionaries are not supported.");;
      mret (feature_shapes, skip_features ++ [ft])
  | BreakNotShared =>
      print ("Skipping feature '" +:+ ft +:+ "' because not share across all units.");;
      mret (feature_shapes, skip_features ++ [ft])
  | _ => mret (feature_shapes, skip_features)
  end.

(** The loop [for ft in feature_shapes.keys()]: the shapes are compared
    without their first dimension, the number of spikes. *)
Definition feature_size (skip_features : list string)
    (entry : string * list (list nat)) : M (list string) :=
  let '(ft, shapes) := entry in
  match shapes with
  | s0 :: _ =>
      if negb (forallb (fun elem => bool_decide (tail elem = tail s0)) shapes) then
        print ("Skipping feature '" +:+ ft +:+ "' because it has variable size across units.");;
        mret (skip_features ++ [ft])
      else mret skip_features
  | [] => mret skip_features
  end.

Fixpoint zdict_get (d : list (Z * Z)) (k : Z) : option Z :=
  match d with
  | [] => None
  | (k', v) :: d' => if (k' =? k)%Z then Some v else zdict_get d' k
  end.

Fixpoint zdict_set (d : list (Z * Z)) (k v : Z) : list (Z * Z) :=
  match d with
  | [] => [(k, v)]
  | (k', v') :: d' =>
      if (k' =? k)%Z then (k', v) :: d' else (k', v') :: zdict_set d' k v
  end.

(** [{k: get_num_spikes(self.nwbfile.units, int(k)) for k in unit_ids}]. *)
Definition count_spikes (nspikes : list (Z * Z)) (k : Z) : M (list (Z * Z)) :=
  f ← get_nwbfile;
  match units f with
  | Some t => n ← lift (get_num_spikes t k); mret (zdict_set nspikes k n)
  | None => raise (AttributeError "'NoneType' object has no attribute 'id'")
  end.

(** [np.cumsum]. *)
Fixpoint cumsum (acc : Z) (l : list Z) : list Z :=
  match l with
  | [] => []
  | x :: l' => (acc + x)%Z :: cumsum (acc + x)%Z l'
  end.

(** The inner loop of the feature-writing pass; the boolean tells that the
    loop broke at a unit whose feature is shorter than its spike train. *)
Fixpoint feature_values (s : SortingExtractor) (ft : string)
    (nspikes : list (Z * Z)) (units : list Z) (values : list (list pyval))
  : Res (bool * list (list pyval)) :=
  match units with
  | [] => Ok (false, values)
  | unit_id :: units' =>
      feat_vals ← Extractor.get_unit_spike_features s unit_id ft;
      n ← key (zdict_get nspikes unit_id) (pretty unit_id);
      if (Z.of_nat (length feat_vals) <? n)%Z then Ok (true, values)
      else feature_values s ft nspikes units' (values ++ [feat_vals])
  end.

(** The end of the body of the feature-writing pass: the values are
    flattened and the column is added, unless the table answers to its name
    already. *)
Definition write_feature_column (s : SortingExtractor) (nspikes : list (Z * Z))
    (ft : string) (values : list (list pyval)) (skip_features : list string)
  : M (list string) :=
  let flatten_vals := concat values in
  let nspks_list := map snd nspikes in
  let spikes_index := cumsum 0 nspks_list in
  f ← get_nwbfile;
  match units f with
  | Some t =>
      if Table.contains t ft then
        warn ("Feature " +:+ ft +:+ " already present in units table, skipping it");;
        mret skip_features
      else
        t' ← lift (TableProperty.set_dynamic_table_property t (unit_ids s) ft
                     flatten_vals (IndexArray spikes_index)
                     (VFloat PrimFloat.nan) false "no description");
        set_nwbfile (NWB.with_units f (Some t'));;
        mret skip_features
  | None => raise (TypeError "argument of type 'NoneType' is not iterable")
  end.

(** The body of the feature-writing pass,
    [for ft in set(all_features) - set(skip_features)]. *)
Definition write_feature (s : SortingExtractor) (nspikes : list (Z * Z))
    (skip_features : list string) (ft : string) : M (list string) :=
  if negb (Py.endswith ft "_idxs") then
    '(short, values) ← lift (feature_values s ft nspikes (unit_ids s) []);
    skip_features ←
      (if short : bool then
         print ("Skipping feature '" +:+ ft +:+ "' because it is not defined for all spikes.");;
         mret (skip_features ++ [ft])
       else mret skip_features);
    write_feature_column s nspikes ft values skip_features
  else mret skip_features.

Definition all_properties (s : SortingExtractor) : gset string :=
  foldr (fun unit_id acc =>
           acc ∪ list_to_set (Extractor.get_unit_property_names s unit_id))
        ∅ (unit_ids s).

Definition all_features (s : SortingExtractor) : gset string :=
  foldr (fun unit_id acc =>
           acc ∪ list_to_set (Extractor.get_unit_spike_feature_names s unit_id))
        ∅ (unit_ids s).

(** [add_units] when the container has no units table. *)
Definition add_units_body (s : SortingExtractor) (use_times : bool) (fs : float)
    (property_descriptions : list (string * string))
    (skip_properties skip_features : list string) : M unit :=
  '(property_shapes, skip_properties) ←
    fold_each (elements (all_properties s)) (property_shape s) ([], skip_properties);
  skip_properties ← fold_each property_shapes property_size skip_properties;
  let write_properties : list string :=
    elements (all_properties s ∖ list_to_set skip_properties) in
  for_each write_properties (fun pr =>
    if negb (Py.dict_mem property_descriptions pr) then
      warn ("Description for property " +:+ pr
            +:+ " not found in property_descriptions. Setting description to 'no description'")
    else mret tt);;
  for_each write_properties (add_property_column property_descriptions);;
  for_each (unit_ids s) (add_unit_row s use_times fs write_properties);;
  '(feature_shapes, skip_features) ←
    fold_each (elements (all_features s)) (feature_shape s) ([], skip_features);
  nspikes ← fold_each (unit_ids s) count_spikes [];
  skip_features ← fold_each feature_shapes feature_size skip_features;
  _ ← fold_each (elements (all_features s ∖ list_to_set skip_features))
        (write_feature s nspikes) skip_features;
  mret tt.

(** [add_units]: the units of the sorting become the rows of the units
    table, unless the container has a units table already. *)
Definition add_units : M unit :=
  kw ← get_kwargs;
  let property_descriptions := kw_property_descriptions kw in
  let use_times := default false (kw_use_times kw) in
  let skip_properties := kw_skip_properties kw in
  let skip_features := kw_skip_features kw in
  s ← get_sorting;
  fs ← (match sorting_sampling_frequency s with
        | Some fs => mret fs
        | None => raise (ValueError
            "Writing a SortingExtractor to an NWBFile requires a known sampling frequency!")
        end);
  let property_descriptions :=
    Py.dict_update _default_sorting_property_descriptions
                   (default [] property_descriptions) in
  let skip_properties := default [] skip_properties in
  let skip_features := default [] skip_features in
  f ← get_nwbfile;
  match units f with
  | None => add_units_body s use_times fs property_descriptions
                           skip_properties skip_features
  | Some _ =>
      warn "The nwbfile already contains units. These units will not be over-written."
  end.

(** *** [add_epochs] *)

Definition set_epoch (e : Epoch) (start stop : float) : Epoch :=
  {| ep_start_time := start; ep_stop_time := stop; ep_tags := ep_tags e |}.

(** The body of the loop over the epochs of the recording. *)
Definition add_epoch (r : RecordingExtractor) (epoch : string * (Z * Z)) : M unit :=
  let '(epoch_name, (start_frame, end_frame)) := epoch in
  f ← get_nwbfile;
  match epochs f with
  | None =>
      set_nwbfile (NWB.with_epochs f
        (Some [ {| ep_start_time := frame_to_time r start_frame;
                   ep_stop_time := frame_to_time r (end_frame - 1);
                   ep_tags := epoch_name |} ]))
  | Some es =>
      if existsb (fun e => String.eqb (ep_tags e) epoch_name) es then
        set_nwbfile (NWB.with_epochs f
          (Some ((fix update (es : list Epoch) (first : bool) : list Epoch :=
                    match es with
                    | [] => []
                    | e :: es' =>
                        if first && String.eqb (ep_tags e) epoch_name
                        then set_epoch e (frame_to_time r start_frame)
                                         (frame_to_time r end_frame) :: update es' false
                        else e :: update es' first
                    end) es true)))
      else
        set_nwbfile (NWB.with_epochs f
          (Some (es ++ [ {| ep_start_time := frame_to_time r start_frame;
                            ep_stop_time := frame_to_time r end_frame;
                            ep_tags := epoch_name |} ])))
  end.

Definition add_epochs : M unit :=
  r ← get_recording;
  for_each (epoch_info r) (add_epoch r).

(** *** Files

    [with pynwb.NWBHDF5IO(str(path), mode=read_mode) as io]: an existing
    file that is not to be overwritten is read, any other is created anew;
    the steps run on the container and the container is written at the
    end.  An exception leaves the block without the write. *)
Definition open_file (path : string) (overwrite : bool) : M unit :=
  fun w =>
    (if bool_decide (is_Some (disk w !! path)) && negb overwrite then
       match disk w !! path with
       | Some (Some f) => set_nwbfile f
       | _ => raise (ValueError "the file holds no NWB content")
       end
     else
       put_disk (<[path := None]> (disk w));;
       instantiate_nwbfile) w.

Definition write_file (path : string) : M unit :=
  fun w => (f ← get_nwbfile; put_disk (<[path := Some f]> (disk w))) w.

Definition with_file (overwrite : bool) (steps : M unit) : M unit :=
  s ← get_self;
  path ← (match nwb_file_path s with
          | Some p => mret p
          | None => raise (TypeError "expected str, bytes or os.PathLike object, not NoneType")
          end);
  open_file path overwrite;;
  steps;;
  write_file path.

(** [write_sorting]: the primary method for writing a sorting. *)
Definition write_sorting : M unit :=
  kw ← get_kwargs;
  let overwrite := default false (kw_overwrite kw) in
  s ← get_self;
  assert (negb (bool_decide (is_Some (nwb_file_path s)))
          || negb (bool_decide (is_Some (nwbfile s))))
    "Either pass a save_path location, or nwbfile object, but not both!";;
  match nwbfile s with
  | None => with_file overwrite add_units
  | Some _ => add_units
  end.

Section WithExternals.

Variable ArrayType_is : proptype -> bool.

(** [str] and [repr] of the values whose text the model does not
    compute (floats, arrays, lists, dicts). *)
Variable py_repr : pyval -> string.

Definition py_str (v : pyval) : string :=
  match v with
  | VStr s => s
  | VInt z => pretty z
  | VBool b => if b then "True" else "False"
  | VNone => "None"
  | _ => py_repr v
  end.

(** The loop over [elec_columns.items()] that creates the new columns
    of a container without electrodes table and stages, in
    [elec_columns_append], those of a container that has one. *)
Definition new_column (found : gmap string proptype)
    (default_updated : list (string * pyval))
    (elec_columns_append : list (string * col_args))
    (column : string * col_args) : M (list (string * col_args)) :=
  let '(name, des_args) := column in
  if Py.dict_mem default_updated name then mret elec_columns_append
  else
    f ← get_nwbfile;
    match electrodes f with
    | None =>
        description ← lift (key (ca_description des_args) "description");
        index ← lift (key (ca_index des_args) "index");
        description ← lift (Meta.as_str description);
        update_nwbfile (fun f =>
          NWB.add_electrode_column f name description []
            (if index : bool then IndexTrue else IndexFalse));;
        mret elec_columns_append
    | Some t =>
        ty ← lift (found_type found name);
        let combine_data :=
          replicate (length (tbl_id t)) (channel_property_defaults ty) in
        data ← lift (key (ca_data des_args) "data");
        mret (Py.dict_set elec_columns_append name
                {| ca_description := ca_description des_args;
                   ca_data := Some (combine_data ++ data);
                   ca_index := ca_index des_args |})
    end.

(** The loop over [elec_columns.items()] inside the loop over the
    channels: the row's values. *)
Definition row_value (j : nat) (channel_id : Z)
    (electrode_kwargs : list (string * pyval)) (column : string * col_args)
  : M (list (string * pyval)) :=
  let '(name, desc) := column in
  if String.eqb name "group_name" then
    data ← lift (key (ca_data desc) "data");
    v ← lift (item data j);
    let group_name := py_str v in
    f ← get_nwbfile;
    (if negb (String.eqb group_name "")
        && negb (bool_decide (is_Some (electrode_groups f !! group_name)))
     then
       warn ("Electrode group " +:+ group_name +:+ " for electrode "
             +:+ pretty channel_id
             +:+ " was not found in the nwbfile! Automatically adding.");;
       add_electrode_groups (Some "missing_group_metadata")
     else mret tt);;
    f ← get_nwbfile;
    match electrode_groups f !! group_name with
    | Some g =>
        mret (Py.dict_update electrode_kwargs
                [("group", VGroup (eg_name g)); ("group_name", VStr group_name)])
    | None => raise (KeyError group_name)
    end
  else
    match ca_data desc with
    | Some data =>
        v ← lift (item data j);
        mret (Py.dict_set electrode_kwargs name v)
    | None => mret electrode_kwargs
    end.

(** [nwbfile.add_electrode] on the keyword dict, [id] among its keys. *)
Definition add_electrode_kwargs (electrode_kwargs : list (string * pyval))
  : M unit :=
  match Py.dict_get electrode_kwargs "id" with
  | Some (VInt id) =>
      update_nwbfile (fun f =>
        NWB.add_electrode f id (Py.dict_remove electrode_kwargs "id"))
  | _ => raise (TypeError "incorrect type for 'id'")
  end.

(** The body of the loop over [enumerate(channel_ids)]. *)
Definition add_row (r : RecordingExtractor) (nwb_elec_ids : list Z)
    (default_updated : list (string * pyval))
    (elec_columns : list (string * col_args)) (j : nat) (channel_id : Z)
  : M unit :=
  if Py.Z_mem channel_id nwb_elec_ids then mret tt
  else
    let electrode_kwargs := Py.dict_set default_updated "id" (VInt channel_id) in
    let location := channel_locations r channel_id in
    electrode_kwargs ←
      (if forallb (fun loc => negb (Float64.isnan loc)) location then
         rel_x ← lift (item location 0);
         rel_y ← lift (item location 1);
         mret (Py.dict_update electrode_kwargs
                 [("rel_x", VFloat rel_x); ("rel_y", VFloat rel_y)])
       else mret electrode_kwargs);
    electrode_kwargs ← fold_each elec_columns (row_value j channel_id) electrode_kwargs;
    electrode_kwargs ←
      (if negb (Py.dict_mem elec_columns "group_name") then
         group_id ← (match channel_groups r with
                     | Some g => mret (g channel_id)
                     | None => raise (TypeError "'NoneType' object is not subscriptable")
                     end);
         f ← get_nwbfile;
         match electrode_groups f !! pretty group_id with
         | Some g =>
             mret (Py.dict_update electrode_kwargs
                     [("group", VGroup (eg_name g));
                      ("group_name", VStr (pretty group_id))])
         | None => raise (KeyError (pretty group_id))
         end
       else mret electrode_kwargs);
    add_electrode_kwargs electrode_kwargs.

Fixpoint add_rows (r : RecordingExtractor) (nwb_elec_ids : list Z)
    (default_updated : list (string * pyval))
    (elec_columns : list (string * col_args)) (j : nat) (chans : list Z)
  : M unit :=
  match chans with
  | [] => mret tt
  | channel_id :: chans' =>
      add_row r nwb_elec_ids default_updated elec_columns j channel_id;;
      add_rows r nwb_elec_ids default_updated elec_columns (S j) chans'
  end.

(** [add_electrode_column(col_name, **cols_args)] for a staged column. *)
Definition append_column (column : string * col_args) : M unit :=
  let '(col_name, cols_args) := column in
  description ← lift (key (ca_description cols_args) "description");
  description ← lift (Meta.as_str description);
  data ← lift (key (ca_data cols_args) "data");
  index ← lift (key (ca_index cols_args) "index");
  update_nwbfile (fun f =>
    NWB.add_electrode_column f col_name description data
      (if index : bool then IndexTrue else IndexFalse)).

(** [add_electrodes] after its guard.  The branch for pynwb before 1.3.0
    is left out: the container modelled is that of pynwb 1.3.3 and later,
    which [write_recording] asserts. *)
Definition add_electrodes_body : M unit :=
  f ← get_nwbfile;
  (if bool_decide (electrode_groups f = ∅) then add_electrode_groups None
   else mret tt);;
  entries ← electrodes_metadata;
  f ← get_nwbfile;
  let nwb_elec_ids := match electrodes f with
                      | Some t => tbl_id t
                      | None => []
                      end in
  r ← get_recording;
  kw ← get_kwargs;
  let property_names := Reconcile.property_names r in
  let exclude_names :=
    ["location"; "group"] ++ default [] (kw_exclude_properties kw) in
  let found_property_types : gmap string proptype :=
    gset_to_gmap TReal property_names in
  '(found_property_types, elec_columns) ←
    lift (reconcile_properties ArrayType_is r exclude_names
            (elements property_names) (found_property_types, []));
  elec_columns ← lift (apply_descriptions entries elec_columns);
  f ← get_nwbfile;
  default_updated ←
    (match electrodes f with
     | Some t => lift (existing_defaults t (Table.colnames t) [])
     | None => mret []
     end);
  let default_updated := Py.dict_update default_updated electrode_defaults in
  elec_columns_append ←
    fold_each elec_columns (new_column found_property_types default_updated) [];
  let elec_columns :=
    filter (fun c => negb (Py.dict_mem elec_columns_append c.1)) elec_columns in
  add_rows r nwb_elec_ids default_updated elec_columns O (channel_ids r);;
  for_each elec_columns_append append_column;;
  f ← get_nwbfile;
  assert (bool_decide (is_Some (electrodes f)))
    "Unable to form electrode table! Check device, electrode group, and electrode metadata.".

(** [add_electrodes]: the channels of the recording become the rows of
    the electrodes table, unless one of their ids is in the table. *)
Definition add_electrodes : M unit :=
  f ← get_nwbfile;
  match electrodes f with
  | Some t =>
      r ← get_recording;
      let ids_absent := map (fun id => negb (Py.Z_mem id (tbl_id t))) (channel_ids r) in
      if negb (forallb id ids_absent) then
        warn "cannot create electrodes for this recording as ids already exist"
      else add_electrodes_body
  | None => add_electrodes_body
  end.


(** The three places an ElectricalSeries goes to, by [write_as]. *)
Definition series_defaults (write_as : string) : ElectricalSeries :=
  if String.eqb write_as "raw" then
    [("name", EPy (VStr "ElectricalSeries_raw"));
     ("description", EPy (VStr "Raw acquired data"));
     ("comments", EPy (VStr "Generated from SpikeInterface::NwbRecordingExtractor"))]
  else if String.eqb write_as "processed" then
    [("name", EPy (VStr "ElectricalSeries_processed"));
     ("description", EPy (VStr "Processed data"));
     ("comments", EPy (VStr "Generated from SpikeInterface::NwbRecordingExtractor"))]
  else
    [("name", EPy (VStr "ElectricalSeries_lfp"));
     ("description", EPy (VStr "Processed data - LFP"));
     ("comments", EPy (VStr "Generated from SpikeInterface::NwbRecordingExtractor"))].

Definition interface_name (write_as : string) : string :=
  if String.eqb write_as "processed" then "Processed" else "LFP".

Definition interface_of (write_as : string) : interface_kind :=
  if String.eqb write_as "processed" then FilteredEphys else LFP.

(** For [processed] and [lfp]: the processing module [ecephys] and its data
    interface are created when they are missing. *)
Definition ensure_interface (write_as : string) : M unit :=
  f ← get_nwbfile;
  let '(f, ecephys_mod) :=
    check_module f "ecephys"
      (Some "Intermediate data from extracellular electrophysiology recordings, e.g., LFP.") in
  let iface := interface_name write_as in
  let ecephys_mod :=
    if bool_decide (is_Some (pm_data_interfaces ecephys_mod !! iface)) then ecephys_mod
    else {| pm_description := pm_description ecephys_mod;
            pm_data_interfaces :=
              <[iface := {| di_kind := interface_of write_as;
                            di_electrical_series := ∅ |}]>
                (pm_data_interfaces ecephys_mod) |} in
  set_nwbfile (NWB.with_processing f (<["ecephys" := ecephys_mod]> (processing f))).

(** The electrical series already written where [write_as] points. *)
Definition written_series (f : NWBFile) (write_as : string)
  : Res (gmap string ElectricalSeries) :=
  if String.eqb write_as "raw" then Ok (acquisition f)
  else
    match processing f !! "ecephys" with
    | Some m =>
        match pm_data_interfaces m !! interface_name write_as with
        | Some i => Ok (di_electrical_series i)
        | None => Raise (KeyError (interface_name write_as))
        end
    | None => Raise (KeyError "ecephys")
    end.

Definition series_name (es : ElectricalSeries) : Res pyval :=
  match Py.dict_get es "name" with
  | Some (EPy v) => Ok v
  | Some _ => Raise (TypeError "incorrect type for 'name'")
  | None => Raise (KeyError "name")
  end.

(** [name in labelled_dict]: only a string can be a key. *)
Definition name_in (v : pyval) (d : gmap string ElectricalSeries) : bool :=
  match v with
  | VStr s => bool_decide (is_Some (d !! s))
  | _ => false
  end.

(** The series is constructed from its keyword dict and added where
    [write_as] points. *)
Definition add_series (write_as : string) (es : ElectricalSeries) : M unit :=
  name ← lift (series_name es);
  name ← lift (Meta.as_str name);
  f ← get_nwbfile;
  if String.eqb write_as "raw" then
    if bool_decide (is_Some (acquisition f !! name)) then
      raise (ValueError ("'" +:+ name +:+ "' already exists"))
    else set_nwbfile (NWB.with_acquisition f (<[name := es]> (acquisition f)))
  else
    match processing f !! "ecephys" with
    | Some m =>
        match pm_data_interfaces m !! interface_name write_as with
        | Some i =>
            if bool_decide (is_Some (di_electrical_series i !! name)) then
              raise (ValueError ("'" +:+ name +:+ "' already exists"))
            else
              let i := {| di_kind := di_kind i;
                          di_electrical_series := <[name := es]> (di_electrical_series i) |} in
              let m := {| pm_description := pm_description m;
                          pm_data_interfaces :=
                            <[interface_name write_as := i]> (pm_data_interfaces m) |} in
              set_nwbfile (NWB.with_processing f (<["ecephys" := m]> (processing f)))
        | None => raise (KeyError (interface_name write_as))
        end
    | None => raise (KeyError "ecephys")
    end.

(** The compression options after the check of lines 534 to 543. *)
Definition check_compression (compression : option string)
    (compression_opts : option Z) : M (option Z) :=
  match compression with
  | Some c =>
      if String.eqb c "gzip" then
        match compression_opts with
        | None => mret (Some 4%Z)
        | Some o =>
            assert ((0 <=? o)%Z && (o <? 10)%Z)
              "compression type is 'gzip', but specified compression_opts is not an integer between 0 and 9!";;
            mret (Some o)
        end
      else if String.eqb c "lzf" then
        match compression_opts with
        | Some o =>
            warn ("compression_opts (" +:+ pretty o
                  +:+ ") were passed, but compression type is 'lzf'! Ignoring options.");;
            mret None
        | None => mret None
        end
      else mret compression_opts
  | None => mret compression_opts
  end.

(** Gains and offsets: the check of the unsigned coercion and the
    [conversion] keywords (lines 609 to 633). *)
Definition check_coercion (channel_conversion channel_offset : list float)
  : M (list float) :=
  if negb (length channel_offset =? length channel_conversion)%nat then
    raise (ValueError "operands could not be broadcast together")
  else
    let unsigned_coercion := zip_with PrimFloat.div channel_offset channel_conversion in
    if negb (forallb Float64.is_integer unsigned_coercion) then
      raise (NotImplementedError
        "Unable to coerce underlying unsigned data type to signed type, which is currently required for NWB Schema v2.2.5! Please specify 'write_scaled=True'.")
    else if existsb (fun x => negb (PrimFloat.eqb x 0%float)) unsigned_coercion then
      warn "NWB Schema v2.2.5 does not officially support channel offsets. The data will be converted to a signed type that does not use offsets.";;
      mret unsigned_coercion
    else mret unsigned_coercion.

Definition conversion_kwargs (write_scaled : bool) (channel_conversion : list float)
    (eseries_kwargs : ElectricalSeries) : Res ElectricalSeries :=
  if write_scaled then
    Ok (Py.dict_set eseries_kwargs "conversion" (EPy (VFloat Float64.micro)))
  else if (length (np_unique channel_conversion) =? 1)%nat then
    g ← item channel_conversion 0;
    Ok (Py.dict_set eseries_kwargs "conversion"
          (EPy (VFloat (PrimFloat.mul g Float64.micro))))
  else
    Ok (Py.dict_set
          (Py.dict_set eseries_kwargs "conversion" (EPy (VFloat Float64.micro)))
          "channel_conversion"
          (EPy (VArray [length channel_conversion] channel_conversion))).

(** What the series' [data] is made of (lines 635 to 677). *)
Definition series_data (r : RecordingExtractor) (iterate write_scaled : bool)
    (buffer_mb : Z) (unsigned_coercion : list float) : M data_source :=
  fun w =>
    (let num_channels := Z.of_nat (length (channel_ids r)) in
     let estimated_memory := (traces_itemsize r * num_channels * num_frames r)%Z in
     iterate ←
       (if negb iterate && (available_memory w <=? estimated_memory)%Z then
          warn "iteration was disabled, but not enough memory to load traces! Forcing iterate=True.";;
          mret true
        else mret iterate);
     if iterate : bool then
       if traces_memmap r write_scaled
          && forallb (fun x => PrimFloat.eqb x 0%float) (channel_offsets r)
       then
         let n_bytes := dtype_itemsize r in
         if (num_channels * n_bytes =? 0)%Z then raise ZeroDivisionError
         else mret (ChunkedMemmap ((buffer_mb * 1000000) `div` (num_channels * n_bytes))
                                  write_scaled)
       else mret (ChunkedGenerator unsigned_coercion write_scaled)
     else mret (WholeArray write_scaled)) w.

(** "If user passed metadata info, overwrite defaults": the keyword dict
    of the series starts from the defaults of [write_as] and is updated
    with [metadata['Ecephys'][es_key]]. *)
Definition series_metadata (write_as : string) (es_key : option string)
    (md : option pyval) : M ElectricalSeries :=
  let eseries_kwargs := series_defaults write_as in
  match md with
  | Some md =>
      has ← lift (Meta.contains md "Ecephys");
      match has, es_key with
      | true, Some es_key =>
          ecephys ← lift (Meta.getitem md "Ecephys");
          has_key ← lift (Meta.contains ecephys es_key);
          assert has_key "metadata['Ecephys'] dictionary does not contain key";;
          entry ← lift (Meta.getitem ecephys es_key);
          entry ← lift (Meta.as_dict entry);
          mret (Py.dict_update eseries_kwargs (map (fun kv => (kv.1, EPy kv.2)) entry))
      | _, _ => mret eseries_kwargs
      end
  | None => mret eseries_kwargs
  end.

(** The part of [add_electrical_series] after the check of the
    compression options: the keyword dict of the series is filled and the
    series is added to the container. *)
Definition write_series (write_as : string) (es_key : option string)
    (write_scaled use_times iterate : bool) (buffer_mb : Z)
    (compression : option string) (compression_opts : option Z) : M unit :=
  (if String.eqb write_as "raw" then mret tt else ensure_interface write_as);;
  md ← get_metadata;
  eseries_kwargs ← series_metadata write_as es_key md;
  f ← get_nwbfile;
  name ← lift (series_name eseries_kwargs);
  written ← lift (written_series f write_as);
  assert (negb (name_in name written))
    "ElectricalSeries is already written in the NWBFile!";;
  r ← get_recording;
  let channel_ids := channel_ids r in
  electrodes_table ←
    (match electrodes f with
     | Some t => mret t
     | None => raise (AttributeError "'NoneType' object has no attribute 'id'")
     end);
  table_ids ← lift (mapM (fun id => match Py.Z_index (tbl_id electrodes_table) id with
                                    | Some i => Ok i
                                    | None => Raise (ValueError "is not in list")
                                    end) channel_ids);
  let eseries_kwargs :=
    Py.dict_set eseries_kwargs "electrodes" (ERegion table_ids "electrode_table_region") in
  let channel_conversion := channel_gains r in
  let channel_offset := channel_offsets r in
  unsigned_coercion ← check_coercion channel_conversion channel_offset;
  eseries_kwargs ← lift (conversion_kwargs write_scaled channel_conversion eseries_kwargs);
  ephys_data ← series_data r iterate write_scaled buffer_mb unsigned_coercion;
  let eseries_kwargs :=
    Py.dict_set eseries_kwargs "data"
      (EData {| h5_data := ephys_data; h5_compression := compression;
                h5_compression_opts := compression_opts |}) in
  let eseries_kwargs :=
    if negb use_times then
      Py.dict_update eseries_kwargs
        [("starting_time", EPy (VFloat (frame_to_time r 0)));
         ("rate", EPy (VFloat (sampling_frequency r)))]
    else
      Py.dict_set eseries_kwargs "timestamps"
        (EData {| h5_data := FrameTimes (num_frames r);
                  h5_compression := compression;
                  h5_compression_opts := compression_opts |}) in
  add_series write_as eseries_kwargs.

(** [if not self.nwbfile.electrodes: self.add_electrodes()]: a table
    without rows counts as no table. *)
Definition ensure_electrodes : M unit :=
  f ← get_nwbfile;
  match electrodes f with
  | Some t => if bool_decide (tbl_id t = []) then add_electrodes else mret tt
  | None => add_electrodes
  end.

(** [add_electrical_series]: the traces of the recording become an
    ElectricalSeries of the container. *)
Definition add_electrical_series : M unit :=
  kw ← get_kwargs;
  let buffer_mb := default 500%Z (kw_buffer_mb kw) in
  let use_times := default false (kw_use_times kw) in
  let write_as := default "raw" (kw_write_as kw) in
  let es_key := kw_es_key kw in
  let write_scaled := default false (kw_write_scaled kw) in
  let compression := default (Some "gzip") (kw_compression kw) in
  let compression_opts := kw_compression_opts kw in
  let iterate := default true (kw_iterate kw) in
  assert (10 <? buffer_mb)%Z
    "'buffer_mb' should be at least 10MB to ensure data can be chunked!";;
  assert (match compression with
          | None => true
          | Some c => Py.str_mem c ["gzip"; "lzf"]
          end)
    "Invalid compression type ({compression})! Choose one of 'gzip', 'lzf', or None.";;
  ensure_electrodes;;
  assert (Py.str_mem write_as ["raw"; "processed"; "lfp"])
    "'write_as' should be 'raw', 'processed' or 'lfp'";;
  compression_opts ← check_compression compression compression_opts;
  write_series write_as es_key write_scaled use_times iterate buffer_mb
               compression compression_opts.

(** *** [write_recording] *)

(** "Update any previous metadata with user passed dictionary": the merge
    is bound to the local name [metadata], which is the value returned
    here ([None] when the name is not bound); the steps that follow read
    [self.metadata]. *)
Definition resolve_metadata : M (option pyval) :=
  s ← get_self;
  match recording s with
  | Some r =>
      match nwb_metadata r with
      | Some attached =>
          mret (Some (Meta.dict_deep_update attached (default VNone (metadata s))))
      | None =>
          match metadata s with
          | None => md ← get_nwb_metadata; set_metadata md;; mret None
          | Some _ => mret None
          end
      end
  | None =>
      match metadata s with
      | None => md ← get_nwb_metadata; set_metadata md;; mret None
      | Some _ => mret None
      end
  end.

(** The table and series writing steps, in their fixed order. *)
Definition recording_steps (write_electrical_series : bool) : M unit :=
  add_devices None;;
  add_electrode_groups None;;
  add_electrodes;;
  if write_electrical_series then add_electrical_series;; add_epochs
  else mret tt.

Definition write_recording : M unit :=
  kw ← get_kwargs;
  let overwrite := default false (kw_overwrite kw) in
  let write_electrical_series := default true (kw_write_electrical_series kw) in
  s ← get_self;
  assert (negb (bool_decide (is_Some (nwb_file_path s)))
          || negb (bool_decide (is_Some (nwbfile s))))
    "Either pass a nwb_file_path location, or nwbfile object, but not both!";;
  _ ← resolve_metadata;
  match nwbfile s with
  | None => with_file overwrite (recording_steps write_electrical_series)
  | Some _ => recording_steps write_electrical_series
  end.

(** [write_to_nwb]: by the kind of the object to write. *)
Definition write_to_nwb : M unit :=
  s ← get_self;
  match recording s, sorting s with
  | Some _, _ => write_recording
  | None, Some _ => write_sorting
  | None, None => mret tt
  end.

End WithExternals.

End SI013NwbEphysWriter.

(** ** Observations of a world *)

(** Whether the units table of the writer's container answers to a name. *)
Definition units_contains (w : World) (n : string) : bool :=
  match nwbfile (self w) with
  | Some f =>
      match units f with
      | Some t => Table.contains t n
      | None => false
      end
  | None => false
  end.

(** The units table does not come to answer to the name [n]. *)
Definition idxs_absent (n : string) (w w' : World) : Prop :=
  units_contains w n = false -> units_contains w' n = false.

(** The writer object is as it was. *)
Definition same_self (w w' : World) : Prop := self w' = self w.

(** [metadata['Ecephys'][key]], when the metadata reaches that far. *)
Definition series_entry (md : option pyval) (key : string) : option pyval :=
  match md with
  | Some (VDict d) =>
      match Py.dict_get d "Ecephys" with
      | Some (VDict e) => Py.dict_get e key
      | _ => None
      end
  | _ => None
  end.

(** The user metadata chosen by [es_key], when it is a mapping, does not
    set the keyword [kw] of the series. *)
Definition series_metadata_lacks (md : option pyval) (es_key : option string)
    (kw : string) : Prop :=
  match es_key with
  | Some key =>
      match series_entry md key with
      | Some (VDict entry) => Py.dict_get entry kw = None
      | _ => True
      end
  | None => True
  end.

(** The metadata after its completion by [add_electrodes]: an entry of
    [metadata['Ecephys']] is as before or is the empty list just put
    there. *)
Definition metadata_completed (md md' : option pyval) : Prop :=
  forall key, series_entry md' key = series_entry md key
              \/ series_entry md' key = Some (VList []).

(** Two containers that differ at most in their electrodes table. *)
Definition same_but_electrodes (o o' : option NWBFile) : Prop :=
  match o, o' with
  | Some f, Some f' => NWB.with_electrodes f' (electrodes f) = f
  | None, None => True
  | _, _ => False
  end.

(** The electrodes table of the writer's container has rows. *)
Definition electrodes_populated (w : World) : Prop :=
  exists f t, nwbfile (self w) = Some f /\ electrodes f = Some t /\ tbl_id t <> [].

(** What [add_electrodes] may change: the electrodes table, the
    completion of the metadata, the diagnostics. *)
Record electrodes_frame (w w' : World) : Prop := {
  frame_nwbfile : same_but_electrodes (nwbfile (self w)) (nwbfile (self w'));
  frame_metadata : metadata_completed (metadata (self w)) (metadata (self w'));
  frame_recording : recording (self w') = recording (self w);
  frame_sorting : sorting (self w') = sorting (self w);
  frame_path : nwb_file_path (self w') = nwb_file_path (self w);
  frame_kwargs : _kwargs (self w') = _kwargs (self w);
  frame_disk : disk w' = disk w;
  frame_memory : available_memory w' = available_memory w;
  frame_uuid : next_uuid w' = next_uuid w
}.

(** The electrical series of that name where [write_as] points, if any. *)
Definition series_at (o : option NWBFile) (write_as name : string)
  : option ElectricalSeries :=
  match o with
  | Some f =>
      match SI013NwbEphysWriter.written_series f write_as with
      | Ok d => d !! name
      | Raise _ => None
      end
  | None => None
  end.

(** ** Concrete extractors, containers and writers *)

Module Examples.

Definition ArrayType_union (t : proptype) : bool := false.

Definition repr_unknown (v : pyval) : string := "?".

(** A recording without epochs, all of whose channels are in group 0 and
    have no location. *)
Definition recording_of (ids : list Z) (props : Z -> list (string * pyval))
    (gains offsets : list float) (attached : option pyval) : RecordingExtractor :=
  {| channel_ids := ids; channel_properties := props;
     channel_gains := gains; channel_offsets := offsets;
     channel_groups := Some (fun _ => 0%Z);
     channel_locations := fun _ => [PrimFloat.nan; PrimFloat.nan];
     sampling_frequency := 1000%float; num_frames := 100;
     traces_itemsize := 2; dtype_itemsize := 2;
     traces_memmap := fun _ => false; frame_to_time := fun _ => 0%float;
     epoch_info := []; nwb_metadata := attached |}.

Definition group0 : ElectrodeGroup :=
  {| eg_name := "0"; eg_description := "no description";
     eg_location := "unknown"; eg_device := "Device" |}.

(** A container with the electrode group "0" and no table. *)
Definition container_with_group : NWBFile :=
  {| file_kwargs := []; devices := ∅; electrode_groups := {["0" := group0]};
     electrodes := None; units := None; acquisition := ∅; processing := ∅;
     epochs := None |}.

Definition world_of (r : option RecordingExtractor) (s : option SortingExtractor)
    (f : NWBFile) (md : option pyval) (kw : Kwargs) : World :=
  {| self := {| recording := r; sorting := s; nwb_file_path := None;
                nwbfile := Some f; metadata := md; _kwargs := kw |};
     diagnostics := []; disk := ∅; available_memory := 1000000000;
     next_uuid := "00000000-0000-0000-0000-000000000000" |}.

Definition no_kwargs : Kwargs := BaseNwbEphysWriter.no_kwargs.

(** The keywords of [add_electrical_series] that the examples pass. *)
Definition series_kwargs (write_scaled : option bool) (es_key : option string)
    (compression : option (option string)) (compression_opts : option Z) : Kwargs :=
  {| kw_overwrite := None; kw_write_electrical_series := None;
     kw_buffer_mb := None; kw_use_times := None; kw_write_as := None;
     kw_es_key := es_key; kw_write_scaled := write_scaled;
     kw_compression := compression; kw_compression_opts := compression_opts;
     kw_iterate := None; kw_property_descriptions := None;
     kw_skip_properties := None; kw_skip_features := None;
     kw_exclude_properties := None; kw_exclude_features := None |}.




(** One channel with gain 1 and offset 0.5. *)
Definition half_offset_recording : RecordingExtractor :=
  recording_of [0%Z] (fun _ => []) [1%float] [0.5%float] None.

Definition half_offset_world : World :=
  world_of (Some half_offset_recording) None container_with_group None
           (series_kwargs (Some true) None None None).

(** Two channels of gain 2, two channels of gains 2 and 3. *)
Definition uniform_recording : RecordingExtractor :=
  recording_of [0%Z; 1%Z] (fun _ => []) [2%float; 2%float] [0%float; 4%float] None.


Definition uniform_world : World :=
  world_of (Some uniform_recording) None container_with_group None no_kwargs.


(** An electrodes table with the rows 0 and 1. *)
Definition two_electrodes : DynamicTable :=
  {| tbl_id := [0%Z; 1%Z];
     tbl_columns :=
       map (fun n => {| col_name := n.1; col_description := n.1;
                        col_data := [n.2; n.2]; col_index := None;
                        col_table := false |})
           [("x", VFloat PrimFloat.nan); ("y", VFloat PrimFloat.nan);
            ("z", VFloat PrimFloat.nan); ("imp", VFloat (-1)%float);
            ("location", VStr "unknown"); ("filtering", VStr "none");
            ("group", VGroup "0"); ("group_name", VStr "0")] |}.

Definition container_with_electrodes : NWBFile :=
  NWB.with_electrodes container_with_group (Some two_electrodes).

Definition populated_world : World :=
  world_of (Some uniform_recording) None container_with_electrodes None no_kwargs.




(** User metadata that names the column [foo]; the recording has the
    property [p] only. *)
Definition foo_metadata : pyval :=
  VDict [("Ecephys", VDict [("Electrodes",
            VList [VDict [("name", VStr "foo"); ("description", VStr "d")]])])].

Definition foo_recording : RecordingExtractor :=
  recording_of [0%Z] (fun _ => [("p", VFloat 1%float)]) [1%float] [0%float] None.

Definition foo_world : World :=
  world_of (Some foo_recording) None container_with_group (Some foo_metadata) no_kwargs.

(** Metadata attached to the recording that names the device ProbeA, user
    metadata that gives the session description. *)
Definition attached_metadata : pyval :=
  VDict [("Ecephys", VDict [("Device", VList [VDict [("name", VStr "ProbeA")]])])].

Definition user_metadata : pyval :=
  VDict [("NWBFile", VDict [("session_description", VStr "mine")])].

Definition attached_recording : RecordingExtractor :=
  recording_of [0%Z] (fun _ => []) [1%float] [0%float] (Some attached_metadata).

Definition attached_world : World :=
  world_of (Some attached_recording) None (NWB.new []) (Some user_metadata) no_kwargs.

(** A sorting with one unit of two spikes, with and without a sampling
    frequency, and a units table that holds the unit already. *)
Definition sorting_of (fs : option float)
    (features : Z -> list (string * list pyval)) : SortingExtractor :=
  {| unit_ids := [7%Z]; sorting_sampling_frequency := fs;
     unit_properties := fun _ => [];
     unit_spike_train := fun _ => [10%Z; 20%Z];
     unit_spike_features := features;
     sorting_frame_to_time := fun _ => 0%float |}.

Definition one_unit : DynamicTable :=
  {| tbl_id := [7%Z];
     tbl_columns := [ {| col_name := "spike_times"; col_description := "spike_times";
                         col_data := [VFloat 0.5%float; VFloat 1%float];
                         col_index := Some [2%Z]; col_table := false |} ] |}.

Definition container_with_units : NWBFile :=
  NWB.with_units (NWB.new []) (Some one_unit).


(** The unit has the features [amp] and [amp_idxs]. *)
Definition feature_sorting : SortingExtractor :=
  sorting_of (Some 1000%float)
    (fun _ => [("amp", [VFloat 1%float; VFloat 2%float]);
               ("amp_idxs", [VInt 0; VInt 1])]).

Definition feature_world : World :=
  world_of None (Some feature_sorting) (NWB.new []) None no_kwargs.

(** The sorting with the two features, after the rows of its unit have
    been added: the container of the feature-writing pass. *)
Definition feature_rows_world : World :=
  world_of None (Some feature_sorting) container_with_units None no_kwargs.

(** The worlds in which [add_electrical_series] leaves the two recordings
    of gains 2, 2 and 2, 3. *)
Definition uniform_written : World :=
  (SI013NwbEphysWriter.add_electrical_series ArrayType_union repr_unknown
     uniform_world).2.


End Examples.

(** ** The helpers with Python's indexes *)

Module Indexing.

(** [li[idx]] for any integer: a negative index counts from the end. *)
Definition getitem {A} (li : list A) (idx : Z) : Res A :=
  let n := Z.of_nat (length li) in
  let i := if (idx <? 0)%Z then (n + idx)%Z else idx in
  if (0 <=? i)%Z && (i <? n)%Z then
    match li !! Z.to_nat i with
    | Some x => Ok x
    | None => Raise IndexError
    end
  else Raise IndexError.

(** [list_get] with its [try ... except IndexError]; the function
    [list_get] above is its restriction to the indexes from 0 on. *)
Definition list_get {A} (li : list A) (idx : Z) (default : A) : Res A :=
  match getitem li idx with
  | Ok x => Ok x
  | Raise IndexError => Ok default
  | Raise e => Raise e
  end.

End Indexing.

(** ** [baselfpextractorinterface.py] *)

Module BaseLFPExtractorInterface.

(** [get_metadata]: the metadata of the parent class, with the entry
    [ElectricalSeries] of [metadata['Ecephys']] popped and the entry
    [LFPElectricalSeries] set to an empty dict.  The parent class is not
    among the sources: what its [get_metadata] returns or raises is the
    argument. *)
Definition get_metadata (super_get_metadata : Res pyval) : Res pyval :=
  metadata ← super_get_metadata;
  ecephys ← Meta.getitem metadata "Ecephys";
  ecephys ← Meta.as_dict ecephys;
  match Py.dict_get ecephys "ElectricalSeries" with
  | None => Raise (KeyError "ElectricalSeries")
  | Some _ =>
      let ecephys := Py.dict_remove ecephys "ElectricalSeries" in
      let ecephys := Py.dict_update ecephys [("LFPElectricalSeries", VDict [])] in
      Meta.setitem metadata "Ecephys" (VDict ecephys)
  end.

End BaseLFPExtractorInterface.

(** ** More observations of a world *)

(** The devices of the writer's container. *)
Definition devices_of (w : World) : gmap string (list (string * pyval)) :=
  match nwbfile (self w) with
  | Some f => devices f
  | None => ∅
  end.


Definition unit_table_ids (w : World) : list Z :=
  match nwbfile (self w) with
  | Some f => match units f with
              | Some t => tbl_id t
              | None => []
              end
  | None => []
  end.

(** Two containers that differ at most in one slot. *)
Definition same_but_devices (o o' : option NWBFile) : Prop :=
  match o, o' with
  | Some f, Some f' => NWB.with_devices f' (devices f) = f
  | None, None => True
  | _, _ => False
  end.

Definition same_but_units (o o' : option NWBFile) : Prop :=
  match o, o' with
  | Some f, Some f' => NWB.with_units f' (units f) = f
  | None, None => True
  | _, _ => False
  end.

Definition same_but_epochs (o o' : option NWBFile) : Prop :=
  match o, o' with
  | Some f, Some f' => NWB.with_epochs f' (epochs f) = f
  | None, None => True
  | _, _ => False
  end.

(** The writer apart from its container and its metadata, and what lies
    outside the writer apart from the diagnostics. *)
Record same_surroundings (w w' : World) : Prop := {
  sur_recording : recording (self w') = recording (self w);
  sur_sorting : sorting (self w') = sorting (self w);
  sur_path : nwb_file_path (self w') = nwb_file_path (self w);
  sur_kwargs : _kwargs (self w') = _kwargs (self w);
  sur_disk : disk w' = disk w;
  sur_memory : available_memory w' = available_memory w;
  sur_uuid : next_uuid w' = next_uuid w
}.

(** What [add_devices] may change: the devices, which only grow, the
    metadata from [None] to an empty dict, the diagnostics. *)
Record devices_frame (w w' : World) : Prop := {
  dev_nwbfile : same_but_devices (nwbfile (self w)) (nwbfile (self w'));
  dev_kept : forall name d, devices_of w !! name = Some d ->
                            devices_of w' !! name = Some d;
  dev_metadata : metadata (self w') = metadata (self w)
                 \/ (metadata (self w) = None /\ metadata (self w') = Some (VDict []));
  dev_surroundings : same_surroundings w w'
}.

(** What [add_units] may change: the units table and the diagnostics. *)
Record units_frame (w w' : World) : Prop := {
  uf_nwbfile : same_but_units (nwbfile (self w)) (nwbfile (self w'));
  uf_metadata : metadata (self w') = metadata (self w);
  uf_surroundings : same_surroundings w w'
}.

(** What [add_epochs] may change: the epochs. *)
Record epochs_frame (w w' : World) : Prop := {
  ef_nwbfile : same_but_epochs (nwbfile (self w)) (nwbfile (self w'));
  ef_metadata : metadata (self w') = metadata (self w);
  ef_diagnostics : diagnostics w' = diagnostics w;
  ef_surroundings : same_surroundings w w'
}.

(** A list of integers in strictly increasing order. *)
Definition increasing (l : list Z) : Prop :=
  forall i j a b, (i < j)%nat -> l !! i = Some a -> l !! j = Some b -> (a < b)%Z.

(** The keys of a Python dict are pairwise distinct. *)
Definition distinct_keys {V} (d : list (string * V)) : Prop :=
  NoDup (Py.dict_keys d).

(** The list of devices that [add_devices] runs over, as the metadata it
    works on gives it: the steps between the metadata and the loop,
    without the world. *)
Definition device_entries (md0 : pyval) : Res (list pyval) :=
  has_ecephys ← Meta.contains md0 "Ecephys";
  metadata1 ← (if has_ecephys : bool then Ok md0
                else Meta.setitem md0 "Ecephys" (VDict []));
  ecephys ← Meta.getitem metadata1 "Ecephys";
  has_device ← Meta.contains ecephys "Device";
  ecephys1 ← (if has_device : bool then Ok ecephys
               else Meta.setitem ecephys "Device"
                      (VList [VDict BaseNwbEphysWriter.device_defaults]));
  device_list ← Meta.getitem ecephys1 "Device";
  Py.iter device_list.

(** The row ids of the units table, and of the electrodes table, are as
    they were. *)
Definition same_unit_ids (w w' : World) : Prop :=
  unit_table_ids w' = unit_table_ids w.


(** The column of that name of the units table of the writer's container. *)
Definition units_column (w : World) (name : string) : option Column :=
  match nwbfile (self w) with
  | Some f => match units f with
              | Some t => Table.get_column t name
              | None => None
              end
  | None => None
  end.

(** The column of that name of the units table is as it was, and: if it
    was there, it is as it was. *)
Definition same_units_column (name : string) (w w' : World) : Prop :=
  units_column w' name = units_column w name.

Definition units_column_kept (name : string) (w w' : World) : Prop :=
  forall c, units_column w name = Some c -> units_column w' name = Some c.

(** The spike times of a unit as [add_units] writes them: the times of
    the frames, or the frames over the sampling frequency. *)
Definition spike_times_of (s : SortingExtractor) (use_times : bool) (fs : float)
    (unit_id : Z) : list float :=
  if use_times then map (sorting_frame_to_time s) (unit_spike_train s unit_id)
  else map (fun frame => PrimFloat.div (SI013NwbEphysWriter.frame_as_float frame) fs)
           (unit_spike_train s unit_id).

(** ** More concrete tables, extractors and writers *)

Module Cases.

Import Examples.

(** A table with the rows 3 and 5 and the column [quality]. *)
Definition quality_column : Column :=
  {| col_name := "quality"; col_description := "quality";
     col_data := [VStr "good"; VStr "good"]; col_index := None;
     col_table := false |}.

Definition two_rows : DynamicTable :=
  {| tbl_id := [3%Z; 5%Z]; tbl_columns := [quality_column] |}.

(** Metadata with the entries [ElectricalSeries] and [ElectrodeGroup]
    under [Ecephys]. *)
Definition series_metadata_ecephys : list (string * pyval) :=
  [("ElectricalSeries", VDict [("name", VStr "ElectricalSeries")]);
   ("ElectrodeGroup", VList [])].

Definition parent_metadata : list (string * pyval) :=
  [("NWBFile", VDict []); ("Ecephys", VDict series_metadata_ecephys)].

(** A writer whose metadata names the device ProbeA, on an empty
    container. *)
Definition probe_world : World :=
  world_of None None (NWB.new []) (Some attached_metadata) no_kwargs.



(** A sorting without units. *)
Definition empty_sorting : SortingExtractor :=
  {| unit_ids := []; sorting_sampling_frequency := Some 1000%float;
     unit_properties := fun _ => [];
     unit_spike_train := fun _ => [];
     unit_spike_features := fun _ => [];
     sorting_frame_to_time := fun _ => 0%float |}.

Definition empty_sorting_world : World :=
  world_of None (Some empty_sorting) (NWB.new []) None no_kwargs.

(** Writers made with a file path and no container: for the sorting with
    one unit, with and without a sampling frequency. *)
Definition path_world (fs : option float) : World :=
  {| self := {| recording := None; sorting := Some (sorting_of fs (fun _ => []));
                nwb_file_path := Some "out.nwb"; nwbfile := None;
                metadata := None; _kwargs := no_kwargs |};
     diagnostics := []; disk := ∅; available_memory := 1000000000;
     next_uuid := "00000000-0000-0000-0000-000000000000" |}.

(** The recording of gains 2, 2 written with [write_scaled]. *)
Definition scaled_world : World :=
  world_of (Some uniform_recording) None container_with_group None
           (series_kwargs (Some true) None None None).

End Cases.

#[local] Arguments String.eqb : simpl never.

(** * Statements *)

Import Examples.

(** ** Running a method *)

Lemma bind_ok {A B} (m : M A) (k : A -> M B) (w w' : World) (a : A) :
  m w = (Ok a, w') -> (m ≫= k) w = k a w'.
Proof. intros H. unfold mbind, M_mbind, M_bind. now rewrite H. Qed.


Lemma bind_inv_ok {A B} (m : M A) (k : A -> M B) (w w2 : World) (b : B) :
  (m ≫= k) w = (Ok b, w2) ->
  exists a w1, m w = (Ok a, w1) /\ k a w1 = (Ok b, w2).
Proof.
  unfold mbind, M_mbind, M_bind. destruct (m w) as [[a|e] w1]; intros H.
  - eauto.
  - discriminate.
Qed.

Ltac run_step :=
  unfold get_nwbfile, get_recording, get_sorting, get_kwargs, get_metadata,
    get_self, set_nwbfile, set_metadata, put_self, update_nwbfile, warn, print,
    emit, raise, lift, assert;
  unfold mbind, mret, M_mbind, M_mret, M_bind, M_ret; simpl.

(** ** Relations a method keeps *)

Section Keeps.

Variable R : World -> World -> Prop.
Hypothesis R_refl : forall w, R w w.
Hypothesis R_trans : forall w1 w2 w3, R w1 w2 -> R w2 w3 -> R w1 w3.

Lemma keeps_ret {A} (a : A) : keeps R (mret a : M A).
Proof. intros w. apply R_refl. Qed.

Lemma keeps_raise {A} (e : exn) : keeps R (raise e : M A).
Proof. intros w. apply R_refl. Qed.

Lemma keeps_lift {A} (r : Res A) : keeps R (lift r).
Proof. intros w. apply R_refl. Qed.

Lemma keeps_assert (c : bool) (msg : string) : keeps R (assert c msg).
Proof. intros w. unfold assert. destruct c; apply R_refl. Qed.

Lemma keeps_get_self : keeps R get_self.
Proof. intros w. apply R_refl. Qed.

Lemma keeps_bind {A B} (m : M A) (k : A -> M B) :
  keeps R m -> (forall a, keeps R (k a)) -> keeps R (m ≫= k).
Proof.
  intros Hm Hk w. unfold mbind, M_mbind, M_bind.
  specialize (Hm w). destruct (m w) as [[a|e] w1]; simpl in *.
  - eapply R_trans; [exact Hm|apply Hk].
  - exact Hm.
Qed.

Lemma keeps_get_nwbfile : keeps R get_nwbfile.
Proof.
  unfold get_nwbfile. apply keeps_bind; [apply keeps_get_self|].
  intros s. destruct (nwbfile s); [apply keeps_ret|apply keeps_raise].
Qed.

Lemma keeps_get_recording : keeps R get_recording.
Proof.
  unfold get_recording. apply keeps_bind; [apply keeps_get_self|].
  intros s. destruct (recording s); [apply keeps_ret|apply keeps_raise].
Qed.

Lemma keeps_get_sorting : keeps R get_sorting.
Proof.
  unfold get_sorting. apply keeps_bind; [apply keeps_get_self|].
  intros s. destruct (sorting s); [apply keeps_ret|apply keeps_raise].
Qed.

Lemma keeps_get_metadata : keeps R get_metadata.
Proof.
  unfold get_metadata. apply keeps_bind; [apply keeps_get_self|].
  intros s. apply keeps_ret.
Qed.

Lemma keeps_get_kwargs : keeps R get_kwargs.
Proof.
  unfold get_kwargs. apply keeps_bind; [apply keeps_get_self|].
  intros s. apply keeps_ret.
Qed.

Lemma keeps_for_each {A} (l : list A) (body : A -> M unit) :
  (forall a, keeps R (body a)) -> keeps R (for_each l body).
Proof.
  intros Hb. induction l as [|x l IH]; simpl.
  - apply keeps_ret.
  - apply keeps_bind; [apply Hb|intros _; exact IH].
Qed.

Lemma keeps_fold_each {A S} (l : list A) (body : S -> A -> M S) (s : S) :
  (forall s a, keeps R (body s a)) -> keeps R (fold_each l body s).
Proof.
  intros Hb. revert s. induction l as [|x l IH]; intros s; simpl.
  - apply keeps_ret.
  - apply keeps_bind; [apply Hb|intros s'; apply IH].
Qed.

End Keeps.

Lemma keeps_emit (R : World -> World -> Prop) (d : Diag) :
  (forall w, R w (emitted w d)) -> keeps R (emit d).
Proof. intros H w. apply H. Qed.

(** ** The guards of [add_electrodes] and [add_units], and the stubs *)

Lemma Z_mem_true (ids : list Z) (id : Z) : id ∈ ids -> Py.Z_mem id ids = true.
Proof.
  intros H. unfold Py.Z_mem. apply existsb_exists. exists id. split.
  - now apply list_elem_of_In.
  - apply Z.eqb_refl.
Qed.

Lemma ids_absent_not_all (ids chans : list Z) (id : Z) :
  id ∈ chans -> id ∈ ids ->
  forallb Datatypes.id (map (fun id => negb (Py.Z_mem id ids)) chans) = false.
Proof.
  intros Hc Hi. induction Hc as [x l|x y l Hc IH]; simpl.
  - rewrite (Z_mem_true _ _ Hi). reflexivity.
  - rewrite IH by assumption. apply andb_false_r.
Qed.

Section Guards.

Variable ArrayType_is : proptype -> bool.
Variable py_repr : pyval -> string.

(** C3.  When the electrodes table of the container holds one of the
    channel ids of the recording, [add_electrodes] emits the warning and
    returns normally; the writer, its container included, and the files
    are as before: the only change to the world is the warning. *)
Theorem add_electrodes_existing_id_unchanged
    (w : World) (f : NWBFile) (t : DynamicTable) (r : RecordingExtractor) (id : Z) :
  nwbfile (self w) = Some f ->
  electrodes f = Some t ->
  recording (self w) = Some r ->
  id ∈ channel_ids r ->
  id ∈ tbl_id t ->
  SI013NwbEphysWriter.add_electrodes ArrayType_is py_repr w
  = (Ok tt, emitted w (Warning "cannot create electrodes for this recording as ids already exist")).
Proof.
  intros Hf Ht Hr Hc Hi.
  unfold SI013NwbEphysWriter.add_electrodes. run_step.
  rewrite Hf. simpl. rewrite Ht. simpl. rewrite Hr. simpl.
  rewrite (ids_absent_not_all _ _ _ Hc Hi). simpl. reflexivity.
Qed.


(** C4.  [add_electrode_groups] of the writer is the method of the base
    class: it raises NotImplementedError whatever the writer and the
    container are, and leaves the world as it is (no group, no device is
    created); the variant of [BaseSINwbEphysWriter] never returns either. *)
Theorem add_electrode_groups_raises (w : World) :
  SI013NwbEphysWriter.add_electrode_groups None w = (Raise (NotImplementedError ""), w)
  /\ is_raise (BaseSINwbEphysWriter.add_electrode_groups w).1 = true.
Proof.
  split; [reflexivity|].
  unfold BaseSINwbEphysWriter.add_electrode_groups. run_step.
  destruct (recording (self w)); reflexivity.
Qed.



End Guards.

(** ** The statements at concrete inputs *)

Lemma add_electrodes_existing_id_witness :
  SI013NwbEphysWriter.add_electrodes ArrayType_union repr_unknown populated_world
  = (Ok tt, emitted populated_world
       (Warning "cannot create electrodes for this recording as ids already exist")).
Proof.
  apply (add_electrodes_existing_id_unchanged ArrayType_union repr_unknown
           populated_world container_with_electrodes two_electrodes
           uniform_recording 0%Z); try reflexivity.
  - apply list_elem_of_In. simpl. left. reflexivity.
  - apply list_elem_of_In. simpl. left. reflexivity.
Defined.



(** C2, the code at the failing input: one channel with gain 1 and offset
    0.5, [write_scaled=True]; the operation raises NotImplementedError all
    the same, and no series is written.  The check of the coercion comes
    before anything reads [write_scaled]: at this recording, once the
    electrodes are there, the writing part raises whatever the value of
    [write_scaled] and of the other options. *)
Theorem add_electrical_series_write_scaled_raises :
  default false (kw_write_scaled (_kwargs (self half_offset_world))) = true
  /\ (SI013NwbEphysWriter.add_electrical_series ArrayType_union repr_unknown
        half_offset_world).1
     = Raise (NotImplementedError
         "Unable to coerce underlying unsigned data type to signed type, which is currently required for NWB Schema v2.2.5! Please specify 'write_scaled=True'.")
  /\ (nwbfile (self (SI013NwbEphysWriter.add_electrical_series ArrayType_union
                       repr_unknown half_offset_world).2)
      ≫= fun f => Some (acquisition f)) = Some ∅
  /\ (forall (write_scaled use_times iterate : bool) (buffer_mb : Z)
             (compression : option string) (compression_opts : option Z),
        (SI013NwbEphysWriter.write_series "raw" None write_scaled use_times iterate
           buffer_mb compression compression_opts
           (SI013NwbEphysWriter.ensure_electrodes ArrayType_union repr_unknown
              half_offset_world).2).1
        = Raise (NotImplementedError
            "Unable to coerce underlying unsigned data type to signed type, which is currently required for NWB Schema v2.2.5! Please specify 'write_scaled=True'.")).
Proof.
  split; [reflexivity|]. split; [vm_compute; reflexivity|].
  split; [vm_compute; reflexivity|].
  intros. vm_compute. reflexivity.
Qed.

(** ** The reconciliation of the channel properties *)

Import Reconcile.

Lemma str_mem_keys {V} (d : list (string * V)) (k : string) :
  Py.str_mem k (Py.dict_keys d) = Py.dict_mem d k.
Proof.
  unfold Py.str_mem, Py.dict_keys, Py.dict_mem.
  induction d as [|[k' v] d IH]; simpl; [reflexivity|].
  rewrite String.eqb_sym. destruct (String.eqb k' k); simpl; [reflexivity|exact IH].
Qed.








Section Reconciliation.

Variable ArrayType_is : proptype -> bool.


End Reconciliation.



(** ** The feature-writing pass of [add_units] *)

Lemma substring_skip (a b : string) (k m : nat) :
  substring (String.length a + k) m (a +:+ b) = substring k m b.
Proof. induction a as [|c a IH]; simpl; [reflexivity|exact IH]. Qed.

Lemma length_append (a b : string) :
  String.length (a +:+ b) = (String.length a + String.length b)%nat.
Proof. induction a as [|c a IH]; simpl; [reflexivity|now rewrite IH]. Qed.

(** The name of the index of a ragged column does not end in [_idxs]. *)
Lemma index_name_not_idxs (ft : string) :
  Py.endswith (ft +:+ "_index") "_idxs" = false.
Proof.
  unfold Py.endswith. rewrite length_append. simpl.
  replace (String.length ft + 6 - 5)%nat with (String.length ft + 1)%nat by lia.
  rewrite substring_skip. simpl. apply andb_false_r.
Qed.

Lemma str_mem_app (n : string) (l1 l2 : list string) :
  Py.str_mem n (l1 ++ l2) = Py.str_mem n l1 || Py.str_mem n l2.
Proof. unfold Py.str_mem. apply existsb_app. Qed.

Lemma str_mem_singleton (n m : string) : Py.str_mem n [m] = true -> n = m.
Proof.
  unfold Py.str_mem. simpl. rewrite orb_false_r. apply String.eqb_eq.
Qed.

(** The names a table answers to after [add_column]. *)
Lemma contains_add_column (t t' : DynamicTable) (name description : string)
    (data : list pyval) (index : index_arg) (table : bool) (n : string) :
  Table.add_column t name description data index table = Ok t' ->
  Table.contains t' n = true ->
  Table.contains t n = true \/ n = name \/ n = name +:+ "_index".
Proof.
  unfold Table.add_column.
  destruct (Py.str_mem name (Table.colnames t)); [discriminate|].
  destruct (negb _); [discriminate|].
  intros [= <-]. unfold Table.contains, Table.colnames, Table.index_names. simpl.
  rewrite map_app, omap_app, !str_mem_app. simpl.
  intros H. apply orb_true_iff in H as [H|H].
  - apply orb_true_iff in H as [H|H].
    + left. now rewrite H.
    + right. left. now apply str_mem_singleton.
  - apply orb_true_iff in H as [H|H].
    + left. rewrite H. apply orb_true_r.
    + right. right. destruct index; simpl in H; try discriminate;
        now apply str_mem_singleton.
Qed.

Lemma idxs_absent_refl (n : string) (w : World) : idxs_absent n w w.
Proof. intros H. exact H. Qed.

Lemma idxs_absent_trans (n : string) (w1 w2 w3 : World) :
  idxs_absent n w1 w2 -> idxs_absent n w2 w3 -> idxs_absent n w1 w3.
Proof. unfold idxs_absent. auto. Qed.

Lemma idxs_absent_emitted (n : string) (w : World) (d : Diag) :
  idxs_absent n w (emitted w d).
Proof. intros H. exact H. Qed.

Lemma write_feature_column_keeps (s : SortingExtractor) (nspikes : list (Z * Z))
    (ft n : string) (values : list (list pyval)) (skip_features : list string) :
  Py.endswith n "_idxs" = true ->
  Py.endswith ft "_idxs" = false ->
  keeps (idxs_absent n)
        (SI013NwbEphysWriter.write_feature_column s nspikes ft values skip_features).
Proof.
  intros Hn Hft w Hw. unfold SI013NwbEphysWriter.write_feature_column.
  run_step. unfold units_contains in Hw.
  destruct (nwbfile (self w)) as [f|] eqn:Hf; simpl;
    [|unfold units_contains; simpl; now rewrite Hf].
  destruct (units f) as [t|] eqn:Ht; simpl;
    [|unfold units_contains; simpl; now rewrite Hf, Ht].
  destruct (Table.contains t ft) eqn:Hc; simpl.
  - unfold units_contains; simpl. now rewrite Hf, Ht.
  - destruct (TableProperty.set_dynamic_table_property _ _ _ _ _ _ _ _)
      as [t'|e] eqn:Hset; simpl;
      [|unfold units_contains; simpl; now rewrite Hf, Ht].
    unfold units_contains; simpl.
    unfold TableProperty.set_dynamic_table_property in Hset.
    destruct (existsb _ _); [discriminate|]. rewrite Hc in Hset.
    destruct (Table.contains t' n) eqn:Hc'; [|reflexivity].
    destruct (contains_add_column _ _ _ _ _ _ _ _ Hset Hc') as [H|[H|H]].
    + congruence.
    + subst n. congruence.
    + subst n. rewrite index_name_not_idxs in Hn. discriminate.
Qed.

Lemma write_feature_keeps (s : SortingExtractor) (nspikes : list (Z * Z))
    (skip_features : list string) (ft n : string) :
  Py.endswith n "_idxs" = true ->
  keeps (idxs_absent n) (SI013NwbEphysWriter.write_feature s nspikes skip_features ft).
Proof.
  intros Hn. unfold SI013NwbEphysWriter.write_feature.
  destruct (Py.endswith ft "_idxs") eqn:Hft; simpl.
  - apply keeps_ret, idxs_absent_refl.
  - apply keeps_bind;
      [apply idxs_absent_trans|apply keeps_lift, idxs_absent_refl|].
    intros [short values].
    apply keeps_bind; [apply idxs_absent_trans| |].
    + destruct short.
      * apply keeps_bind; [apply idxs_absent_trans| |].
        -- apply keeps_emit. intros w. apply idxs_absent_emitted.
        -- intros _. apply keeps_ret, idxs_absent_refl.
      * apply keeps_ret, idxs_absent_refl.
    + intros skip. now apply write_feature_column_keeps.
Qed.

(** C10.  A feature whose name ends in [_idxs] is passed over by the
    feature-writing pass: the pass does nothing for it, so the world is as
    before (no column, no diagnostic); and whatever the features it runs
    over, the pass creates no column, nor index, of a name that ends in
    [_idxs]. *)
Theorem idxs_features_not_written (s : SortingExtractor) (nspikes : list (Z * Z))
    (skip_features : list string) (ft : string) (w : World) :
  Py.endswith ft "_idxs" = true ->
  SI013NwbEphysWriter.write_feature s nspikes skip_features ft w = (Ok skip_features, w)
  /\ forall fts : list string,
       units_contains w ft = false ->
       units_contains (fold_each fts (SI013NwbEphysWriter.write_feature s nspikes)
                                 skip_features w).2 ft = false.
Proof.
  intros Hft. split.
  - unfold SI013NwbEphysWriter.write_feature. rewrite Hft. reflexivity.
  - intros fts. apply (keeps_fold_each (idxs_absent ft));
      [apply idxs_absent_refl|apply idxs_absent_trans|].
    intros skip a. now apply write_feature_keeps.
Qed.

(** ** What [add_electrodes] leaves alone *)

Lemma same_but_electrodes_refl (o : option NWBFile) : same_but_electrodes o o.
Proof. destruct o as [f|]; simpl; [now destruct f|exact I]. Qed.

Lemma same_but_electrodes_trans (o1 o2 o3 : option NWBFile) :
  same_but_electrodes o1 o2 -> same_but_electrodes o2 o3 -> same_but_electrodes o1 o3.
Proof.
  destruct o1 as [f1|], o2 as [f2|], o3 as [f3|]; simpl; try tauto.
  destruct f1, f2, f3; unfold NWB.with_electrodes; simpl.
  intros [= -> -> -> -> -> -> ->] [= -> -> -> -> -> -> ->]. reflexivity.
Qed.

Lemma metadata_completed_refl (md : option pyval) : metadata_completed md md.
Proof. intros key. now left. Qed.

Lemma metadata_completed_trans (md1 md2 md3 : option pyval) :
  metadata_completed md1 md2 -> metadata_completed md2 md3 ->
  metadata_completed md1 md3.
Proof.
  intros H12 H23 key. destruct (H23 key) as [H|H]; [|now right].
  rewrite H. apply H12.
Qed.

Lemma electrodes_frame_refl (w : World) : electrodes_frame w w.
Proof.
  split; try reflexivity.
  - apply same_but_electrodes_refl.
  - apply metadata_completed_refl.
Qed.

Lemma electrodes_frame_trans (w1 w2 w3 : World) :
  electrodes_frame w1 w2 -> electrodes_frame w2 w3 -> electrodes_frame w1 w3.
Proof.
  intros [] []. split; try congruence.
  - eapply same_but_electrodes_trans; eassumption.
  - eapply metadata_completed_trans; eassumption.
Qed.

Lemma electrodes_frame_emitted (w : World) (d : Diag) :
  electrodes_frame w (emitted w d).
Proof.
  split; try reflexivity.
  - apply same_but_electrodes_refl.
  - apply metadata_completed_refl.
Qed.

Lemma keeps_update_electrodes (op : NWBFile -> Res NWBFile) :
  (forall f f', op f = Ok f' -> NWB.with_electrodes f' (electrodes f) = f) ->
  keeps electrodes_frame (update_nwbfile op).
Proof.
  intros Hop w. unfold update_nwbfile. run_step.
  destruct (nwbfile (self w)) as [f|] eqn:Hf; simpl; [|apply electrodes_frame_refl].
  destruct (op f) as [f'|e] eqn:Hf'; simpl; [|apply electrodes_frame_refl].
  split; simpl; try reflexivity.
  - rewrite Hf. simpl. now apply Hop.
  - apply metadata_completed_refl.
Qed.

Lemma add_electrode_column_frame (name description : string) (data : list pyval)
    (index : index_arg) (f f' : NWBFile) :
  NWB.add_electrode_column f name description data index = Ok f' ->
  NWB.with_electrodes f' (electrodes f) = f.
Proof.
  unfold NWB.add_electrode_column.
  destruct (Table.add_column _ _ _ _ _ _); simpl; [|discriminate].
  intros [= <-]. now destruct f.
Qed.

Lemma add_electrode_frame (id : Z) (row : list (string * pyval)) (f f' : NWBFile) :
  NWB.add_electrode f id row = Ok f' ->
  NWB.with_electrodes f' (electrodes f) = f.
Proof.
  unfold NWB.add_electrode.
  destruct (Table.add_row _ _ _ _); simpl; [|discriminate].
  intros [= <-]. now destruct f.
Qed.

(** The composition steps, for [electrodes_frame]. *)
Ltac frame_step :=
  first
    [ apply keeps_ret; apply electrodes_frame_refl
    | apply keeps_raise; apply electrodes_frame_refl
    | apply keeps_lift; apply electrodes_frame_refl
    | apply keeps_assert; apply electrodes_frame_refl
    | apply keeps_get_self; apply electrodes_frame_refl
    | apply keeps_get_nwbfile;
        [apply electrodes_frame_refl|apply electrodes_frame_trans]
    | apply keeps_get_recording;
        [apply electrodes_frame_refl|apply electrodes_frame_trans]
    | apply keeps_get_kwargs;
        [apply electrodes_frame_refl|apply electrodes_frame_trans]
    | apply keeps_get_metadata;
        [apply electrodes_frame_refl|apply electrodes_frame_trans]
    | apply keeps_emit; intros ?; apply electrodes_frame_emitted
    | apply keeps_bind; [apply electrodes_frame_trans| |intros ?]
    | match goal with
      | |- keeps _ (match ?x with _ => _ end) => destruct x
      | |- keeps _ (if ?x then _ else _) => destruct x
      | |- keeps _ (let '(_, _) := ?x in _) => destruct x
      end ].

Ltac frame_auto := repeat frame_step.

Lemma keeps_stub {A} (k : option string) :
  keeps electrodes_frame (BaseNwbEphysWriter.stub k : M A).
Proof. unfold BaseNwbEphysWriter.stub. frame_auto. Qed.

(** *** Dicts *)

Lemma dict_get_set_eq {V} (d : list (string * V)) (k : string) (v : V) :
  Py.dict_get (Py.dict_set d k v) k = Some v.
Proof.
  induction d as [|[k' v'] d IH]; simpl.
  - now rewrite String.eqb_refl.
  - destruct (String.eqb k' k) eqn:E; simpl; rewrite E; [reflexivity|exact IH].
Qed.

Lemma dict_get_set_ne {V} (d : list (string * V)) (k k' : string) (v : V) :
  k <> k' -> Py.dict_get (Py.dict_set d k v) k' = Py.dict_get d k'.
Proof.
  intros Hne. induction d as [|[k0 v0] d IH]; simpl.
  - destruct (String.eqb k k') eqn:E; [|reflexivity].
    apply String.eqb_eq in E. contradiction.
  - destruct (String.eqb k0 k) eqn:E; simpl.
    + apply String.eqb_eq in E. subst k0.
      destruct (String.eqb k k') eqn:E'; [|reflexivity].
      apply String.eqb_eq in E'. contradiction.
    + destruct (String.eqb k0 k'); [reflexivity|exact IH].
Qed.

Lemma dict_get_set {V} (d : list (string * V)) (k k' : string) (v : V) :
  Py.dict_get (Py.dict_set d k v) k'
  = if String.eqb k k' then Some v else Py.dict_get d k'.
Proof.
  destruct (String.eqb k k') eqn:E.
  - apply String.eqb_eq in E. subst. apply dict_get_set_eq.
  - apply dict_get_set_ne. intros ->. rewrite String.eqb_refl in E. discriminate.
Qed.

Lemma dict_mem_get {V} (d : list (string * V)) (k : string) :
  Py.dict_mem d k = false -> Py.dict_get d k = None.
Proof. unfold Py.dict_mem. now destruct (Py.dict_get d k). Qed.

Lemma dict_set_set {V} (d : list (string * V)) (k : string) (v v' : V) :
  Py.dict_set (Py.dict_set d k v) k v' = Py.dict_set d k v'.
Proof.
  induction d as [|[k0 v0] d IH]; simpl.
  - now rewrite String.eqb_refl.
  - destruct (String.eqb k0 k) eqn:E; simpl; rewrite E; [reflexivity|now rewrite IH].
Qed.

(** *** The completion of the metadata *)

Lemma completed_electrodes (d e : list (string * pyval)) :
  Py.dict_get d "Ecephys" = Some (VDict e) ->
  metadata_completed (Some (VDict d))
    (Some (VDict (Py.dict_set d "Ecephys"
                    (VDict (Py.dict_set e "Electrodes" (VList [])))))).
Proof.
  intros He key. unfold series_entry. rewrite dict_get_set_eq, He, dict_get_set.
  destruct (String.eqb "Electrodes" key); [right|left]; reflexivity.
Qed.

Lemma completed_ecephys (d : list (string * pyval)) (e : list (string * pyval)) :
  Py.dict_get d "Ecephys" = None ->
  (e = [] \/ e = [("Electrodes", VList [])]) ->
  metadata_completed (Some (VDict d)) (Some (VDict (Py.dict_set d "Ecephys" (VDict e)))).
Proof.
  intros Hd He key. unfold series_entry. rewrite dict_get_set_eq, Hd.
  destruct He as [->| ->]; simpl; [left; reflexivity|].
  destruct (String.eqb "Electrodes" key); [right|left]; reflexivity.
Qed.

Lemma completed_none (e : list (string * pyval)) :
  (e = [] \/ e = [("Electrodes", VList [])]) ->
  metadata_completed None (Some (VDict [("Ecephys", VDict e)])).
Proof.
  intros He key. unfold series_entry. simpl.
  destruct He as [->| ->]; simpl; [left; reflexivity|].
  destruct (String.eqb "Electrodes" key); [right|left]; reflexivity.
Qed.

Ltac destruct_scrutinee :=
  match goal with
  | |- context [if ?x then _ else _] =>
      lazymatch x with
      | context [match _ with _ => _ end] => fail
      | _ => destruct x eqn:?
      end
  | |- context [match ?x with _ => _ end] =>
      lazymatch x with
      | context [match _ with _ => _ end] => fail
      | _ => destruct x eqn:?
      end
  end.

Lemma keeps_electrodes_metadata :
  keeps electrodes_frame SI013NwbEphysWriter.electrodes_metadata.
Proof.
  intros w. unfold SI013NwbEphysWriter.electrodes_metadata.
  unfold Meta.contains, Meta.getitem, Meta.setitem, Meta.as_dict.
  run_step. unfold Res_bind, res_bind.
  destruct (metadata (self w)) as [md|] eqn:Hmd; simpl.
  - destruct md; simpl; try apply electrodes_frame_refl.
    destruct (Py.dict_mem d "Ecephys") eqn:Hmem; simpl.
    + destruct (Py.dict_get d "Ecephys") as [x|] eqn:Hx; simpl;
        [|apply electrodes_frame_refl].
      destruct x; simpl; try apply electrodes_frame_refl.
      destruct (Py.dict_mem d0 "Electrodes") eqn:Hmem'; simpl.
      * repeat (destruct_scrutinee; simpl; try apply electrodes_frame_refl).
      * rewrite dict_get_set_eq.
        assert (Hframe : electrodes_frame w
                  {| self := with_metadata (self w)
                       (Some (VDict (Py.dict_set d "Ecephys"
                          (VDict (Py.dict_set d0 "Electrodes" (VList []))))));
                     diagnostics := diagnostics w; disk := disk w;
                     available_memory := available_memory w;
                     next_uuid := next_uuid w |}).
        { split; simpl; try reflexivity.
          - apply same_but_electrodes_refl.
          - rewrite Hmd. now apply completed_electrodes. }
        repeat (destruct_scrutinee; simpl; try exact Hframe).
    + rewrite dict_get_set_eq. simpl.
      assert (Hframe : forall e, e = [] \/ e = [("Electrodes", VList [])] ->
                electrodes_frame w
                  {| self := with_metadata (self w)
                       (Some (VDict (Py.dict_set d "Ecephys" (VDict e))));
                     diagnostics := diagnostics w; disk := disk w;
                     available_memory := available_memory w;
                     next_uuid := next_uuid w |}).
      { intros e He. split; simpl; try reflexivity.
        - apply same_but_electrodes_refl.
        - rewrite Hmd. apply completed_ecephys; [now apply dict_mem_get|exact He]. }
      rewrite dict_set_set. apply (Hframe [("Electrodes", VList [])]). now right.
  - split; simpl; try reflexivity.
    + apply same_but_electrodes_refl.
    + rewrite Hmd. apply completed_none. now right.
Qed.

Ltac frame_more :=
  first
    [ apply keeps_electrodes_metadata
    | apply keeps_stub
    | apply keeps_update_electrodes; intros ? ?;
        first [apply add_electrode_column_frame|apply add_electrode_frame]
    | apply keeps_fold_each;
        [apply electrodes_frame_refl|apply electrodes_frame_trans|intros ? ?]
    | apply keeps_for_each;
        [apply electrodes_frame_refl|apply electrodes_frame_trans|intros ?]
    | frame_step ].

Section AddElectrodesFrame.

Variable ArrayType_is : proptype -> bool.
Variable py_repr : pyval -> string.

Lemma keeps_new_column (found : gmap string proptype)
    (default_updated : list (string * pyval))
    (elec_columns_append : list (string * col_args)) (column : string * col_args) :
  keeps electrodes_frame
        (SI013NwbEphysWriter.new_column found default_updated elec_columns_append column).
Proof. unfold SI013NwbEphysWriter.new_column. repeat frame_more. Qed.

Lemma keeps_row_value (j : nat) (channel_id : Z)
    (electrode_kwargs : list (string * pyval)) (column : string * col_args) :
  keeps electrodes_frame
        (SI013NwbEphysWriter.row_value py_repr j channel_id electrode_kwargs column).
Proof.
  unfold SI013NwbEphysWriter.row_value, SI013NwbEphysWriter.add_electrode_groups,
    BaseNwbEphysWriter.add_electrode_groups.
  repeat frame_more.
Qed.

Lemma keeps_add_electrode_kwargs (electrode_kwargs : list (string * pyval)) :
  keeps electrodes_frame (SI013NwbEphysWriter.add_electrode_kwargs electrode_kwargs).
Proof. unfold SI013NwbEphysWriter.add_electrode_kwargs. repeat frame_more. Qed.

Lemma keeps_add_row (r : RecordingExtractor) (nwb_elec_ids : list Z)
    (default_updated : list (string * pyval))
    (elec_columns : list (string * col_args)) (j : nat) (channel_id : Z) :
  keeps electrodes_frame
        (SI013NwbEphysWriter.add_row py_repr r nwb_elec_ids default_updated
           elec_columns j channel_id).
Proof.
  unfold SI013NwbEphysWriter.add_row.
  repeat first [apply keeps_row_value|apply keeps_add_electrode_kwargs|frame_more].
Qed.

Lemma keeps_add_rows (r : RecordingExtractor) (nwb_elec_ids : list Z)
    (default_updated : list (string * pyval))
    (elec_columns : list (string * col_args)) (chans : list Z) (j : nat) :
  keeps electrodes_frame
        (SI013NwbEphysWriter.add_rows py_repr r nwb_elec_ids default_updated
           elec_columns j chans).
Proof.
  revert j. induction chans as [|c chans IH]; intros j; simpl.
  - frame_more.
  - apply keeps_bind; [apply electrodes_frame_trans|apply keeps_add_row|].
    intros _. apply IH.
Qed.

Lemma keeps_append_column (column : string * col_args) :
  keeps electrodes_frame (SI013NwbEphysWriter.append_column column).
Proof. unfold SI013NwbEphysWriter.append_column. repeat frame_more. Qed.

Lemma keeps_add_electrodes_body :
  keeps electrodes_frame (SI013NwbEphysWriter.add_electrodes_body ArrayType_is py_repr).
Proof.
  unfold SI013NwbEphysWriter.add_electrodes_body,
    SI013NwbEphysWriter.add_electrode_groups, BaseNwbEphysWriter.add_electrode_groups.
  repeat first [apply keeps_new_column|apply keeps_add_rows
               |apply keeps_append_column|frame_more].
Qed.

(** [add_electrodes] changes at most the electrodes table, the metadata
    (by its completion) and the diagnostics. *)
Lemma keeps_add_electrodes :
  keeps electrodes_frame (SI013NwbEphysWriter.add_electrodes ArrayType_is py_repr).
Proof.
  unfold SI013NwbEphysWriter.add_electrodes.
  repeat first [apply keeps_add_electrodes_body|frame_more].
Qed.

End AddElectrodesFrame.

(** ** The compression options of [add_electrical_series] *)

Section Compression.

Variable ArrayType_is : proptype -> bool.
Variable py_repr : pyval -> string.

Lemma keeps_ensure_electrodes :
  keeps electrodes_frame (SI013NwbEphysWriter.ensure_electrodes ArrayType_is py_repr).
Proof.
  unfold SI013NwbEphysWriter.ensure_electrodes.
  repeat first [apply keeps_add_electrodes|frame_more].
Qed.

Lemma ensure_electrodes_populated (w : World) :
  electrodes_populated w ->
  SI013NwbEphysWriter.ensure_electrodes ArrayType_is py_repr w = (Ok tt, w).
Proof.
  intros (f & t & Hf & Ht & Hne).
  unfold SI013NwbEphysWriter.ensure_electrodes. run_step.
  rewrite Hf. simpl. rewrite Ht.
  now rewrite bool_decide_eq_false_2.
Qed.


End Compression.

(** ** Equality of binary64 numbers and [np.unique] *)

Import Float64.
















(** ** The series that [add_electrical_series] writes *)

Lemma same_self_refl (w : World) : same_self w w.
Proof. reflexivity. Qed.

Lemma same_self_trans (w1 w2 w3 : World) :
  same_self w1 w2 -> same_self w2 w3 -> same_self w1 w3.
Proof. unfold same_self. congruence. Qed.

Lemma keeps_self_warn (msg : string) : keeps same_self (warn msg).
Proof. intros w. reflexivity. Qed.

(** *** A run that returns, step by step *)

Lemma ret_inv {A} (a b : A) (w w1 : World) :
  (mret a : M A) w = (Ok b, w1) -> b = a /\ w1 = w.
Proof. intros [= <- <-]. tauto. Qed.

Lemma lift_inv {A} (r : Res A) (a : A) (w w1 : World) :
  lift r w = (Ok a, w1) -> r = Ok a /\ w1 = w.
Proof. unfold lift. intros [= -> <-]. tauto. Qed.

Lemma assert_inv (c : bool) (msg : string) (u : unit) (w w1 : World) :
  assert c msg w = (Ok u, w1) -> c = true /\ w1 = w.
Proof. unfold assert. destruct c; [intros [= <- <-]; tauto|discriminate]. Qed.

Lemma get_nwbfile_inv (f : NWBFile) (w w1 : World) :
  get_nwbfile w = (Ok f, w1) -> nwbfile (self w) = Some f /\ w1 = w.
Proof.
  unfold get_nwbfile. run_step.
  destruct (nwbfile (self w)); [intros [= <- <-]; tauto|discriminate].
Qed.

Lemma get_recording_inv (r : RecordingExtractor) (w w1 : World) :
  get_recording w = (Ok r, w1) -> recording (self w) = Some r /\ w1 = w.
Proof.
  unfold get_recording. run_step.
  destruct (recording (self w)); [intros [= <- <-]; tauto|discriminate].
Qed.

Lemma get_metadata_inv (md : option pyval) (w w1 : World) :
  get_metadata w = (Ok md, w1) -> md = metadata (self w) /\ w1 = w.
Proof. unfold get_metadata. run_step. intros [= <- <-]. tauto. Qed.

Lemma get_kwargs_inv (kw : Kwargs) (w w1 : World) :
  get_kwargs w = (Ok kw, w1) -> kw = _kwargs (self w) /\ w1 = w.
Proof. unfold get_kwargs. run_step. intros [= <- <-]. tauto. Qed.

Tactic Notation "inv_bind" hyp(H) "as" ident(a) ident(w) ident(Hs) :=
  apply bind_inv_ok in H; destruct H as (a & w & Hs & H).

(** *** Dicts, continued *)

Lemma dict_get_update_lacks {V} (u d : list (string * V)) (k : string) :
  Py.dict_get u k = None -> Py.dict_get (Py.dict_update d u) k = Py.dict_get d k.
Proof.
  unfold Py.dict_update. revert d.
  induction u as [|[k' v] u IH]; intros d; simpl; [reflexivity|].
  destruct (String.eqb k' k) eqn:E; [discriminate|].
  intros Hu. rewrite (IH _ Hu). apply dict_get_set_ne.
  intros ->. rewrite String.eqb_refl in E. discriminate.
Qed.

Lemma dict_get_map_lacks {V W} (f : V -> W) (d : list (string * V)) (k : string) :
  Py.dict_get d k = None ->
  Py.dict_get (map (fun kv => (kv.1, f kv.2)) d) k = None.
Proof.
  induction d as [|[k' v] d IH]; simpl; [reflexivity|].
  destruct (String.eqb k' k); [discriminate|exact IH].
Qed.

Lemma series_defaults_get (write_as key : string) :
  key <> "name" -> key <> "description" -> key <> "comments" ->
  Py.dict_get (SI013NwbEphysWriter.series_defaults write_as) key = None.
Proof.
  intros H1 H2 H3. unfold SI013NwbEphysWriter.series_defaults.
  assert (Hk : forall k, key <> k -> String.eqb k key = false).
  { intros k Hk. destruct (String.eqb k key) eqn:E; [|reflexivity].
    apply String.eqb_eq in E. congruence. }
  destruct (String.eqb write_as "raw"); [|destruct (String.eqb write_as "processed")];
    simpl; rewrite !Hk by assumption; reflexivity.
Qed.

(** *** The user metadata of the series *)

Lemma series_metadata_lacks_kw (write_as : string) (es_key : option string)
    (md : option pyval) (w w1 : World) (es : ElectricalSeries) (kw : string) :
  kw <> "name" -> kw <> "description" -> kw <> "comments" ->
  series_metadata_lacks md es_key kw ->
  SI013NwbEphysWriter.series_metadata write_as es_key md w = (Ok es, w1) ->
  w1 = w /\ Py.dict_get es kw = None.
Proof.
  intros H1 H2 H3 Hlacks. unfold SI013NwbEphysWriter.series_metadata. cbv zeta.
  destruct md as [md|]; [|intros [= <- <-]; split;
                           [reflexivity|now apply series_defaults_get]].
  unfold Meta.contains, Meta.getitem, Meta.as_dict.
  destruct md; run_step; try discriminate.
  destruct (Py.dict_mem d "Ecephys") eqn:Hmem;
    [|intros [= <- <-]; split; [reflexivity|now apply series_defaults_get]].
  destruct es_key as [key|];
    [|intros [= <- <-]; split; [reflexivity|now apply series_defaults_get]].
  unfold series_metadata_lacks, series_entry in Hlacks.
  destruct (Py.dict_get d "Ecephys") as [ecephys|]; simpl; [|discriminate].
  destruct ecephys; simpl; try discriminate.
  destruct (Py.dict_mem d0 key); simpl; [|discriminate].
  destruct (Py.dict_get d0 key) as [entry|]; simpl; [|discriminate].
  destruct entry; simpl; try discriminate.
  intros [= <- <-]. split; [reflexivity|].
  rewrite dict_get_update_lacks by now apply dict_get_map_lacks.
  now apply series_defaults_get.
Qed.

(** *** The place the series goes to *)


(** *** Gains and offsets *)



Lemma series_data_self (r : RecordingExtractor) (iterate write_scaled : bool)
    (buffer_mb : Z) (coercion : list float) :
  keeps same_self
        (SI013NwbEphysWriter.series_data r iterate write_scaled buffer_mb coercion).
Proof.
  intros w. unfold SI013NwbEphysWriter.series_data. run_step.
  destruct (negb iterate && _); simpl.
  - destruct (traces_memmap r write_scaled && _); simpl; [|reflexivity].
    destruct (_ =? 0)%Z; reflexivity.
  - destruct iterate; simpl; [|reflexivity].
    destruct (traces_memmap r write_scaled && _); simpl; [|reflexivity].
    destruct (_ =? 0)%Z; reflexivity.
Qed.


(** *** The series added *)

Lemma add_series_inv (write_as : string) (es : ElectricalSeries) (w w' : World)
    (f : NWBFile) (d : gmap string ElectricalSeries) (u : unit) :
  nwbfile (self w) = Some f ->
  SI013NwbEphysWriter.written_series f write_as = Ok d ->
  SI013NwbEphysWriter.add_series write_as es w = (Ok u, w') ->
  exists name,
    SI013NwbEphysWriter.series_name es = Ok (VStr name)
    /\ series_at (nwbfile (self w')) write_as name = Some es.
Proof.
  intros Hf Hd. unfold SI013NwbEphysWriter.add_series.
  unfold Meta.as_str. run_step.
  destruct (SI013NwbEphysWriter.series_name es) as [v|]; simpl; [|discriminate].
  destruct v; simpl; try discriminate.
  rewrite Hf. simpl. unfold SI013NwbEphysWriter.written_series in Hd.
  destruct (String.eqb write_as "raw") eqn:Hraw.
  - destruct (bool_decide _); simpl; [discriminate|].
    intros [= <- <-]. exists s. split; [reflexivity|].
    unfold series_at, SI013NwbEphysWriter.written_series. simpl.
    rewrite Hraw. simpl. apply lookup_insert_eq.
  - destruct (processing f !! "ecephys") as [m|]; [|discriminate].
    destruct (pm_data_interfaces m !! SI013NwbEphysWriter.interface_name write_as)
      as [i|]; [|discriminate].
    destruct (bool_decide _); simpl; [discriminate|].
    intros [= <- <-]. exists s. split; [reflexivity|].
    unfold series_at, SI013NwbEphysWriter.written_series. simpl.
    rewrite Hraw. simpl. rewrite lookup_insert_eq. simpl. rewrite lookup_insert_eq.
    simpl. apply lookup_insert_eq.
Qed.





Lemma series_metadata_lacks_completed (md md' : option pyval)
    (es_key : option string) (kw : string) :
  metadata_completed md md' ->
  series_metadata_lacks md es_key kw -> series_metadata_lacks md' es_key kw.
Proof.
  intros Hc. unfold series_metadata_lacks. destruct es_key as [key|]; [|tauto].
  destruct (Hc key) as [-> | ->]; tauto.
Qed.

Section Conversion.

Variable ArrayType_is : proptype -> bool.
Variable py_repr : pyval -> string.


End Conversion.

(** ** The series statements at concrete inputs *)




Lemma idxs_features_not_written_witness :
  SI013NwbEphysWriter.write_feature feature_sorting [(7%Z, 2%Z)] [] "amp_idxs"
    feature_rows_world = (Ok [], feature_rows_world)
  /\ units_contains
       (fold_each ["amp"; "amp_idxs"]
          (SI013NwbEphysWriter.write_feature feature_sorting [(7%Z, 2%Z)]) []
          feature_rows_world).2 "amp_idxs" = false
  /\ units_contains
       (fold_each ["amp"; "amp_idxs"]
          (SI013NwbEphysWriter.write_feature feature_sorting [(7%Z, 2%Z)]) []
          feature_rows_world).2 "amp" = true.
Proof.
  destruct (idxs_features_not_written feature_sorting [(7%Z, 2%Z)] [] "amp_idxs"
              feature_rows_world eq_refl) as [Hskip Hpass].
  split; [exact Hskip|split; [|reflexivity]].
  apply Hpass. reflexivity.
Defined.

(** ** The user metadata of [add_electrodes] and of [write_recording] *)

Lemma set_description_key (elec_columns : list (string * col_args))
    (name : string) (description : pyval) :
  Py.str_mem name (Py.dict_keys (Reconcile.set_description elec_columns name description))
  = true.
Proof.
  rewrite str_mem_keys. unfold Py.dict_mem, Reconcile.set_description.
  destruct (Py.dict_get elec_columns name); now rewrite dict_get_set_eq.
Qed.

(** The check "not a property of se object" comes after the defaultdict
    has created the entry: it never fires. *)
Lemma apply_descriptions_never_value_error (entries : list pyval)
    (elec_columns : list (string * col_args)) (msg : string) :
  SI013NwbEphysWriter.apply_descriptions entries elec_columns <> Raise (ValueError msg).
Proof.
  revert elec_columns. induction entries as [|x entries IH]; intros cols; simpl;
    [discriminate|].
  unfold Meta.getitem, Meta.as_dict, Meta.as_str.
  destruct x; simpl; try discriminate.
  destruct (Py.dict_get d "name") as [n|]; simpl; [|discriminate].
  destruct n; simpl; try discriminate.
  destruct (Py.dict_get d "description") as [descr|]; simpl; [|discriminate].
  rewrite set_description_key. simpl. apply IH.
Qed.

(** C5, the code at the failing input, and why: whatever the entries of
    [metadata['Ecephys']['Electrodes']] and the columns found, the loop over
    them does not raise ValueError; with user metadata that names the
    column [foo] and a recording that has the property [p] only,
    [add_electrodes] raises KeyError, and by then the container has an
    electrodes table with the column [p]. *)
Theorem add_electrodes_unknown_column_keyerror :
  (forall entries elec_columns msg,
     SI013NwbEphysWriter.apply_descriptions entries elec_columns
     <> Raise (ValueError msg))
  /\ (SI013NwbEphysWriter.add_electrodes ArrayType_union repr_unknown foo_world).1
     = Raise (KeyError "foo")
  /\ electrodes container_with_group = None
  /\ ((nwbfile (self (SI013NwbEphysWriter.add_electrodes ArrayType_union
                        repr_unknown foo_world).2)
       ≫= electrodes) ≫= fun t => Some (Table.colnames t))
     = Some ["x"; "y"; "z"; "imp"; "location"; "filtering"; "group"; "group_name"; "p"].
Proof.
  split; [exact apply_descriptions_never_value_error|].
  vm_compute. repeat split.
Qed.

(** C8, the code at the failing input, and why: for a recording with
    attached metadata, the merge is computed and bound to a local name, and
    the world, [self.metadata] included, is as it was; with attached
    metadata that names the device ProbeA and user metadata without a
    device, the deep merge has ProbeA, but the steps run on the user
    metadata alone and create the default device. *)
Theorem write_recording_ignores_attached_metadata :
  (forall (w : World) (s : Writer) (r : RecordingExtractor) (attached : pyval),
     let w0 := {| self := with_recording s
                            (Some (Extractor.with_nwb_metadata r (Some attached)));
                  diagnostics := diagnostics w; disk := disk w;
                  available_memory := available_memory w;
                  next_uuid := next_uuid w |} in
     SI013NwbEphysWriter.resolve_metadata w0
     = (Ok (Some (Meta.dict_deep_update attached (default VNone (metadata s)))), w0))
  /\ Meta.dict_deep_update attached_metadata user_metadata
     = VDict [("Ecephys", VDict [("Device", VList [VDict [("name", VStr "ProbeA")]])]);
              ("NWBFile", VDict [("session_description", VStr "mine")])]
  /\ metadata (self (SI013NwbEphysWriter.write_recording ArrayType_union
                       repr_unknown attached_world).2)
     = Some user_metadata
  /\ (nwbfile (self (SI013NwbEphysWriter.write_recording ArrayType_union
                        repr_unknown attached_world).2)
      ≫= fun f => Some (map fst (map_to_list (devices f))))
     = Some ["Device"].
Proof.
  split; [intros; reflexivity|].
  vm_compute. repeat split.
Qed.

(** * More of the code *)

(** ** The helpers of [basenwbephyswriter.py] *)

(** [list_get] never raises; it gives the default exactly for the indexes
    below [-len(li)] and from [len(li)] on; an index in between, negative
    ones included, gives an item of the list: the index [-1] gives the last
    item, not the default. *)
Theorem list_get_counts_from_the_end {A} (li : list A) (idx : Z) (default x : A) :
  let n := Z.of_nat (length li) in
  Indexing.list_get li idx default
  = Ok (if (idx <? - n)%Z || (n <=? idx)%Z then default
        else list_get li (Z.to_nat (idx mod n)) default)
  /\ Indexing.list_get li (Z.of_nat (length li)) default = Ok default
  /\ Indexing.list_get (li ++ [x]) (-1) default = Ok x.
Proof.
  assert (Hgen : forall (l : list A) (i : Z),
    let n := Z.of_nat (length l) in
    Indexing.list_get l i default
    = Ok (if (i <? - n)%Z || (n <=? i)%Z then default
          else list_get l (Z.to_nat (i mod n)) default)).
  { intros l i n. unfold Indexing.list_get, Indexing.getitem. fold n.
    destruct (Z.ltb_spec i 0) as [Hneg|Hpos].
    - destruct (Z.ltb_spec i (- n)) as [Hlow|Hin]; simpl.
      + destruct (Z.leb_spec 0 (n + i)); [lia|reflexivity].
      + destruct (Z.leb_spec n i); [lia|].
        destruct (Z.leb_spec 0 (n + i)); [|lia].
        destruct (Z.ltb_spec (n + i) n); [|lia]. simpl.
        replace (i mod n)%Z with (n + i)%Z
          by (apply Z.mod_unique with (q := (-1)%Z); lia).
        unfold list_get. now destruct (l !! Z.to_nat (n + i)).
    - destruct (Z.ltb_spec i (- n)) as [Hlow|Hin]; [lia|]. simpl.
      destruct (Z.leb_spec 0 i); [|lia]. simpl.
      destruct (Z.leb_spec n i) as [Hhigh|Hlt].
      + destruct (Z.ltb_spec i n); [lia|reflexivity].
      + destruct (Z.ltb_spec i n); [|lia].
        rewrite Z.mod_small by lia.
        unfold list_get. now destruct (l !! Z.to_nat i). }
  intros n. split; [apply Hgen|split].
  - rewrite Hgen. destruct (Z.leb_spec (Z.of_nat (length li)) (Z.of_nat (length li)));
      [now rewrite orb_true_r|lia].
  - rewrite Hgen, length_app. simpl.
    destruct (Z.ltb_spec (-1) (- Z.of_nat (length li + 1))); [lia|].
    destruct (Z.leb_spec (Z.of_nat (length li + 1)) (-1)); [lia|]. simpl.
    replace ((-1) mod Z.of_nat (length li + 1))%Z with (Z.of_nat (length li))
      by (apply Z.mod_unique with (q := (-1)%Z); lia).
    rewrite Nat2Z.id. unfold list_get.
    rewrite lookup_app_r by lia. now rewrite Nat.sub_diag.
Qed.

(** [check_module] returns the module that the container holds under that
    name afterwards; a module that is there is returned as it is and the
    container is not changed, whatever the description passed; a missing
    one is created with the description, or with its name for description;
    no other module and nothing else in the container changes; a second
    call returns the same module and changes nothing. *)
Theorem check_module_returns_held_module (f : NWBFile) (name : string)
    (description description' : option string) :
  let f' := (check_module f name description).1 in
  let m := (check_module f name description).2 in
  processing f' !! name = Some m
  /\ (forall other, other <> name -> processing f' !! other = processing f !! other)
  /\ NWB.with_processing f' (processing f) = f
  /\ match processing f !! name with
     | Some m0 => f' = f /\ m = m0
     | None => pm_description m = default name description
               /\ pm_data_interfaces m = ∅
     end
  /\ check_module f' name description' = (f', m).
Proof.
  unfold check_module.
  destruct (processing f !! name) as [m0|] eqn:Hm; simpl.
  - rewrite Hm. repeat split; try reflexivity. now destruct f.
  - rewrite lookup_insert_eq. repeat split; try reflexivity.
    + intros other Hne. now rewrite lookup_insert_ne.
    + now destruct f.
Qed.

(** ** [BaseLFPExtractorInterface.get_metadata] *)

Lemma dict_get_remove_eq {V} (d : list (string * V)) (k : string) :
  Py.dict_get (Py.dict_remove d k) k = None.
Proof.
  unfold Py.dict_remove. induction d as [|[k' v] d IH]; simpl; [reflexivity|].
  rewrite filter_cons. simpl.
  destruct (String.eqb k' k) eqn:E; simpl; [exact IH|now rewrite E].
Qed.

Lemma dict_get_remove_ne {V} (d : list (string * V)) (k k' : string) :
  k <> k' -> Py.dict_get (Py.dict_remove d k) k' = Py.dict_get d k'.
Proof.
  intros Hne. unfold Py.dict_remove.
  induction d as [|[k0 v] d IH]; simpl; [reflexivity|].
  rewrite filter_cons. simpl.
  destruct (String.eqb k0 k) eqn:E; simpl.
  - apply String.eqb_eq in E. subst k0.
    destruct (String.eqb k k') eqn:E'; [|exact IH].
    apply String.eqb_eq in E'. contradiction.
  - destruct (String.eqb k0 k'); [reflexivity|exact IH].
Qed.

(** On the metadata of the parent class: with
    [metadata['Ecephys']['ElectricalSeries']], [get_metadata] returns the
    metadata with that entry removed and [LFPElectricalSeries] set to the
    empty dict, the other entries of [metadata['Ecephys']] and of the
    metadata being as the parent class gave them; without it, the [pop]
    raises KeyError. *)
Theorem lfp_get_metadata_renames_series (md ecephys : list (string * pyval)) :
  Py.dict_get md "Ecephys" = Some (VDict ecephys) ->
  match Py.dict_get ecephys "ElectricalSeries" with
  | Some _ =>
      exists md' ecephys',
        BaseLFPExtractorInterface.get_metadata (Ok (VDict md)) = Ok (VDict md')
        /\ Py.dict_get md' "Ecephys" = Some (VDict ecephys')
        /\ Py.dict_get ecephys' "ElectricalSeries" = None
        /\ Py.dict_get ecephys' "LFPElectricalSeries" = Some (VDict [])
        /\ (forall k, k <> "ElectricalSeries" -> k <> "LFPElectricalSeries" ->
              Py.dict_get ecephys' k = Py.dict_get ecephys k)
        /\ (forall k, k <> "Ecephys" -> Py.dict_get md' k = Py.dict_get md k)
  | None =>
      BaseLFPExtractorInterface.get_metadata (Ok (VDict md))
      = Raise (KeyError "ElectricalSeries")
  end.
Proof.
  intros Hmd.
  unfold BaseLFPExtractorInterface.get_metadata, Meta.getitem, Meta.as_dict,
    Meta.setitem.
  simpl. rewrite Hmd. simpl.
  destruct (Py.dict_get ecephys "ElectricalSeries") as [series|] eqn:Hseries;
    simpl; [|reflexivity].
  eexists. eexists. split; [reflexivity|].
  rewrite dict_get_set_eq. split; [reflexivity|].
  unfold Py.dict_update. simpl. repeat split.
  - rewrite dict_get_set_ne by discriminate. apply dict_get_remove_eq.
  - apply dict_get_set_eq.
  - intros k H1 H2. rewrite dict_get_set_ne by congruence.
    now apply dict_get_remove_ne.
  - intros k Hk. now apply dict_get_set_ne.
Qed.

Lemma lfp_get_metadata_witness :
  exists md' ecephys',
    BaseLFPExtractorInterface.get_metadata
      (Ok (VDict [("Ecephys", VDict [("Device", VList []);
                                     ("ElectricalSeries", VDict [])])]))
    = Ok (VDict md')
    /\ Py.dict_get md' "Ecephys" = Some (VDict ecephys')
    /\ Py.dict_get ecephys' "ElectricalSeries" = None
    /\ Py.dict_get ecephys' "LFPElectricalSeries" = Some (VDict [])
    /\ (forall k, k <> "ElectricalSeries" -> k <> "LFPElectricalSeries" ->
          Py.dict_get ecephys' k
          = Py.dict_get [("Device", VList []); ("ElectricalSeries", VDict [])] k)
    /\ (forall k, k <> "Ecephys" ->
          Py.dict_get md' k
          = Py.dict_get [("Ecephys", VDict [("Device", VList []);
                                            ("ElectricalSeries", VDict [])])] k).
Proof.
  exact (lfp_get_metadata_renames_series
           [("Ecephys", VDict [("Device", VList []); ("ElectricalSeries", VDict [])])]
           [("Device", VList []); ("ElectricalSeries", VDict [])] eq_refl).
Defined.

(** ** [set_dynamic_table_property] *)

Lemma Z_index_Some (ids : list Z) (r : Z) (i : nat) :
  Py.Z_index ids r = Some i -> ids !! i = Some r /\ (i < length ids)%nat.
Proof.
  revert i. induction ids as [|y ids IH]; intros i; simpl; [discriminate|].
  destruct (Z.eqb_spec y r) as [->|Hne].
  - intros [= <-]. split; [reflexivity|simpl; lia].
  - destruct (Py.Z_index ids r) as [i'|]; simpl; [|discriminate].
    intros [= <-]. destruct (IH i' eq_refl). split; [assumption|simpl; lia].
Qed.

Lemma Z_index_mem (ids : list Z) (r : Z) :
  Py.Z_mem r ids = true -> exists i, Py.Z_index ids r = Some i.
Proof.
  unfold Py.Z_mem. induction ids as [|y ids IH]; simpl; [discriminate|].
  rewrite (Z.eqb_sym r y). destruct (Z.eqb y r); simpl; [eauto|].
  intros H. destruct (IH H) as [i ->]. simpl. eauto.
Qed.

Lemma Z_mem_elem_of (ids : list Z) (r : Z) : Py.Z_mem r ids = true <-> r ∈ ids.
Proof.
  unfold Py.Z_mem. rewrite existsb_exists. split.
  - intros (x & Hx & E). apply Z.eqb_eq in E. subst x. now apply list_elem_of_In.
  - intros H. exists r. split; [now apply list_elem_of_In|apply Z.eqb_refl].
Qed.

Lemma Z_index_inj (ids : list Z) (r r' : Z) (i : nat) :
  Py.Z_index ids r = Some i -> Py.Z_index ids r' = Some i -> r = r'.
Proof.
  intros H H'. apply Z_index_Some in H as [H _]. apply Z_index_Some in H' as [H' _].
  congruence.
Qed.

Lemma all_in_ids (ids row_ids : list Z) :
  (forall r, r ∈ row_ids -> r ∈ ids) ->
  existsb (fun i => negb (Py.Z_mem i ids)) row_ids = false.
Proof.
  intros H. induction row_ids as [|r rs IH]; simpl; [reflexivity|].
  rewrite (proj2 (Z_mem_elem_of ids r)) by (apply H; left). simpl.
  apply IH. intros r' Hr'. apply H. now right.
Qed.

(** The assignments [col_data[ids.index(row_id)] = value], one after the
    other. *)
Lemma assign_ok (ids : list Z) (row_ids : list Z) (values data : list pyval) :
  (forall r, r ∈ row_ids -> r ∈ ids) ->
  length data = length ids ->
  exists data', TableProperty.assign ids data row_ids values = Ok data'
                /\ length data' = length ids.
Proof.
  revert values data. induction row_ids as [|r rs IH]; intros values data Hin Hlen.
  - exists data. now destruct values.
  - destruct values as [|v vs]; [exists data; split; [reflexivity|assumption]|].
    simpl. assert (Hr : r ∈ ids) by (apply Hin; left).
    apply Z_mem_elem_of, Z_index_mem in Hr as [i Hi]. rewrite Hi.
    destruct (Z_index_Some _ _ _ Hi) as [_ Hlt].
    destruct (Nat.ltb_spec i (length data)) as [_|Hge]; [|lia].
    apply IH; [intros r' Hr'; apply Hin; now right|].
    now rewrite length_insert.
Qed.

Lemma assign_untouched (ids : list Z) (i : nat) (row_ids : list Z)
    (values data data' : list pyval) :
  TableProperty.assign ids data row_ids values = Ok data' ->
  (forall r, r ∈ row_ids -> Py.Z_index ids r <> Some i) ->
  data' !! i = data !! i.
Proof.
  revert values data. induction row_ids as [|r rs IH]; intros values data H Hno.
  - destruct values; simpl in H; now injection H as <-.
  - destruct values as [|v vs]; simpl in H; [now injection H as <-|].
    destruct (Py.Z_index ids r) as [i0|] eqn:Hi0; [|discriminate].
    destruct (i0 <? length data)%nat; [|discriminate].
    rewrite (IH _ _ H) by (intros r' Hr'; apply Hno; now right).
    apply list_lookup_insert_ne. intros ->. apply (Hno r); [left|exact Hi0].
Qed.

Lemma assign_hit (ids : list Z) (row_ids : list Z) (values data data' : list pyval)
    (j : nat) (r : Z) (v : pyval) (i : nat) :
  TableProperty.assign ids data row_ids values = Ok data' ->
  row_ids !! j = Some r ->
  values !! j = Some v ->
  (forall j', (j < j')%nat -> row_ids !! j' <> Some r) ->
  Py.Z_index ids r = Some i ->
  data' !! i = Some v.
Proof.
  revert values data j. induction row_ids as [|r0 rs IH]; intros values data j H Hr Hv Hlast Hi;
    [discriminate|].
  destruct values as [|v0 vs]; [discriminate|]. simpl in H.
  destruct (Py.Z_index ids r0) as [i0|] eqn:Hi0; [|discriminate].
  destruct (Nat.ltb_spec i0 (length data)) as [Hlt|]; [|discriminate].
  destruct j as [|j]; simpl in Hr, Hv.
  - injection Hr as ->. injection Hv as ->. rewrite Hi in Hi0. injection Hi0 as <-.
    rewrite (assign_untouched _ i _ _ _ _ H).
    + now apply list_lookup_insert_eq.
    + intros r' Hr' Hi'. apply list_elem_of_lookup in Hr' as [j' Hj'].
      apply (Hlast (S j')); [lia|]. simpl.
      now rewrite (Z_index_inj _ _ _ _ Hi Hi').
  - apply (IH _ _ j H Hr Hv); [|exact Hi].
    intros j' Hj'. apply (Hlast (S j')). lia.
Qed.

(** A property that the table does not have yet, without index: the
    column is added as the table's last one, with one cell per row of the
    table; the cell of the row [row_id] holds the value paired with the
    last occurrence of [row_id] in [row_ids], and the cell of a row that
    [row_ids] does not name holds the default value. *)
Theorem set_property_adds_column (t : DynamicTable) (row_ids : list Z)
    (property_name : string) (values : list pyval) (default_value : pyval)
    (table : bool) (description : string) :
  (forall r, r ∈ row_ids -> r ∈ tbl_id t) ->
  length row_ids = length values ->
  Table.contains t property_name = false ->
  exists data,
    TableProperty.set_dynamic_table_property t row_ids property_name values
      IndexFalse default_value table description
    = Ok {| tbl_id := tbl_id t;
            tbl_columns := tbl_columns t ++
              [ {| col_name := property_name; col_description := description;
                   col_data := data; col_index := None; col_table := table |} ] |}
    /\ length data = length (tbl_id t)
    /\ (forall j r v, row_ids !! j = Some r -> values !! j = Some v ->
          (forall j', (j < j')%nat -> row_ids !! j' <> Some r) ->
          exists i, Py.Z_index (tbl_id t) r = Some i /\ data !! i = Some v)
    /\ (forall i, (i < length (tbl_id t))%nat ->
          (forall r, r ∈ row_ids -> Py.Z_index (tbl_id t) r <> Some i) ->
          data !! i = Some default_value).
Proof.
  intros Hin Hlen Hnew.
  destruct (assign_ok (tbl_id t) row_ids values
              (replicate (length (tbl_id t)) default_value) Hin)
    as (data & Hassign & Hdata); [apply length_replicate|].
  exists data. unfold TableProperty.set_dynamic_table_property. cbv zeta.
  rewrite (all_in_ids _ _ Hin).
  rewrite (proj2 (Nat.eqb_eq _ _) Hlen). simpl. rewrite Hnew, Hassign. simpl.
  unfold Table.add_column.
  unfold Table.contains in Hnew. apply orb_false_iff in Hnew as [-> _].
  rewrite (proj2 (Nat.eqb_eq _ _) Hdata). simpl.
  repeat split; [exact Hdata| |].
  - intros j r v Hr Hv Hlast.
    assert (Hmem : r ∈ tbl_id t) by (apply Hin; eapply list_elem_of_lookup_2, Hr).
    apply Z_mem_elem_of, Z_index_mem in Hmem as [i Hi].
    exists i. split; [exact Hi|].
    exact (assign_hit _ _ _ _ _ j r v i Hassign Hr Hv Hlast Hi).
  - intros i Hi Hno. rewrite (assign_untouched _ i _ _ _ _ Hassign Hno).
    now apply lookup_replicate_2.
Qed.

(** A property that is a column of the table, without index: the cells of
    the rows named by [row_ids] are overwritten as above, the other cells,
    the other columns and the row ids are as they were. *)
Theorem set_property_overwrites_cells (t : DynamicTable) (row_ids : list Z)
    (property_name : string) (values : list pyval) (default_value : pyval)
    (table : bool) (description : string) (c : Column) :
  (forall r, r ∈ row_ids -> r ∈ tbl_id t) ->
  length row_ids = length values ->
  Table.get_column t property_name = Some c ->
  col_index c = None ->
  length (col_data c) = length (tbl_id t) ->
  exists data t',
    TableProperty.set_dynamic_table_property t row_ids property_name values
      IndexFalse default_value table description = Ok t'
    /\ tbl_id t' = tbl_id t
    /\ Table.colnames t' = Table.colnames t
    /\ Table.get_column t' property_name = Some (TableProperty.set_column_data c data)
    /\ (forall other, other <> property_name ->
          Table.get_column t' other = Table.get_column t other)
    /\ length data = length (tbl_id t)
    /\ (forall j r v, row_ids !! j = Some r -> values !! j = Some v ->
          (forall j', (j < j')%nat -> row_ids !! j' <> Some r) ->
          exists i, Py.Z_index (tbl_id t) r = Some i /\ data !! i = Some v)
    /\ (forall i, (forall r, r ∈ row_ids -> Py.Z_index (tbl_id t) r <> Some i) ->
          data !! i = col_data c !! i).
Proof.
  intros Hin Hlen Hc Hplain Hwf.
  destruct (assign_ok (tbl_id t) row_ids values (col_data c) Hin Hwf)
    as (data & Hassign & Hdata).
  exists data. eexists.
  unfold TableProperty.set_dynamic_table_property. cbv zeta.
  rewrite (all_in_ids _ _ Hin).
  rewrite (proj2 (Nat.eqb_eq _ _) Hlen). simpl.
  assert (Hname : col_name c = property_name).
  { unfold Table.get_column in Hc. apply find_some in Hc as [_ E].
    now apply String.eqb_eq in E. }
  assert (Hcontains : Table.contains t property_name = true).
  { unfold Table.contains, Table.colnames, Py.str_mem.
    apply orb_true_iff. left. apply existsb_exists. exists (col_name c).
    unfold Table.get_column in Hc. apply find_some in Hc as [Hc E].
    split; [now apply in_map|]. rewrite Hname. apply String.eqb_refl. }
  rewrite Hcontains, Hc, Hplain, Hassign. simpl.
  split; [reflexivity|]. split; [reflexivity|].
  assert (Hcols : forall cols,
            map col_name (map (fun c' => if String.eqb (col_name c') (col_name c)
                                         then TableProperty.set_column_data c data
                                         else c') cols)
            = map col_name cols).
  { induction cols as [|c0 cols IH]; simpl; [reflexivity|].
    rewrite IH. destruct (String.eqb (col_name c0) (col_name c)) eqn:E;
      [|reflexivity].
    apply String.eqb_eq in E. simpl. now rewrite E. }
  split; [apply Hcols|].
  unfold Table.get_column, TableProperty.replace_column. simpl.
  split; [|split; [|split; [exact Hdata|split]]].
  - unfold Table.get_column in Hc. revert Hc. rewrite Hname.
    induction (tbl_columns t) as [|c0 cols IH]; simpl; [discriminate|].
    destruct (String.eqb (col_name c0) property_name) eqn:E; simpl.
    + intros _. now rewrite Hname, String.eqb_refl.
    + rewrite E. exact IH.
  - intros other Hother. rewrite Hname.
    induction (tbl_columns t) as [|c0 cols IH]; simpl; [reflexivity|].
    destruct (String.eqb (col_name c0) property_name) eqn:E; simpl.
    + rewrite Hname. apply String.eqb_eq in E. rewrite E.
      destruct (String.eqb property_name other) eqn:E'; [|exact IH].
      apply String.eqb_eq in E'. congruence.
    + destruct (String.eqb (col_name c0) other); [reflexivity|exact IH].
  - intros j r v Hr Hv Hlast.
    assert (Hmem : r ∈ tbl_id t) by (apply Hin; eapply list_elem_of_lookup_2, Hr).
    apply Z_mem_elem_of, Z_index_mem in Hmem as [i Hi].
    exists i. split; [exact Hi|].
    exact (assign_hit _ _ _ _ _ j r v i Hassign Hr Hv Hlast Hi).
  - intros i Hno. exact (assign_untouched _ i _ _ _ _ Hassign Hno).
Qed.


(** What is refused: a row id that the table does not have, whatever the
    rest; without index, row ids and values of different numbers; with an
    index, a property that the table has already. *)
Theorem set_property_refusals (t : DynamicTable) (row_ids : list Z)
    (property_name : string) (values : list pyval) (index : index_arg)
    (default_value : pyval) (table : bool) (description : string) :
  let result :=
    TableProperty.set_dynamic_table_property t row_ids property_name values
      index default_value table description in
  ((exists r, r ∈ row_ids /\ r ∉ tbl_id t) ->
     result = Raise (ValueError "'ids' contains values outside the range of existing ids"))
  /\ ((forall r, r ∈ row_ids -> r ∈ tbl_id t) ->
      index = IndexFalse -> length row_ids <> length values ->
      result = Raise (ValueError "'ids' and 'values' should be lists of same size"))
  /\ ((forall r, r ∈ row_ids -> r ∈ tbl_id t) ->
      index <> IndexFalse -> Table.contains t property_name = true ->
      result = Raise (NotImplementedError "")).
Proof.
  unfold TableProperty.set_dynamic_table_property. cbv zeta. repeat split.
  - intros (r & Hr & Hout).
    assert (H : existsb (fun i => negb (Py.Z_mem i (tbl_id t))) row_ids = true).
    { apply existsb_exists. exists r. split; [now apply list_elem_of_In|].
      destruct (Py.Z_mem r (tbl_id t)) eqn:E; [|reflexivity].
      apply Z_mem_elem_of in E. contradiction. }
    now rewrite H.
  - intros Hin -> Hlen. rewrite (all_in_ids _ _ Hin).
    destruct (Nat.eqb_spec (length row_ids) (length values)); [contradiction|].
    reflexivity.
  - intros Hin Hindex Hhas. rewrite (all_in_ids _ _ Hin), Hhas.
    destruct index; [contradiction|reflexivity|reflexivity].
Qed.

(** ** Composition steps for any relation *)

Ltac rel_step refl trans emit :=
  first
    [ apply keeps_ret; apply refl
    | apply keeps_raise; apply refl
    | apply keeps_lift; apply refl
    | apply keeps_assert; apply refl
    | apply keeps_get_self; apply refl
    | apply keeps_get_nwbfile; [apply refl|apply trans]
    | apply keeps_get_recording; [apply refl|apply trans]
    | apply keeps_get_sorting; [apply refl|apply trans]
    | apply keeps_get_kwargs; [apply refl|apply trans]
    | apply keeps_get_metadata; [apply refl|apply trans]
    | apply keeps_emit; intros ?; apply emit
    | apply keeps_for_each; [apply refl|apply trans|intros ?]
    | apply keeps_fold_each; [apply refl|apply trans|intros ? ?]
    | apply keeps_bind; [apply trans| |intros ?]
    | match goal with
      | |- keeps _ (match ?x with _ => _ end) => destruct x
      | |- keeps _ (if ?x then _ else _) => destruct x
      | |- keeps _ (let '(_, _) := ?x in _) => destruct x
      end ].

Lemma same_surroundings_refl (w : World) : same_surroundings w w.
Proof. now split. Qed.

Lemma same_surroundings_trans (w1 w2 w3 : World) :
  same_surroundings w1 w2 -> same_surroundings w2 w3 -> same_surroundings w1 w3.
Proof. intros [] []. split; congruence. Qed.

Lemma same_surroundings_emitted (w : World) (d : Diag) :
  same_surroundings w (emitted w d).
Proof. now split. Qed.

(** ** Dicts, continued *)

Lemma dict_get_not_key {V} (d : list (string * V)) (k : string) :
  k ∉ Py.dict_keys d -> Py.dict_get d k = None.
Proof.
  unfold Py.dict_keys. induction d as [|[k' v] d IH]; simpl; [reflexivity|].
  intros Hk. apply not_elem_of_cons in Hk as [Hne Hk].
  destruct (String.eqb k' k) eqn:E; [|now apply IH].
  apply String.eqb_eq in E. congruence.
Qed.

(** [d.update(u)]: the keys of [u] get its values, the others keep those
    of [d]. *)
Lemma dict_get_update {V} (u d : list (string * V)) (k : string) :
  distinct_keys u ->
  Py.dict_get (Py.dict_update d u) k
  = match Py.dict_get u k with
    | Some v => Some v
    | None => Py.dict_get d k
    end.
Proof.
  unfold distinct_keys, Py.dict_update, Py.dict_keys. revert d.
  induction u as [|[k' v] u IH]; intros d Hu; simpl; [reflexivity|].
  simpl in Hu. apply NoDup_cons in Hu as [Hk' Hu].
  rewrite (IH _ Hu). destruct (String.eqb k' k) eqn:E.
  - apply String.eqb_eq in E. subst k'.
    rewrite (dict_get_not_key u k Hk'). apply dict_get_set_eq.
  - destruct (Py.dict_get u k); [reflexivity|].
    apply dict_get_set_ne. intros ->. rewrite String.eqb_refl in E. discriminate.
Qed.

(** ** [instantiate_nwbfile] *)


(** ** [add_devices] *)

Lemma same_but_devices_refl (o : option NWBFile) : same_but_devices o o.
Proof. destruct o as [f|]; simpl; [now destruct f|exact I]. Qed.

Lemma same_but_devices_trans (o1 o2 o3 : option NWBFile) :
  same_but_devices o1 o2 -> same_but_devices o2 o3 -> same_but_devices o1 o3.
Proof.
  destruct o1 as [f1|], o2 as [f2|], o3 as [f3|]; simpl; try tauto.
  destruct f1, f2, f3; unfold NWB.with_devices; simpl.
  intros [= -> -> -> -> -> -> ->] [= -> -> -> -> -> -> ->]. reflexivity.
Qed.

Lemma devices_frame_refl (w : World) : devices_frame w w.
Proof.
  split; [apply same_but_devices_refl|auto|now left|apply same_surroundings_refl].
Qed.

Lemma devices_frame_trans (w1 w2 w3 : World) :
  devices_frame w1 w2 -> devices_frame w2 w3 -> devices_frame w1 w3.
Proof.
  intros [Hf Hk Hm Hs] [Hf' Hk' Hm' Hs']. split.
  - eapply same_but_devices_trans; eassumption.
  - auto.
  - destruct Hm as [Hm|[Hm1 Hm2]], Hm' as [Hm'|[Hm1' Hm2']].
    + left. congruence.
    + right. split; congruence.
    + right. split; congruence.
    + congruence.
  - eapply same_surroundings_trans; eassumption.
Qed.

Lemma devices_frame_emitted (w : World) (d : Diag) : devices_frame w (emitted w d).
Proof.
  split; [apply same_but_devices_refl|auto|now left|apply same_surroundings_emitted].
Qed.

Lemma create_device_inv (f f' : NWBFile) (kwargs : list (string * pyval)) :
  BaseNwbEphysWriter.create_device f kwargs = Ok f' ->
  exists name,
    Py.dict_get kwargs "name" = Some (VStr name)
    /\ devices f !! name = None
    /\ f' = NWB.with_devices f (<[name := kwargs]> (devices f)).
Proof.
  unfold BaseNwbEphysWriter.create_device.
  destruct (negb _); [discriminate|].
  destruct (Py.dict_get kwargs "name") as [v|]; [|discriminate].
  destruct v; try discriminate.
  destruct (devices f !! s) as [d|] eqn:Hd.
  - rewrite bool_decide_eq_true_2 by eauto. discriminate.
  - rewrite bool_decide_eq_false_2 by (intros [x Hx]; discriminate).
    intros [= <-]. eauto.
Qed.

Lemma keeps_create_device (kwargs : list (string * pyval)) :
  keeps devices_frame
        (update_nwbfile (fun f => BaseNwbEphysWriter.create_device f kwargs)).
Proof.
  intros w. unfold update_nwbfile. run_step.
  destruct (nwbfile (self w)) as [f|] eqn:Hf; simpl; [|apply devices_frame_refl].
  destruct (BaseNwbEphysWriter.create_device f kwargs) as [f'|e] eqn:Hc; simpl;
    [|apply devices_frame_refl].
  apply create_device_inv in Hc as (name & _ & Hnew & ->).
  split; simpl.
  - rewrite Hf. simpl. now destruct f.
  - unfold devices_of. simpl. rewrite Hf. intros n d Hn.
    rewrite lookup_insert_ne; [exact Hn|]. intros ->. congruence.
  - now left.
  - now split.
Qed.

(** The loop over the devices of the metadata. *)
Lemma keeps_device_loop (devs : list pyval) (body : pyval -> M unit) :
  body = (fun dev =>
    match dev with
    | VDict d =>
        name ← lift (Meta.as_str (default (VStr "Device") (Py.dict_get d "name")));
        f ← get_nwbfile;
        if bool_decide (is_Some (devices f !! name)) then mret tt
        else update_nwbfile (fun f =>
               BaseNwbEphysWriter.create_device f
                 (Py.dict_update BaseNwbEphysWriter.device_defaults d))
    | _ => raise (AttributeError "object has no attribute 'get'")
    end) ->
  keeps devices_frame (for_each devs body).
Proof.
  intros ->.
  repeat first [apply keeps_create_device
               |rel_step devices_frame_refl devices_frame_trans devices_frame_emitted].
Qed.


Lemma update_nwbfile_inv (op : NWBFile -> Res NWBFile) (w w' : World) (u : unit) :
  update_nwbfile op w = (Ok u, w') ->
  exists f f', nwbfile (self w) = Some f /\ op f = Ok f'
               /\ w' = {| self := with_nwbfile (self w) (Some f');
                          diagnostics := diagnostics w; disk := disk w;
                          available_memory := available_memory w;
                          next_uuid := next_uuid w |}.
Proof.
  unfold update_nwbfile. run_step.
  destruct (nwbfile (self w)) as [f|]; simpl; [|discriminate].
  destruct (op f) as [f'|] eqn:Hop; simpl; [|discriminate].
  intros [= <- <-]. exists f, f'. repeat split. exact Hop.
Qed.

(** After the loop has returned, every entry it ran over is a dict whose
    name is a device of the container. *)
Lemma device_loop_post (devs : list pyval) (body : pyval -> M unit) (w w' : World) :
  body = (fun dev =>
    match dev with
    | VDict d =>
        name ← lift (Meta.as_str (default (VStr "Device") (Py.dict_get d "name")));
        f ← get_nwbfile;
        if bool_decide (is_Some (devices f !! name)) then mret tt
        else update_nwbfile (fun f =>
               BaseNwbEphysWriter.create_device f
                 (Py.dict_update BaseNwbEphysWriter.device_defaults d))
    | _ => raise (AttributeError "object has no attribute 'get'")
    end) ->
  for_each devs body w = (Ok tt, w') ->
  (forall d, VDict d ∈ devs -> distinct_keys d) ->
  forall dev, dev ∈ devs ->
    exists d name,
      dev = VDict d
      /\ default (VStr "Device") (Py.dict_get d "name") = VStr name
      /\ is_Some (devices_of w' !! name).
Proof.
  intros Hbody. revert w. induction devs as [|dev0 devs IH]; intros w H Hkeys dev Hdev.
  - now apply elem_of_nil in Hdev.
  - simpl in H. inv_bind H as u w1 Hs.
    apply elem_of_cons in Hdev as [->|Hdev].
    + pose proof (keeps_device_loop devs body Hbody w1) as Hframe.
      rewrite H in Hframe. simpl in Hframe.
      rewrite Hbody in Hs. destruct dev0; try discriminate.
      inv_bind Hs as name wa Hn. apply lift_inv in Hn as [Hname ->].
      unfold Meta.as_str in Hname.
      destruct (default (VStr "Device") (Py.dict_get d "name")) eqn:Hdef;
        try discriminate.
      injection Hname as ->.
      exists d, name. split; [reflexivity|]. split; [exact Hdef|].
      inv_bind Hs as f wa Hf. apply get_nwbfile_inv in Hf as [Hf ->].
      destruct (devices f !! name) as [x|] eqn:Hx.
      * rewrite bool_decide_eq_true_2 in Hs by eauto.
        apply ret_inv in Hs as [_ ->].
        exists x. apply (dev_kept _ _ Hframe). unfold devices_of. now rewrite Hf.
      * rewrite bool_decide_eq_false_2 in Hs by (intros [y Hy]; discriminate).
        apply update_nwbfile_inv in Hs as (f0 & f' & Hf0 & Hc & ->).
        apply create_device_inv in Hc as (name' & Hname' & _ & ->).
        rewrite dict_get_update in Hname' by (apply Hkeys; left).
        assert (name' = name) as ->.
        { destruct (Py.dict_get d "name"); simpl in *; congruence. }
        eexists. apply (dev_kept _ _ Hframe). unfold devices_of. simpl.
        apply lookup_insert_eq.
    + apply (IH w1 H); [|exact Hdev].
      intros d Hd. apply Hkeys. now right.
Qed.

Lemma create_default_device (f : NWBFile) :
  devices f !! "Device" = None ->
  BaseNwbEphysWriter.create_device f BaseNwbEphysWriter.device_defaults
  = Ok (NWB.with_devices f
          (<["Device" := BaseNwbEphysWriter.device_defaults]> (devices f))).
Proof.
  intros Hx. unfold BaseNwbEphysWriter.create_device.
  change (negb (forallb _ (Py.dict_keys BaseNwbEphysWriter.device_defaults)))
    with false.
  change (Py.dict_get BaseNwbEphysWriter.device_defaults "name")
    with (Some (VStr "Device")).
  cbv iota. rewrite bool_decide_eq_false_2 by (rewrite Hx; intros [y Hy]; discriminate).
  reflexivity.
Qed.

(** Without an entry [Device] in the metadata it works on, [add_devices]
    returns, and the container has the device [Device]: the one it had
    under that name or else a new one made from the defaults; the other
    devices are as they were. *)
Theorem add_devices_default_device (metadata_arg : option pyval) (w : World)
    (f : NWBFile) (d : list (string * pyval)) :
  nwbfile (self w) = Some f ->
  default (default (VDict []) (metadata (self w))) metadata_arg = VDict d ->
  (Py.dict_get d "Ecephys" = None
   \/ exists e, Py.dict_get d "Ecephys" = Some (VDict e)
                /\ Py.dict_get e "Device" = None) ->
  exists w',
    BaseNwbEphysWriter.add_devices metadata_arg w = (Ok tt, w')
    /\ devices_of w'
       = match devices f !! "Device" with
         | Some _ => devices f
         | None => <["Device" := BaseNwbEphysWriter.device_defaults]> (devices f)
         end.
Proof.
  intros Hf Hmd He.
  unfold BaseNwbEphysWriter.add_devices.
  rewrite (bind_ok (print "add devices") _ w (emitted w (Printed "add devices")) tt
             eq_refl).
  rewrite (bind_ok get_self _ _ _ _ eq_refl).
  assert (Hstep : exists w1,
    (match metadata (self (emitted w (Printed "add devices"))) with
     | Some md => mret md
     | None => set_metadata (VDict []);; mret (VDict [])
     end) (emitted w (Printed "add devices"))
    = (Ok (default (VDict []) (metadata (self w))), w1)
    /\ nwbfile (self w1) = Some f).
  { simpl. destruct (metadata (self w)); simpl; eexists; (split; [reflexivity|]);
      simpl; exact Hf. }
  destruct Hstep as (w1 & Hstep & Hf1).
  rewrite (bind_ok _ _ _ _ _ Hstep). cbv zeta. rewrite Hmd.
  assert (Hloop : exists w2,
    for_each [VDict BaseNwbEphysWriter.device_defaults]
      (fun dev =>
         match dev with
         | VDict d =>
             name ← lift (Meta.as_str (default (VStr "Device") (Py.dict_get d "name")));
             f ← get_nwbfile;
             if bool_decide (is_Some (devices f !! name)) then mret tt
             else update_nwbfile (fun f =>
                    BaseNwbEphysWriter.create_device f
                      (Py.dict_update BaseNwbEphysWriter.device_defaults d))
         | _ => raise (AttributeError "object has no attribute 'get'")
         end) w1 = (Ok tt, w2)
    /\ nwbfile (self w2)
       = Some match devices f !! "Device" with
              | Some _ => f
              | None => NWB.with_devices f
                          (<["Device" := BaseNwbEphysWriter.device_defaults]> (devices f))
              end).
  { unfold for_each.
    change (Py.dict_get BaseNwbEphysWriter.device_defaults "name")
      with (Some (VStr "Device")).
    change (Py.dict_update BaseNwbEphysWriter.device_defaults
              BaseNwbEphysWriter.device_defaults)
      with BaseNwbEphysWriter.device_defaults.
    unfold Meta.as_str. run_step. rewrite Hf1. simpl.
    destruct (devices f !! "Device") as [x|] eqn:Hx.
    - rewrite bool_decide_eq_true_2 by eauto. simpl. eauto.
    - rewrite bool_decide_eq_false_2 by (intros [y Hy]; discriminate).
      run_step. rewrite Hf1. simpl. rewrite (create_default_device f Hx). simpl.
      eexists. split; reflexivity. }
  destruct Hloop as (w2 & Hloop & Hf2).
  assert (Hend : (f ← get_nwbfile; print "devices") w2
                 = (Ok tt, emitted w2 (Printed "devices"))).
  { run_step. now rewrite Hf2. }
  exists (emitted w2 (Printed "devices")). split.
  - unfold Meta.contains, Meta.getitem, Meta.setitem, Meta.as_dict, Py.dict_mem.
    destruct He as [He|(e & He & Hdev)].
    + simpl. rewrite He.
      rewrite (bind_ok (lift (Ok false)) _ w1 w1 false eq_refl).
      rewrite (bind_ok (lift (Ok (VDict (Py.dict_set d "Ecephys" (VDict [])))))
                 _ w1 w1 _ eq_refl).
      simpl. rewrite dict_get_set_eq.
      rewrite (bind_ok (lift (Ok (VDict []))) _ w1 w1 _ eq_refl). simpl.
      rewrite (bind_ok (lift (Ok false)) _ w1 w1 false eq_refl).
      rewrite (bind_ok (lift (Ok (VDict [("Device",
                 VList [VDict BaseNwbEphysWriter.device_defaults])])))
                 _ w1 w1 _ eq_refl).
      change (Py.dict_get [("Device", VList [VDict BaseNwbEphysWriter.device_defaults])]
                "Device")
        with (Some (VList [VDict BaseNwbEphysWriter.device_defaults])).
      simpl.
      rewrite (bind_ok (lift (Ok (VList [VDict BaseNwbEphysWriter.device_defaults])))
                 _ w1 w1 _ eq_refl).
      rewrite (bind_ok (lift (Py.iter (VList [VDict BaseNwbEphysWriter.device_defaults])))
                 _ w1 w1 _ eq_refl).
      rewrite (bind_ok _ _ _ _ _ Hloop). exact Hend.
    + simpl. rewrite He.
      rewrite (bind_ok (lift (Ok true)) _ w1 w1 true eq_refl).
      rewrite (bind_ok (mret (VDict d)) _ w1 w1 _ eq_refl).
      simpl. rewrite He.
      rewrite (bind_ok (lift (Ok (VDict e))) _ w1 w1 _ eq_refl). simpl.
      rewrite Hdev.
      rewrite (bind_ok (lift (Ok false)) _ w1 w1 false eq_refl).
      rewrite (bind_ok (lift (Ok (VDict (Py.dict_set e "Device"
                 (VList [VDict BaseNwbEphysWriter.device_defaults])))))
                 _ w1 w1 _ eq_refl).
      simpl. rewrite dict_get_set_eq.
      rewrite (bind_ok (lift (Ok (VList [VDict BaseNwbEphysWriter.device_defaults])))
                 _ w1 w1 _ eq_refl).
      rewrite (bind_ok (lift (Py.iter (VList [VDict BaseNwbEphysWriter.device_defaults])))
                 _ w1 w1 _ eq_refl).
      rewrite (bind_ok _ _ _ _ _ Hloop). exact Hend.
  - unfold devices_of. simpl. rewrite Hf2.
    now destruct (devices f !! "Device").
Qed.

(** With an empty list of devices in the metadata, [add_devices] returns
    and creates nothing: a container without device stays without. *)
Theorem add_devices_empty_list (metadata_arg : option pyval) (w : World)
    (f : NWBFile) (d e : list (string * pyval)) :
  nwbfile (self w) = Some f ->
  default (default (VDict []) (metadata (self w))) metadata_arg = VDict d ->
  Py.dict_get d "Ecephys" = Some (VDict e) ->
  Py.dict_get e "Device" = Some (VList []) ->
  exists w',
    BaseNwbEphysWriter.add_devices metadata_arg w = (Ok tt, w')
    /\ nwbfile (self w') = Some f.
Proof.
  intros Hf Hmd He Hdev.
  unfold BaseNwbEphysWriter.add_devices.
  rewrite (bind_ok (print "add devices") _ w (emitted w (Printed "add devices")) tt
             eq_refl).
  rewrite (bind_ok get_self _ _ _ _ eq_refl).
  assert (Hstep : exists w1,
    (match metadata (self (emitted w (Printed "add devices"))) with
     | Some md => mret md
     | None => set_metadata (VDict []);; mret (VDict [])
     end) (emitted w (Printed "add devices"))
    = (Ok (default (VDict []) (metadata (self w))), w1)
    /\ nwbfile (self w1) = Some f).
  { simpl. destruct (metadata (self w)); simpl; eexists; (split; [reflexivity|]);
      simpl; exact Hf. }
  destruct Hstep as (w1 & Hstep & Hf1).
  rewrite (bind_ok _ _ _ _ _ Hstep). cbv zeta. rewrite Hmd.
  unfold Meta.contains, Meta.getitem, Meta.setitem, Meta.as_dict, Py.dict_mem.
  simpl. rewrite He.
  rewrite (bind_ok (lift (Ok true)) _ w1 w1 true eq_refl).
  rewrite (bind_ok (mret (VDict d)) _ w1 w1 _ eq_refl).
  simpl. rewrite He.
  rewrite (bind_ok (lift (Ok (VDict e))) _ w1 w1 _ eq_refl). simpl.
  rewrite Hdev.
  rewrite (bind_ok (lift (Ok true)) _ w1 w1 true eq_refl).
  rewrite (bind_ok (mret (VDict e)) _ w1 w1 _ eq_refl).
  simpl. rewrite Hdev.
  rewrite (bind_ok (lift (Ok (VList []))) _ w1 w1 _ eq_refl).
  rewrite (bind_ok (lift (Py.iter (VList []))) _ w1 w1 _ eq_refl).
  run_step. rewrite Hf1. simpl. eexists. split; [reflexivity|exact Hf1].
Qed.

(** ** [add_devices], called again *)

(** The steps of [add_devices] between the metadata and the loop do not
    look at the world: they give the list the loop runs over, or raise. *)
Lemma device_list_pure (md0 : pyval) (k : list pyval -> M unit) (w : World) :
  (has_ecephys ← lift (Meta.contains md0 "Ecephys");
   metadata1 ← (if has_ecephys : bool then mret md0
                 else lift (Meta.setitem md0 "Ecephys" (VDict [])));
   ecephys ← lift (Meta.getitem metadata1 "Ecephys");
   has_device ← lift (Meta.contains ecephys "Device");
   ecephys1 ← (if has_device : bool then mret ecephys
                else lift (Meta.setitem ecephys "Device"
                             (VList [VDict BaseNwbEphysWriter.device_defaults])));
   device_list ← lift (Meta.getitem ecephys1 "Device");
   devs ← lift (Py.iter device_list);
   k devs) w
  = match device_entries md0 with
    | Ok devs => k devs w
    | Raise e => (Raise e, w)
    end.
Proof.
  unfold device_entries. run_step. unfold mbind, Res_bind, res_bind.
  destruct (Meta.contains md0 "Ecephys") as [[]|]; simpl; [| |reflexivity].
  - destruct (Meta.getitem md0 "Ecephys") as [ecephys|]; simpl; [|reflexivity].
    destruct (Meta.contains ecephys "Device") as [[]|]; simpl; [| |reflexivity].
    + destruct (Meta.getitem ecephys "Device") as [dl|]; simpl; [|reflexivity].
      now destruct (Py.iter dl).
    + destruct (Meta.setitem ecephys "Device" _) as [e1|]; simpl; [|reflexivity].
      destruct (Meta.getitem e1 "Device") as [dl|]; simpl; [|reflexivity].
      now destruct (Py.iter dl).
  - destruct (Meta.setitem md0 "Ecephys" _) as [md1|]; simpl; [|reflexivity].
    destruct (Meta.getitem md1 "Ecephys") as [ecephys|]; simpl; [|reflexivity].
    destruct (Meta.contains ecephys "Device") as [[]|]; simpl; [| |reflexivity].
    + destruct (Meta.getitem ecephys "Device") as [dl|]; simpl; [|reflexivity].
      now destruct (Py.iter dl).
    + destruct (Meta.setitem ecephys "Device" _) as [e1|]; simpl; [|reflexivity].
      destruct (Meta.getitem e1 "Device") as [dl|]; simpl; [|reflexivity].
      now destruct (Py.iter dl).
Qed.

(** If [add_devices] returns, every entry of the list of devices it ran
    over (that of the metadata it worked on, or the default entry) is a
    dict, and the name of the entry, [Device] for an entry without name,
    is a device of the container. *)
Theorem add_devices_creates_named_devices (metadata_arg : option pyval)
    (w w' : World) (devs : list pyval) :
  BaseNwbEphysWriter.add_devices metadata_arg w = (Ok tt, w') ->
  device_entries (default (default (VDict []) (metadata (self w))) metadata_arg)
  = Ok devs ->
  (forall d, VDict d ∈ devs -> distinct_keys d) ->
  forall dev, dev ∈ devs ->
    exists d name,
      dev = VDict d
      /\ default (VStr "Device") (Py.dict_get d "name") = VStr name
      /\ is_Some (devices_of w' !! name).
Proof.
  intros H Hdevs Hkeys.
  unfold BaseNwbEphysWriter.add_devices in H.
  inv_bind H as u0 w0 Hs.
  assert (w0 = emitted w (Printed "add devices")) as ->
    by (unfold print, emit in Hs; now injection Hs).
  clear Hs.
  inv_bind H as s wa Hs. injection Hs as <- <-.
  inv_bind H as self_metadata w1 Hs.
  assert (Hmd : self_metadata = default (VDict []) (metadata (self w))).
  { simpl in Hs.
    destruct (metadata (self w)); [now apply ret_inv in Hs as [-> _]|].
    inv_bind Hs as u wb Hs'. now apply ret_inv in Hs as [-> _]. }
  clear Hs. subst self_metadata. cbv zeta in H.
  rewrite device_list_pure, Hdevs in H.
  inv_bind H as u2 w2 Hloop. destruct u2.
  inv_bind H as f wa Hs. apply get_nwbfile_inv in Hs as [_ ->].
  unfold print, emit in H. injection H as <-.
  exact (device_loop_post devs _ w1 w2 eq_refl Hloop Hkeys).
Qed.

(** The loop does nothing in a world that has every device it runs
    over. *)
Lemma device_loop_noop (devs : list pyval) (body : pyval -> M unit) (w : World) :
  body = (fun dev =>
    match dev with
    | VDict d =>
        name ← lift (Meta.as_str (default (VStr "Device") (Py.dict_get d "name")));
        f ← get_nwbfile;
        if bool_decide (is_Some (devices f !! name)) then mret tt
        else update_nwbfile (fun f =>
               BaseNwbEphysWriter.create_device f
                 (Py.dict_update BaseNwbEphysWriter.device_defaults d))
    | _ => raise (AttributeError "object has no attribute 'get'")
    end) ->
  (forall dev, dev ∈ devs ->
     exists d name,
       dev = VDict d
       /\ default (VStr "Device") (Py.dict_get d "name") = VStr name
       /\ is_Some (devices_of w !! name)) ->
  for_each devs body w = (Ok tt, w).
Proof.
  intros Hbody Hall. induction devs as [|dev devs IH]; [reflexivity|].
  simpl. destruct (Hall dev) as (d & name & -> & Hname & Hsome); [left|].
  assert (Hstep : body (VDict d) w = (Ok tt, w)).
  { rewrite Hbody. rewrite Hname. unfold Meta.as_str. run_step.
    unfold devices_of in Hsome.
    destruct (nwbfile (self w)) as [f|]; simpl;
      [|rewrite lookup_empty in Hsome; now destruct Hsome].
    now rewrite bool_decide_eq_true_2. }
  rewrite (bind_ok _ _ _ _ _ Hstep). apply IH.
  intros dev Hdev. apply Hall. now right.
Qed.

(** A second call of [add_devices] after one that returned: it returns
    and all it does is print; the container, with the devices of the first
    call, and the metadata are as the first call left them. *)
Theorem add_devices_again_only_prints (metadata_arg : option pyval)
    (w w' : World) (devs : list pyval) :
  BaseNwbEphysWriter.add_devices metadata_arg w = (Ok tt, w') ->
  device_entries (default (default (VDict []) (metadata (self w))) metadata_arg)
  = Ok devs ->
  (forall d, VDict d ∈ devs -> distinct_keys d) ->
  exists printed printed',
    BaseNwbEphysWriter.add_devices metadata_arg w'
    = (Ok tt, emitted (emitted w' (Printed printed)) (Printed printed')).
Proof.
  intros H Hdevs Hkeys.
  unfold BaseNwbEphysWriter.add_devices in H.
  inv_bind H as u0 w0 Hs.
  assert (w0 = emitted w (Printed "add devices")) as ->
    by (unfold print, emit in Hs; now injection Hs).
  clear Hs.
  inv_bind H as s wa Hs. injection Hs as <- <-.
  inv_bind H as self_metadata w1 Hs.
  assert (Hmd : self_metadata = default (VDict []) (metadata (self w))
                /\ metadata (self w1) = Some self_metadata).
  { simpl in Hs.
    destruct (metadata (self w)) eqn:E.
    - apply ret_inv in Hs as [-> ->]. simpl. now rewrite E.
    - inv_bind Hs as u wb Hs'. apply ret_inv in Hs as [-> ->].
      cbv [set_metadata mbind M_mbind M_bind get_self put_self] in Hs'.
      injection Hs' as _ <-. now split. }
  clear Hs. destruct Hmd as [-> Hmd1]. cbv zeta in H.
  rewrite device_list_pure, Hdevs in H.
  inv_bind H as u2 w2 Hloop. destruct u2.
  inv_bind H as f wa Hs. apply get_nwbfile_inv in Hs as [Hf2 ->].
  unfold print, emit in H. injection H as <-.
  pose proof (device_loop_post devs _ w1 w2 eq_refl Hloop Hkeys) as Hpost.
  pose proof (keeps_device_loop devs _ eq_refl w1) as Hframe.
  rewrite Hloop in Hframe. simpl in Hframe.
  assert (Hmd2 : metadata (self w2) = Some (default (VDict []) (metadata (self w)))).
  { destruct (dev_metadata _ _ Hframe) as [E|[E _]]; congruence. }
  exists "add devices", "devices".
  unfold BaseNwbEphysWriter.add_devices.
  set (w3 := {| self := self w2; diagnostics := diagnostics w2 ++ [Printed "devices"];
                disk := disk w2; available_memory := available_memory w2;
                next_uuid := next_uuid w2 |}).
  rewrite (bind_ok (print "add devices") _ w3 (emitted w3 (Printed "add devices")) tt
             eq_refl).
  rewrite (bind_ok get_self _ _ _ _ eq_refl).
  simpl. rewrite Hmd2.
  rewrite (bind_ok (mret (default (VDict []) (metadata (self w)))) _ _ _ _ eq_refl).
  cbv zeta. rewrite device_list_pure, Hdevs.
  rewrite (bind_ok _ _ _ _ tt
             (device_loop_noop devs _ (emitted w3 (Printed "add devices")) eq_refl
                (fun dev Hdev => Hpost dev Hdev))).
  run_step. now rewrite Hf2.
Qed.

(** ** [get_nwb_metadata] *)

Lemma insert_sorted_Z_elem (z x : Z) (l : list Z) :
  x ∈ insert_sorted_Z z l <-> x = z \/ x ∈ l.
Proof.
  induction l as [|y l IH]; simpl.
  - rewrite list_elem_of_singleton, elem_of_nil. tauto.
  - destruct (Z.ltb_spec z y).
    + rewrite !elem_of_cons. tauto.
    + destruct (Z.eqb_spec z y) as [->|Hne].
      * rewrite !elem_of_cons. tauto.
      * rewrite !elem_of_cons, IH. tauto.
Qed.

Lemma np_unique_Z_elem (x : Z) (l : list Z) : x ∈ np_unique_Z l <-> x ∈ l.
Proof.
  unfold np_unique_Z. induction l as [|y l IH]; simpl; [reflexivity|].
  rewrite insert_sorted_Z_elem, IH, elem_of_cons. tauto.
Qed.

Lemma increasing_cons (y : Z) (l : list Z) :
  increasing (y :: l) <-> (forall x, x ∈ l -> (y < x)%Z) /\ increasing l.
Proof.
  unfold increasing. split.
  - intros H. split.
    + intros x Hx. apply list_elem_of_lookup in Hx as [j Hj].
      apply (H O (S j)); [lia|reflexivity|exact Hj].
    + intros i j a b Hij Ha Hb. apply (H (S i) (S j)); [lia|exact Ha|exact Hb].
  - intros [Hy Hl] i j a b Hij Ha Hb.
    destruct j as [|j]; [lia|]. simpl in Hb.
    destruct i as [|i]; simpl in Ha.
    + injection Ha as <-. apply Hy. eapply list_elem_of_lookup_2, Hb.
    + apply (Hl i j); [lia|exact Ha|exact Hb].
Qed.

Lemma insert_sorted_Z_increasing (z : Z) (l : list Z) :
  increasing l -> increasing (insert_sorted_Z z l).
Proof.
  induction l as [|y l IH]; intros Hl; simpl.
  - apply increasing_cons. split; [intros x Hx; now apply elem_of_nil in Hx|].
    intros i j a b _ Ha. discriminate.
  - apply increasing_cons in Hl as [Hy Hl].
    destruct (Z.ltb_spec z y) as [Hlt|Hge].
    + apply increasing_cons. split.
      * intros x Hx. apply elem_of_cons in Hx as [->|Hx]; [exact Hlt|].
        specialize (Hy x Hx). lia.
      * apply increasing_cons. now split.
    + destruct (Z.eqb_spec z y) as [->|Hne].
      * apply increasing_cons. now split.
      * apply increasing_cons. split; [|now apply IH].
        intros x Hx. apply insert_sorted_Z_elem in Hx as [->|Hx]; [lia|now apply Hy].
Qed.

Lemma np_unique_Z_increasing (l : list Z) : increasing (np_unique_Z l).
Proof.
  unfold np_unique_Z. induction l as [|y l IH]; simpl.
  - intros i j a b _ Ha. discriminate.
  - now apply insert_sorted_Z_increasing.
Qed.

(** For a recording with channel groups, [get_nwb_metadata] returns, with
    the world as it was, the default metadata: the identifier is the next
    uuid, there is the one device [Device], and the entries of
    [ElectrodeGroup] are one per distinct channel group, named by the
    group's number and in increasing order of the groups. *)
Theorem get_nwb_metadata_one_entry_per_group (w : World) (r : RecordingExtractor)
    (g : Z -> Z) :
  recording (self w) = Some r ->
  channel_groups r = Some g ->
  exists groups,
    SI013NwbEphysWriter.get_nwb_metadata w
    = (Ok (VDict
         [("NWBFile", VDict
             [("session_description",
               VStr "Auto-generated by NWB-conversion-tools without description.");
              ("identifier", VStr (next_uuid w));
              ("session_start_time", VDatetime 1970 1 1)]);
          ("Ecephys", VDict
             [("Device", VList [VDict [("name", VStr "Device");
                                       ("description", VStr "no description")]]);
              ("ElectrodeGroup", VList
                 (map (fun gn => VDict [("name", VStr (pretty gn));
                                        ("description", VStr "no description");
                                        ("location", VStr "unknown");
                                        ("device", VStr "Device")]) groups))])]),
       w)
    /\ increasing groups
    /\ (forall z, z ∈ groups <-> exists c, c ∈ channel_ids r /\ g c = z)
    /\ NoDup (map (fun gn : Z => pretty gn) groups).
Proof.
  intros Hr Hg. exists (np_unique_Z (map g (channel_ids r))).
  split; [|split; [apply np_unique_Z_increasing|split]].
  - unfold SI013NwbEphysWriter.get_nwb_metadata. run_step.
    rewrite Hr. simpl. rewrite Hg. reflexivity.
  - intros z. rewrite np_unique_Z_elem, list_elem_of_In, in_map_iff. split.
    + intros (c & <- & Hc). exists c. split; [now apply list_elem_of_In|reflexivity].
    + intros (c & Hc & <-). exists c. split; [reflexivity|now apply list_elem_of_In].
  - apply (@NoDup_fmap_2 _ _ (fun gn : Z => pretty gn) pretty_Z_inj).
    pose proof (np_unique_Z_increasing (map g (channel_ids r))) as Hinc.
    induction (np_unique_Z (map g (channel_ids r))) as [|y l IH]; [constructor|].
    apply increasing_cons in Hinc as [Hy Hl]. constructor; [|now apply IH].
    intros Hin. specialize (Hy y Hin). lia.
Qed.

(** ** [add_epochs] *)

Lemma same_but_epochs_refl (o : option NWBFile) : same_but_epochs o o.
Proof. destruct o as [f|]; simpl; [now destruct f|exact I]. Qed.

Lemma same_but_epochs_trans (o1 o2 o3 : option NWBFile) :
  same_but_epochs o1 o2 -> same_but_epochs o2 o3 -> same_but_epochs o1 o3.
Proof.
  destruct o1 as [f1|], o2 as [f2|], o3 as [f3|]; simpl; try tauto.
  destruct f1, f2, f3; unfold NWB.with_epochs; simpl.
  intros [= -> -> -> -> -> -> ->] [= -> -> -> -> -> -> ->]. reflexivity.
Qed.

Lemma epochs_frame_refl (w : World) : epochs_frame w w.
Proof.
  split; [apply same_but_epochs_refl|reflexivity|reflexivity
         |apply same_surroundings_refl].
Qed.

Lemma epochs_frame_trans (w1 w2 w3 : World) :
  epochs_frame w1 w2 -> epochs_frame w2 w3 -> epochs_frame w1 w3.
Proof.
  intros [] []. split; try congruence.
  - eapply same_but_epochs_trans; eassumption.
  - eapply same_surroundings_trans; eassumption.
Qed.

Lemma keeps_add_epoch (r : RecordingExtractor) (epoch : string * (Z * Z)) :
  keeps epochs_frame (SI013NwbEphysWriter.add_epoch r epoch).
Proof.
  intros w. destruct epoch as [epoch_name [start_frame end_frame]].
  unfold SI013NwbEphysWriter.add_epoch. run_step.
  destruct (nwbfile (self w)) as [f|] eqn:Hf; simpl; [|apply epochs_frame_refl].
  assert (Hset : forall es,
            epochs_frame w
              {| self := with_nwbfile (self w) (Some (NWB.with_epochs f es));
                 diagnostics := diagnostics w; disk := disk w;
                 available_memory := available_memory w;
                 next_uuid := next_uuid w |}).
  { intros es. split; simpl; try reflexivity; [|now split].
    rewrite Hf. simpl. now destruct f. }
  destruct (epochs f) as [es|]; [|apply Hset].
  destruct (existsb _ es); apply Hset.
Qed.

(** Whether it returns or raises, [add_epochs] changes nothing but the
    epochs of the container: the tables, the devices, the series, the
    metadata, the diagnostics and the files are as before. *)
Theorem add_epochs_only_changes_epochs (w : World) :
  epochs_frame w (SI013NwbEphysWriter.add_epochs w).2.
Proof.
  revert w. change (keeps epochs_frame SI013NwbEphysWriter.add_epochs).
  unfold SI013NwbEphysWriter.add_epochs.
  apply keeps_bind; [apply epochs_frame_trans| |].
  - apply keeps_get_recording; [apply epochs_frame_refl|apply epochs_frame_trans].
  - intros r. apply keeps_for_each;
      [apply epochs_frame_refl|apply epochs_frame_trans|apply keeps_add_epoch].
Qed.



(** ** [get_num_spikes] *)

Lemma cumsum_length (acc : Z) (l : list Z) :
  length (SI013NwbEphysWriter.cumsum acc l) = length l.
Proof. revert acc. induction l as [|x l IH]; intros acc; simpl; [reflexivity|now rewrite IH]. Qed.

Lemma cumsum_head (acc : Z) (l : list Z) (n : Z) :
  l !! O = Some n -> SI013NwbEphysWriter.cumsum acc l !! O = Some (acc + n)%Z.
Proof. destruct l as [|x l]; simpl; [discriminate|]. now intros [= ->]. Qed.

(** Two neighbours of a cumulative sum differ by the summand. *)
Lemma cumsum_step (acc : Z) (l : list Z) (i : nat) (n : Z) :
  l !! S i = Some n ->
  exists a, SI013NwbEphysWriter.cumsum acc l !! i = Some a
            /\ SI013NwbEphysWriter.cumsum acc l !! S i = Some (a + n)%Z.
Proof.
  revert acc i. induction l as [|x l IH]; intros acc i; simpl; [discriminate|].
  intros Hn. destruct i as [|i].
  - exists (acc + x)%Z. split; [reflexivity|]. simpl. now apply cumsum_head.
  - simpl. apply IH. exact Hn.
Qed.

(** On a units table whose index of the spike times is the cumulative sum
    of the numbers of spikes of its rows, [get_num_spikes] returns the
    number of spikes of the first row that has the unit id; for a unit id
    that the table does not have it raises ValueError. *)
Theorem get_num_spikes_undoes_cumsum (t : DynamicTable) (counts : list Z)
    (unit_id : Z) :
  Table.getitem_data t "spike_times_index"
  = Some (map VInt (SI013NwbEphysWriter.cumsum 0 counts)) ->
  match Py.Z_index (tbl_id t) unit_id with
  | Some i =>
      forall n, counts !! i = Some n ->
                SI013NwbEphysWriter.get_num_spikes t unit_id = Ok n
  | None =>
      exists msg, SI013NwbEphysWriter.get_num_spikes t unit_id = Raise (ValueError msg)
  end.
Proof.
  intros Hindex. unfold SI013NwbEphysWriter.get_num_spikes.
  destruct (Py.Z_index (tbl_id t) unit_id) as [i|]; [|eexists; reflexivity].
  intros n Hn. rewrite Hindex. simpl.
  destruct i as [|i].
  - change (map VInt ?l !! 0%nat) with ((VInt <$> l) !! 0%nat).
    rewrite list_lookup_fmap, (cumsum_head 0 counts n Hn). reflexivity.
  - destruct (cumsum_step 0 counts i n Hn) as (a & Ha & Hb).
    change (map VInt ?l) with (VInt <$> l).
    rewrite !list_lookup_fmap, Ha, Hb. simpl. f_equal. lia.
Qed.

(** ** What [add_units] leaves alone *)

Lemma same_but_units_refl (o : option NWBFile) : same_but_units o o.
Proof. destruct o as [f|]; simpl; [now destruct f|exact I]. Qed.

Lemma same_but_units_trans (o1 o2 o3 : option NWBFile) :
  same_but_units o1 o2 -> same_but_units o2 o3 -> same_but_units o1 o3.
Proof.
  destruct o1 as [f1|], o2 as [f2|], o3 as [f3|]; simpl; try tauto.
  destruct f1, f2, f3; unfold NWB.with_units; simpl.
  intros [= -> -> -> -> -> -> ->] [= -> -> -> -> -> -> ->]. reflexivity.
Qed.

Lemma units_frame_refl (w : World) : units_frame w w.
Proof.
  split; [apply same_but_units_refl|reflexivity|apply same_surroundings_refl].
Qed.

Lemma units_frame_trans (w1 w2 w3 : World) :
  units_frame w1 w2 -> units_frame w2 w3 -> units_frame w1 w3.
Proof.
  intros [] []. split; try congruence.
  - eapply same_but_units_trans; eassumption.
  - eapply same_surroundings_trans; eassumption.
Qed.

Lemma units_frame_emitted (w : World) (d : Diag) : units_frame w (emitted w d).
Proof.
  split; [apply same_but_units_refl|reflexivity|apply same_surroundings_emitted].
Qed.

Lemma keeps_update_units (op : NWBFile -> Res NWBFile) :
  (forall f f', op f = Ok f' -> NWB.with_units f' (units f) = f) ->
  keeps units_frame (update_nwbfile op).
Proof.
  intros Hop w. unfold update_nwbfile. run_step.
  destruct (nwbfile (self w)) as [f|] eqn:Hf; simpl; [|apply units_frame_refl].
  destruct (op f) as [f'|e] eqn:Hf'; simpl; [|apply units_frame_refl].
  split; simpl; try reflexivity; [|now split].
  rewrite Hf. simpl. now apply Hop.
Qed.

Lemma add_unit_column_frame (name description : string) (table : bool)
    (f f' : NWBFile) :
  NWB.add_unit_column f name description table = Ok f' ->
  NWB.with_units f' (units f) = f.
Proof.
  unfold NWB.add_unit_column.
  destruct (Table.add_column _ _ _ _ _ _); simpl; [|discriminate].
  intros [= <-]. now destruct f.
Qed.

Lemma add_unit_frame (id : Z) (row : list (string * pyval)) (f f' : NWBFile) :
  NWB.add_unit f id row = Ok f' -> NWB.with_units f' (units f) = f.
Proof.
  unfold NWB.add_unit.
  destruct (Table.add_row _ _ _ _); simpl; [|discriminate].
  intros [= <-]. now destruct f.
Qed.

Ltac units_step :=
  first
    [ apply keeps_update_units; intros ? ?;
        first [apply add_unit_column_frame|apply add_unit_frame]
    | rel_step units_frame_refl units_frame_trans units_frame_emitted ].

Lemma keeps_units_write_feature_column (s : SortingExtractor)
    (nspikes : list (Z * Z)) (ft : string) (values : list (list pyval))
    (skip_features : list string) :
  keeps units_frame
        (SI013NwbEphysWriter.write_feature_column s nspikes ft values skip_features).
Proof.
  intros w. unfold SI013NwbEphysWriter.write_feature_column. run_step.
  destruct (nwbfile (self w)) as [f|] eqn:Hf; simpl; [|apply units_frame_refl].
  destruct (units f) as [t|] eqn:Ht; simpl; [|apply units_frame_refl].
  destruct (Table.contains t ft); simpl; [apply units_frame_emitted|].
  destruct (TableProperty.set_dynamic_table_property _ _ _ _ _ _ _ _) as [t'|e];
    simpl; [|apply units_frame_refl].
  split; simpl; try reflexivity; [|now split].
  rewrite Hf. simpl. clear Ht. now destruct f.
Qed.

Lemma keeps_units_body (s : SortingExtractor) (use_times : bool) (fs : float)
    (property_descriptions : list (string * string))
    (skip_properties skip_features : list string) :
  keeps units_frame
        (SI013NwbEphysWriter.add_units_body s use_times fs property_descriptions
           skip_properties skip_features).
Proof.
  unfold SI013NwbEphysWriter.add_units_body, SI013NwbEphysWriter.property_shape,
    SI013NwbEphysWriter.property_size, SI013NwbEphysWriter.add_property_column,
    SI013NwbEphysWriter.add_unit_row, SI013NwbEphysWriter.feature_shape,
    SI013NwbEphysWriter.feature_size, SI013NwbEphysWriter.count_spikes,
    SI013NwbEphysWriter.write_feature.
  repeat first [apply keeps_units_write_feature_column|units_step].
Qed.

Lemma keeps_add_units : keeps units_frame SI013NwbEphysWriter.add_units.
Proof.
  unfold SI013NwbEphysWriter.add_units.
  repeat first [apply keeps_units_body|units_step].
Qed.


(** ** Writing through a file *)

Lemma open_file_inv (path : string) (overwrite : bool) (w w1 : World) (u : unit) :
  SI013NwbEphysWriter.open_file path overwrite w = (Ok u, w1) ->
  is_Some (nwbfile (self w1))
  /\ nwb_file_path (self w1) = nwb_file_path (self w)
  /\ sorting (self w1) = sorting (self w)
  /\ recording (self w1) = recording (self w)
  /\ _kwargs (self w1) = _kwargs (self w)
  /\ disk w1 = if bool_decide (is_Some (disk w !! path)) && negb overwrite
               then disk w else <[path := None]> (disk w).
Proof.
  unfold SI013NwbEphysWriter.open_file.
  destruct (bool_decide (is_Some (disk w !! path)) && negb overwrite).
  - destruct (disk w !! path) as [[f|]|]; try discriminate.
    unfold set_nwbfile. run_step. intros [= <- <-]. simpl. eauto 10.
  - unfold SI013NwbEphysWriter.instantiate_nwbfile,
      BaseNwbEphysWriter.instantiate_nwbfile, put_disk.
    run_step.
    destruct (metadata (self w)) as [md|]; simpl.
    + destruct (Meta.contains md "NWBFile") as [[]|]; simpl; try discriminate.
      * destruct (Meta.getitem md "NWBFile") as [sub|]; simpl; try discriminate.
        destruct (Meta.as_dict sub); simpl; try discriminate.
        intros [= <- <-]. simpl. eauto 10.
      * intros [= <- <-]. simpl. eauto 10.
    + intros [= <- <-]. simpl. eauto 10.
Qed.


(** A writer made with a file path writes its sorting once: when
    [write_sorting] has returned, the container it built is on disk under
    the path and stays in the writer, and a second call raises
    AssertionError, the path and the container both being set now; it
    leaves the world as it is. *)
Theorem write_sorting_to_a_path_only_once (w w' : World) (path : string) :
  nwb_file_path (self w) = Some path ->
  nwbfile (self w) = None ->
  SI013NwbEphysWriter.write_sorting w = (Ok tt, w') ->
  exists f',
    nwbfile (self w') = Some f'
    /\ disk w' !! path = Some (Some f')
    /\ SI013NwbEphysWriter.write_sorting w'
       = (Raise (AssertionError
            "Either pass a save_path location, or nwbfile object, but not both!"),
          w').
Proof.
  intros Hpath Hnone H. unfold SI013NwbEphysWriter.write_sorting in H.
  inv_bind H as kw wa Hs. apply get_kwargs_inv in Hs as [-> ->]. cbv zeta in H.
  inv_bind H as s wa Hs. injection Hs as <- <-.
  inv_bind H as u wa Hs. apply assert_inv in Hs as [_ ->].
  rewrite Hnone in H. unfold SI013NwbEphysWriter.with_file in H.
  inv_bind H as s wa Hs. injection Hs as <- <-.
  rewrite Hpath in H.
  inv_bind H as p wa Hs. apply ret_inv in Hs as [-> ->].
  inv_bind H as u1 w1 Hopen.
  apply open_file_inv in Hopen as ([f1 Hf1] & Hp1 & _).
  inv_bind H as u2 w2 Hunits.
  pose proof (keeps_add_units w1) as Hframe.
  rewrite Hunits in Hframe. simpl in Hframe.
  destruct Hframe as [Hsame _ Hsur].
  rewrite Hf1 in Hsame. unfold same_but_units in Hsame.
  destruct (nwbfile (self w2)) as [f2|] eqn:Hf2; [|contradiction].
  unfold SI013NwbEphysWriter.write_file, put_disk in H. revert H. run_step.
  rewrite Hf2. simpl. intros [= <-]. simpl.
  exists f2. split; [exact Hf2|]. split; [apply lookup_insert_eq|].
  unfold SI013NwbEphysWriter.write_sorting. run_step.
  rewrite Hf2, (sur_path _ _ Hsur), Hp1, Hpath. reflexivity.
Qed.


(** ** [write_recording] and [write_to_nwb] *)

Lemma bind_never_returns {A B} (m : M A) (k : A -> M B) (w : World) :
  (forall a w1, is_raise (k a w1).1 = true) -> is_raise ((m ≫= k) w).1 = true.
Proof.
  intros Hk. unfold mbind, M_mbind, M_bind.
  destruct (m w) as [[a|e] w1]; [apply Hk|reflexivity].
Qed.

Lemma raised_never_returns {A B} (m : M A) (k : A -> M B) (w : World) :
  (forall w1, is_raise (m w1).1 = true) -> is_raise ((m ≫= k) w).1 = true.
Proof.
  intros Hm. unfold mbind, M_mbind, M_bind. specialize (Hm w).
  destruct (m w) as [[a|e] w1]; [discriminate|reflexivity].
Qed.

Section NeverWritten.

Variable ArrayType_is : proptype -> bool.
Variable py_repr : pyval -> string.

Lemma recording_steps_never_return (write_electrical_series : bool) (w : World) :
  is_raise (SI013NwbEphysWriter.recording_steps ArrayType_is py_repr
              write_electrical_series w).1 = true.
Proof.
  unfold SI013NwbEphysWriter.recording_steps.
  apply bind_never_returns. intros _ w1.
  apply raised_never_returns. reflexivity.
Qed.

(** [write_recording] never returns: whatever the writer, its keywords,
    its metadata and the files, the call ends in an exception, since the
    step [add_electrode_groups] stands between [add_devices] and the rest;
    and so does [write_to_nwb] for a writer that holds a recording. *)
Theorem write_recording_never_returns (w : World) :
  is_raise (SI013NwbEphysWriter.write_recording ArrayType_is py_repr w).1 = true
  /\ (is_Some (recording (self w)) ->
      is_raise (SI013NwbEphysWriter.write_to_nwb ArrayType_is py_repr w).1 = true).
Proof.
  assert (Hrec : forall w0,
    is_raise (SI013NwbEphysWriter.write_recording ArrayType_is py_repr w0).1 = true).
  { intros w0. unfold SI013NwbEphysWriter.write_recording.
    apply bind_never_returns. intros kw w1. cbv zeta.
    apply bind_never_returns. intros s w2.
    apply bind_never_returns. intros _ w3.
    apply bind_never_returns. intros _ w4.
    destruct (nwbfile s); [apply recording_steps_never_return|].
    unfold SI013NwbEphysWriter.with_file.
    apply bind_never_returns. intros s' w5.
    apply bind_never_returns. intros path w6.
    apply bind_never_returns. intros _ w7.
    apply raised_never_returns. apply recording_steps_never_return. }
  split; [apply Hrec|].
  intros [r Hr]. unfold SI013NwbEphysWriter.write_to_nwb. run_step.
  rewrite Hr. apply Hrec.
Qed.

End NeverWritten.

(** ** The rows that [add_units] writes *)

Lemma add_column_ids (t t' : DynamicTable) (name description : string)
    (data : list pyval) (index : index_arg) (table : bool) :
  Table.add_column t name description data index table = Ok t' ->
  tbl_id t' = tbl_id t.
Proof.
  unfold Table.add_column.
  destruct (Py.str_mem _ _); [discriminate|].
  destruct (negb _); [discriminate|]. now intros [= <-].
Qed.

Lemma add_optional_ids (optional : list (string * bool)) (row : list (string * pyval))
    (t t' : DynamicTable) :
  Table.add_optional t optional row = Ok t' -> tbl_id t' = tbl_id t.
Proof.
  revert t. induction optional as [|[name ragged] optional IH]; intros t; simpl.
  - now intros [= <-].
  - destruct (Py.dict_get row name) as [v|]; simpl; [|apply IH].
    destruct (Py.str_mem name (Table.colnames t)); simpl; [apply IH|].
    destruct (Table.add_column t name name [] _ false) as [t1|] eqn:Hadd; simpl;
      [|discriminate].
    intros H. rewrite (IH _ H). now apply add_column_ids in Hadd.
Qed.

Lemma add_row_ids (t t' : DynamicTable) (optional : list (string * bool)) (id : Z)
    (row : list (string * pyval)) :
  Table.add_row t optional id row = Ok t' -> tbl_id t' = tbl_id t ++ [id].
Proof.
  unfold Table.add_row.
  destruct (Table.add_optional t optional row) as [t1|] eqn:Hopt; simpl;
    [|discriminate].
  destruct (negb _); [discriminate|].
  destruct (Table.append_cells _ _) as [cols|]; simpl; [|discriminate].
  intros [= <-]. simpl. now rewrite (add_optional_ids _ _ _ _ Hopt).
Qed.

Lemma set_property_ids (t t' : DynamicTable) (row_ids : list Z) (name : string)
    (values : list pyval) (index : index_arg) (default_value : pyval)
    (table : bool) (description : string) :
  TableProperty.set_dynamic_table_property t row_ids name values index
    default_value table description = Ok t' ->
  tbl_id t' = tbl_id t.
Proof.
  unfold TableProperty.set_dynamic_table_property. cbv zeta.
  destruct (existsb _ _); [discriminate|].
  destruct index.
  - destruct (negb _); [discriminate|].
    destruct (Table.contains t name).
    + destruct (Table.get_column t name) as [c|]; [|discriminate].
      destruct (col_index c); [discriminate|].
      destruct (TableProperty.assign _ _ _ _); simpl; [|discriminate].
      now intros [= <-].
    + destruct (TableProperty.assign _ _ _ _); simpl; [|discriminate].
      apply add_column_ids.
  - destruct (Table.contains t name); [discriminate|apply add_column_ids].
  - destruct (Table.contains t name); [discriminate|apply add_column_ids].
Qed.

(** The relation "the ids of the units table are as they were". *)
Lemma keeps_ids_update (op : NWBFile -> Res NWBFile) :
  (forall f f', op f = Ok f' ->
     tbl_id (NWB.units_or_new f') = tbl_id (NWB.units_or_new f)) ->
  keeps same_unit_ids (update_nwbfile op).
Proof.
  intros Hop w. unfold update_nwbfile. run_step.
  destruct (nwbfile (self w)) as [f|] eqn:Hf; simpl; [|reflexivity].
  destruct (op f) as [f'|e] eqn:Hf'; simpl; [|reflexivity].
  unfold same_unit_ids, unit_table_ids. simpl. rewrite Hf.
  specialize (Hop f f' Hf'). unfold NWB.units_or_new in Hop.
  destruct (units f'), (units f); simpl in *; congruence.
Qed.

Lemma add_unit_column_ids (name description : string) (table : bool)
    (f f' : NWBFile) :
  NWB.add_unit_column f name description table = Ok f' ->
  tbl_id (NWB.units_or_new f') = tbl_id (NWB.units_or_new f).
Proof.
  unfold NWB.add_unit_column.
  destruct (Table.add_column _ _ _ _ _ _) as [t|] eqn:Hadd; simpl; [|discriminate].
  intros [= <-]. simpl. now apply add_column_ids in Hadd.
Qed.

Lemma same_unit_ids_refl (w : World) : same_unit_ids w w.
Proof. reflexivity. Qed.

Lemma same_unit_ids_trans (w1 w2 w3 : World) :
  same_unit_ids w1 w2 -> same_unit_ids w2 w3 -> same_unit_ids w1 w3.
Proof. unfold same_unit_ids. congruence. Qed.

Lemma same_unit_ids_emitted (w : World) (d : Diag) : same_unit_ids w (emitted w d).
Proof. reflexivity. Qed.

Ltac ids_step :=
  first
    [ apply keeps_ids_update; intros ? ?; apply add_unit_column_ids
    | rel_step same_unit_ids_refl same_unit_ids_trans same_unit_ids_emitted ].

Lemma keeps_ids_write_feature (s : SortingExtractor) (nspikes : list (Z * Z))
    (skip_features : list string) (ft : string) :
  keeps same_unit_ids
        (SI013NwbEphysWriter.write_feature s nspikes skip_features ft).
Proof.
  unfold SI013NwbEphysWriter.write_feature.
  assert (Hcol : forall values skip,
    keeps same_unit_ids
          (SI013NwbEphysWriter.write_feature_column s nspikes ft values skip)).
  { intros values skip w. unfold SI013NwbEphysWriter.write_feature_column. run_step.
    destruct (nwbfile (self w)) as [f|] eqn:Hf; simpl; [|reflexivity].
    destruct (units f) as [t|] eqn:Ht; simpl; [|reflexivity].
    destruct (Table.contains t ft); simpl; [reflexivity|].
    destruct (TableProperty.set_dynamic_table_property _ _ _ _ _ _ _ _) as [t'|e]
      eqn:Hset; simpl; [|reflexivity].
    unfold same_unit_ids, unit_table_ids. simpl. rewrite Hf, Ht.
    now apply set_property_ids in Hset. }
  repeat first [apply Hcol|ids_step].
Qed.

Lemma add_unit_row_ids (s : SortingExtractor) (use_times : bool) (fs : float)
    (write_properties : list string) (unit_id : Z) (w w' : World) (u : unit) :
  SI013NwbEphysWriter.add_unit_row s use_times fs write_properties unit_id w
  = (Ok u, w') ->
  unit_table_ids w' = unit_table_ids w ++ [unit_id].
Proof.
  unfold SI013NwbEphysWriter.add_unit_row. cbv zeta. intros H.
  inv_bind H as unit_kwargs wa Hs. apply lift_inv in Hs as [_ ->].
  destruct (_ || _); [discriminate|].
  apply update_nwbfile_inv in H as (f & f' & Hf & Hadd & ->).
  unfold unit_table_ids. simpl. rewrite Hf.
  unfold NWB.add_unit in Hadd.
  destruct (Table.add_row _ _ _ _) as [t|] eqn:Hrow; simpl in Hadd; [|discriminate].
  injection Hadd as <-. simpl. apply add_row_ids in Hrow. rewrite Hrow.
  unfold NWB.units_or_new. now destruct (units f).
Qed.

Lemma unit_rows_ids (s : SortingExtractor) (use_times : bool) (fs : float)
    (write_properties : list string) (units : list Z) (w w' : World) :
  for_each units (SI013NwbEphysWriter.add_unit_row s use_times fs write_properties) w
  = (Ok tt, w') ->
  unit_table_ids w' = unit_table_ids w ++ units.
Proof.
  revert w. induction units as [|unit_id units IH]; intros w; simpl.
  - intros [= <-]. now rewrite app_nil_r.
  - intros H. inv_bind H as u w1 Hs.
    apply add_unit_row_ids in Hs. rewrite (IH _ H), Hs. now rewrite <- app_assoc.
Qed.

(** When [add_units] returns for a container without units table, the
    rows of the units table are the units of the sorting, one row per
    unit id and in their order. *)
Theorem add_units_one_row_per_unit (w w' : World) (s : SortingExtractor)
    (f : NWBFile) :
  sorting (self w) = Some s ->
  nwbfile (self w) = Some f ->
  units f = None ->
  SI013NwbEphysWriter.add_units w = (Ok tt, w') ->
  unit_table_ids w' = unit_ids s.
Proof.
  intros Hs Hf Hu H. unfold SI013NwbEphysWriter.add_units in H.
  inv_bind H as kw wa Hk. apply get_kwargs_inv in Hk as [-> ->]. cbv zeta in H.
  inv_bind H as s' wa Hk.
  assert (s' = s /\ wa = w) as [-> ->].
  { unfold get_sorting in Hk. revert Hk. run_step. rewrite Hs.
    intros [= <- <-]. now split. }
  clear Hk.
  inv_bind H as fs wa Hk.
  assert (wa = w) as ->.
  { destruct (sorting_sampling_frequency s); [now apply ret_inv in Hk|discriminate]. }
  clear Hk.
  inv_bind H as f' wa Hk. apply get_nwbfile_inv in Hk as [Hf' ->].
  rewrite Hf in Hf'. injection Hf' as <-. rewrite Hu in H.
  assert (Hstart : unit_table_ids w = []).
  { unfold unit_table_ids. now rewrite Hf, Hu. }
  unfold SI013NwbEphysWriter.add_units_body in H.
  inv_bind H as st1 w1 Hk.
  assert (H1 : unit_table_ids w1 = unit_table_ids w).
  { assert (K : keeps same_unit_ids
                  (fold_each (elements (SI013NwbEphysWriter.all_properties s))
                     (SI013NwbEphysWriter.property_shape s)
                     ([], default [] (kw_skip_properties (_kwargs (self w)))))).
    { unfold SI013NwbEphysWriter.property_shape. repeat ids_step. }
    specialize (K w). now rewrite Hk in K. }
  clear Hk. destruct st1 as [property_shapes skip_properties].
  inv_bind H as skip_properties' w2 Hk.
  assert (H2 : unit_table_ids w2 = unit_table_ids w1).
  { assert (K : keeps same_unit_ids
                  (fold_each property_shapes SI013NwbEphysWriter.property_size
                     skip_properties)).
    { unfold SI013NwbEphysWriter.property_size. repeat ids_step. }
    specialize (K w1). now rewrite Hk in K. }
  clear Hk. cbv zeta in H.
  inv_bind H as u3 w3 Hk.
  assert (H3 : unit_table_ids w3 = unit_table_ids w2).
  { match type of Hk with
    | ?m w2 = _ =>
        assert (K : keeps same_unit_ids m)
          by repeat ids_step;
        specialize (K w2); now rewrite Hk in K
    end. }
  clear Hk.
  inv_bind H as u4 w4 Hk.
  assert (H4 : unit_table_ids w4 = unit_table_ids w3).
  { match type of Hk with
    | ?m w3 = _ =>
        assert (K : keeps same_unit_ids m)
          by (unfold SI013NwbEphysWriter.add_property_column; repeat ids_step);
        specialize (K w3); now rewrite Hk in K
    end. }
  clear Hk.
  inv_bind H as u5 w5 Hk. destruct u5.
  apply unit_rows_ids in Hk.
  assert (H5 : unit_table_ids w' = unit_table_ids w5).
  { match type of H with
    | ?m w5 = _ =>
        assert (K : keeps same_unit_ids m)
          by (unfold SI013NwbEphysWriter.feature_shape,
                SI013NwbEphysWriter.count_spikes, SI013NwbEphysWriter.feature_size;
              repeat first [apply keeps_ids_write_feature|ids_step]);
        specialize (K w5); now rewrite H in K
    end. }
  rewrite H5, Hk, H4, H3, H2, H1, Hstart. reflexivity.
Qed.

(** A sorting without units: [add_units] returns and the world is as it
    was; the container still has no units table. *)
Theorem add_units_without_units (w : World) (s : SortingExtractor) (f : NWBFile)
    (fs : float) :
  sorting (self w) = Some s ->
  unit_ids s = [] ->
  sorting_sampling_frequency s = Some fs ->
  nwbfile (self w) = Some f ->
  units f = None ->
  SI013NwbEphysWriter.add_units w = (Ok tt, w).
Proof.
  intros Hs Hnone Hfs Hf Hu.
  assert (Hdiff : forall X : gset string, elements (∅ ∖ X : gset string) = []).
  { intros X. rewrite (empty_difference_L X).
    apply elements_empty. }
  assert (Hget : get_sorting w = (Ok s, w)).
  { unfold get_sorting. run_step. now rewrite Hs. }
  assert (Hfile : get_nwbfile w = (Ok f, w)).
  { unfold get_nwbfile. run_step. now rewrite Hf. }
  unfold SI013NwbEphysWriter.add_units.
  rewrite (bind_ok get_kwargs _ w w _ eq_refl). cbv zeta.
  rewrite (bind_ok _ _ _ _ _ Hget). rewrite Hfs.
  rewrite (bind_ok (mret fs) _ w w fs eq_refl).
  rewrite (bind_ok _ _ _ _ _ Hfile). rewrite Hu.
  unfold SI013NwbEphysWriter.add_units_body, SI013NwbEphysWriter.all_properties,
    SI013NwbEphysWriter.all_features.
  rewrite Hnone. simpl. rewrite elements_empty. simpl.
  run_step. rewrite !Hdiff. reflexivity.
Qed.

(** ** The rows that [add_electrodes] writes *)








Section ElectrodeRows.

Variable ArrayType_is : proptype -> bool.
Variable py_repr : pyval -> string.








End ElectrodeRows.

(** ** The series that [add_electrical_series] writes, continued *)

(** The step that prepares the place of the series changes at most the
    processing modules. *)
Lemma interface_step_inv (write_as : string) (w w0 : World) (u : unit) :
  (if String.eqb write_as "raw" then mret tt
   else SI013NwbEphysWriter.ensure_interface write_as) w = (Ok u, w0) ->
  w0 = w
  \/ exists f p,
       nwbfile (self w) = Some f
       /\ w0 = {| self := with_nwbfile (self w) (Some (NWB.with_processing f p));
                  diagnostics := diagnostics w; disk := disk w;
                  available_memory := available_memory w;
                  next_uuid := next_uuid w |}.
Proof.
  destruct (String.eqb write_as "raw").
  - intros H. apply ret_inv in H as [_ ->]. now left.
  - unfold SI013NwbEphysWriter.ensure_interface. run_step.
    destruct (nwbfile (self w)) as [f|] eqn:Hf; [|discriminate]. simpl.
    destruct (check_module f _ _) as [f1 m] eqn:Hc. simpl.
    assert (Hf1 : exists p, f1 = NWB.with_processing f p).
    { unfold check_module in Hc. destruct (processing f !! "ecephys").
      - injection Hc as <- _. exists (processing f). now destruct f.
      - injection Hc as <- _. eauto. }
    destruct Hf1 as [p ->].
    intros [= <- <-]. right. exists f. eexists. split; [reflexivity|]. reflexivity.
Qed.

Lemma check_coercion_world (gains offsets coercion : list float) (w w1 : World) :
  SI013NwbEphysWriter.check_coercion gains offsets w = (Ok coercion, w1) ->
  self w1 = self w /\ available_memory w1 = available_memory w
  /\ coercion = zip_with PrimFloat.div offsets gains.
Proof.
  unfold SI013NwbEphysWriter.check_coercion.
  destruct (negb _); [discriminate|].
  destruct (negb _); [discriminate|].
  destruct (existsb _ _); run_step; intros [= <- <-]; now repeat split.
Qed.

Lemma series_data_world (r : RecordingExtractor) (iterate write_scaled : bool)
    (buffer_mb : Z) (coercion : list float) (w : World) :
  self (SI013NwbEphysWriter.series_data r iterate write_scaled buffer_mb coercion w).2
  = self w.
Proof. apply series_data_self. Qed.

Lemma add_series_electrodes (write_as : string) (es : ElectricalSeries)
    (w w' : World) (f : NWBFile) (u : unit) :
  nwbfile (self w) = Some f ->
  SI013NwbEphysWriter.add_series write_as es w = (Ok u, w') ->
  exists f', nwbfile (self w') = Some f' /\ electrodes f' = electrodes f.
Proof.
  intros Hf. unfold SI013NwbEphysWriter.add_series, Meta.as_str. run_step.
  destruct (SI013NwbEphysWriter.series_name es) as [v|]; simpl; [|discriminate].
  destruct v; simpl; try discriminate.
  rewrite Hf. simpl.
  destruct (String.eqb write_as "raw").
  - destruct (bool_decide _); simpl; [discriminate|].
    intros [= <- <-]. simpl. eauto.
  - destruct (processing f !! "ecephys") as [m|]; [|discriminate].
    destruct (pm_data_interfaces m !! _) as [i|]; [|discriminate].
    destruct (bool_decide _); simpl; [discriminate|].
    intros [= <- <-]. simpl. eauto.
Qed.

Lemma series_metadata_world (write_as : string) (es_key : option string)
    (md : option pyval) (w w1 : World) (es : ElectricalSeries) :
  SI013NwbEphysWriter.series_metadata write_as es_key md w = (Ok es, w1) -> w1 = w.
Proof.
  unfold SI013NwbEphysWriter.series_metadata. cbv zeta.
  destruct md as [md|]; [|now intros [= _ <-]].
  unfold Meta.contains, Meta.getitem, Meta.as_dict. run_step.
  destruct md; simpl; try discriminate.
  destruct (Py.dict_mem d "Ecephys"); [|now intros [= _ <-]].
  destruct es_key as [key|]; [|now intros [= _ <-]].
  destruct (Py.dict_get d "Ecephys") as [ecephys|]; simpl; [|discriminate].
  destruct ecephys; simpl; try discriminate.
  destruct (Py.dict_mem d0 key); simpl; [|discriminate].
  destruct (Py.dict_get d0 key) as [entry|]; simpl; [|discriminate].
  destruct entry; simpl; try discriminate.
  now intros [= _ <-].
Qed.

(** What a run of [write_series] that returns has done, step by step. *)
Lemma write_series_written (write_as : string) (es_key : option string)
    (write_scaled use_times iterate : bool) (buffer_mb : Z)
    (compression : option string) (compression_opts : option Z)
    (w w' : World) (r : RecordingExtractor) :
  SI013NwbEphysWriter.write_series write_as es_key write_scaled use_times iterate
    buffer_mb compression compression_opts w = (Ok tt, w') ->
  recording (self w) = Some r ->
  exists name es0 es1 t table_ids coercion ephys_data w0 w2 f',
    SI013NwbEphysWriter.series_metadata write_as es_key (metadata (self w)) w0
    = (Ok es0, w0)
    /\ (exists f, nwbfile (self w) = Some f /\ electrodes f = Some t)
    /\ mapM (fun id => match Py.Z_index (tbl_id t) id with
                       | Some i => Ok i
                       | None => Raise (ValueError "is not in list")
                       end) (channel_ids r) = Ok table_ids
    /\ SI013NwbEphysWriter.conversion_kwargs write_scaled (channel_gains r)
         (Py.dict_set es0 "electrodes" (ERegion table_ids "electrode_table_region"))
       = Ok es1
    /\ coercion = zip_with PrimFloat.div (channel_offsets r) (channel_gains r)
    /\ (SI013NwbEphysWriter.series_data r iterate write_scaled buffer_mb coercion w2).1
       = Ok ephys_data
    /\ available_memory w2 = available_memory w
    /\ nwbfile (self w') = Some f' /\ electrodes f' = Some t
    /\ series_at (nwbfile (self w')) write_as name
       = Some (if negb use_times
               then Py.dict_update
                      (Py.dict_set es1 "data"
                         (EData {| h5_data := ephys_data;
                                   h5_compression := compression;
                                   h5_compression_opts := compression_opts |}))
                      [("starting_time", EPy (VFloat (frame_to_time r 0)));
                       ("rate", EPy (VFloat (sampling_frequency r)))]
               else Py.dict_set
                      (Py.dict_set es1 "data"
                         (EData {| h5_data := ephys_data;
                                   h5_compression := compression;
                                   h5_compression_opts := compression_opts |}))
                      "timestamps"
                      (EData {| h5_data := FrameTimes (num_frames r);
                                h5_compression := compression;
                                h5_compression_opts := compression_opts |})).
Proof.
  intros H Hr. unfold SI013NwbEphysWriter.write_series in H.
  inv_bind H as u0 w0 Hs.
  pose proof (interface_step_inv _ _ _ _ Hs) as Hstep. clear Hs.
  assert (Hw0 : recording (self w0) = recording (self w)
                /\ metadata (self w0) = metadata (self w)
                /\ available_memory w0 = available_memory w
                /\ forall f0, nwbfile (self w0) = Some f0 ->
                     exists f, nwbfile (self w) = Some f
                               /\ electrodes f = electrodes f0).
  { destruct Hstep as [->|(f & p & Hf & ->)]; simpl.
    - repeat split. eauto.
    - repeat split. intros f0 [= <-]. eauto. }
  clear Hstep. destruct Hw0 as (Hr0 & Hmd0 & Hmem0 & Hf0).
  inv_bind H as md wa Hs. apply get_metadata_inv in Hs as [-> ->].
  inv_bind H as es0 wa Hs.
  pose proof (series_metadata_world _ _ _ _ _ _ Hs) as ->.
  rewrite Hmd0 in Hs.
  inv_bind H as f wa Hs'. apply get_nwbfile_inv in Hs' as [Hf ->].
  inv_bind H as name0 wa Hs'. apply lift_inv in Hs' as [Hname ->].
  inv_bind H as d wa Hs'. apply lift_inv in Hs' as [Hwritten ->].
  inv_bind H as u1 wa Hs'. apply assert_inv in Hs' as [Hnew ->].
  inv_bind H as r' wa Hs'. apply get_recording_inv in Hs' as [Hr' ->].
  rewrite Hr0, Hr in Hr'. injection Hr' as <-.
  inv_bind H as t wa Hs'.
  assert (electrodes f = Some t /\ wa = w0) as [Ht ->].
  { destruct (electrodes f); [apply ret_inv in Hs' as [-> ->]; now split|discriminate]. }
  clear Hs'.
  inv_bind H as table_ids wa Hs'. apply lift_inv in Hs' as [Hids ->].
  inv_bind H as coercion w2 Hs'.
  apply check_coercion_world in Hs' as (Hself2 & Hmem2 & Hcoercion).
  inv_bind H as es1 wa Hs'. apply lift_inv in Hs' as [Hconv ->].
  inv_bind H as ephys_data w3 Hdata.
  pose proof (series_data_world r iterate write_scaled buffer_mb coercion w2) as Hself3.
  rewrite Hdata in Hself3. simpl in Hself3.
  assert (Hf3 : nwbfile (self w3) = Some f) by now rewrite Hself3, Hself2.
  destruct (add_series_inv _ _ _ _ _ _ _ Hf3 Hwritten H) as (name & _ & Hat).
  destruct (add_series_electrodes _ _ _ _ _ _ Hf3 H) as (f' & Hf' & He').
  destruct (Hf0 f Hf) as (fstart & Hfstart & Hestart).
  exists name, es0, es1, t, table_ids, coercion, ephys_data, w0, w2, f'.
  split; [exact Hs|]. split; [exists fstart; split; [exact Hfstart|congruence]|].
  split; [exact Hids|]. split; [exact Hconv|]. split; [exact Hcoercion|].
  split; [now rewrite Hdata|]. split; [congruence|].
  split; [exact Hf'|]. split; [congruence|exact Hat].
Qed.

Lemma check_compression_inv (compression : option string) (opts opts' : option Z)
    (w w2 : World) :
  SI013NwbEphysWriter.check_compression compression opts w = (Ok opts', w2) ->
  self w2 = self w
  /\ available_memory w2 = available_memory w
  /\ opts' = match compression with
             | Some c =>
                 if String.eqb c "gzip" then Some (default 4%Z opts)
                 else if String.eqb c "lzf" then None
                 else opts
             | None => opts
             end
  /\ (compression = Some "gzip" ->
      forall level, opts = Some level -> (0 <= level < 10)%Z).
Proof.
  unfold SI013NwbEphysWriter.check_compression.
  destruct compression as [c|];
    [|intros [= <- <-]; split; [|split; [|split]]; try reflexivity; discriminate].
  destruct (String.eqb c "gzip") eqn:Hgz.
  - destruct opts as [o|].
    + run_step. destruct ((0 <=? o)%Z && (o <? 10)%Z) eqn:Hrange; simpl;
        [|discriminate].
      intros [= <- <-]. split; [|split; [|split]]; try reflexivity.
      intros _ level [= <-]. apply andb_true_iff in Hrange as [H1 H2]. lia.
    + intros [= <- <-]. split; [|split; [|split]]; try reflexivity.
      intros _ level. discriminate.
  - assert (Hne : Some c <> Some "gzip").
    { intros [= ->]. rewrite String.eqb_refl in Hgz. discriminate. }
    destruct (String.eqb c "lzf").
    + destruct opts; run_step; intros [= <- <-];
        (split; [|split; [|split]]); try reflexivity; intros E; contradiction.
    + intros [= <- <-]. split; [|split; [|split]]; try reflexivity.
      intros E. contradiction.
Qed.

Section SeriesWritten.

Variable ArrayType_is : proptype -> bool.
Variable py_repr : pyval -> string.

(** A run of [add_electrical_series] that returns: the steps before
    [write_series]. *)
Lemma add_electrical_series_inv (w w' : World) :
  SI013NwbEphysWriter.add_electrical_series ArrayType_is py_repr w = (Ok tt, w') ->
  let kw := _kwargs (self w) in
  let compression := default (Some "gzip") (kw_compression kw) in
  exists w1 w2 opts,
    electrodes_frame w w1
    /\ self w2 = self w1
    /\ available_memory w2 = available_memory w1
    /\ opts = match compression with
              | Some c =>
                  if String.eqb c "gzip"
                  then Some (default 4%Z (kw_compression_opts kw))
                  else if String.eqb c "lzf" then None
                  else kw_compression_opts kw
              | None => kw_compression_opts kw
              end
    /\ (compression = Some "gzip" ->
        forall level, kw_compression_opts kw = Some level -> (0 <= level < 10)%Z)
    /\ SI013NwbEphysWriter.write_series
         (default "raw" (kw_write_as kw)) (kw_es_key kw)
         (default false (kw_write_scaled kw)) (default false (kw_use_times kw))
         (default true (kw_iterate kw)) (default 500%Z (kw_buffer_mb kw))
         compression opts w2 = (Ok tt, w').
Proof.
  intros H. cbv zeta.
  unfold SI013NwbEphysWriter.add_electrical_series in H.
  inv_bind H as kw wa Hs. apply get_kwargs_inv in Hs as [-> ->].
  cbv zeta in H.
  inv_bind H as u0 wa Hs. apply assert_inv in Hs as [_ ->].
  inv_bind H as u1 wa Hs. apply assert_inv in Hs as [_ ->].
  inv_bind H as u2 w1 Hs.
  pose proof (keeps_ensure_electrodes ArrayType_is py_repr w) as Hframe.
  rewrite Hs in Hframe. simpl in Hframe. clear Hs.
  inv_bind H as u3 wa Hs. apply assert_inv in Hs as [_ ->].
  inv_bind H as opts w2 Hs.
  apply check_compression_inv in Hs as (Hself & Hmem & Hopts & Hrange).
  exists w1, w2, opts.
  split; [exact Hframe|]. split; [exact Hself|]. split; [exact Hmem|].
  split; [exact Hopts|]. split; [exact Hrange|]. destruct u3. exact H.
Qed.

Lemma final_series_get (es1 : ElectricalSeries) (use_times : bool)
    (data times : H5DataIO) (start rate : float) (k : string) :
  k <> "data" -> k <> "starting_time" -> k <> "rate" -> k <> "timestamps" ->
  Py.dict_get
    (if negb use_times
     then Py.dict_update (Py.dict_set es1 "data" (EData data))
            [("starting_time", EPy (VFloat start)); ("rate", EPy (VFloat rate))]
     else Py.dict_set (Py.dict_set es1 "data" (EData data)) "timestamps" (EData times))
    k
  = Py.dict_get es1 k.
Proof.
  intros K1 K2 K3 K4. destruct (negb use_times); unfold Py.dict_update; simpl;
    rewrite !dict_get_set_ne by congruence; reflexivity.
Qed.

Lemma conversion_kwargs_get (write_scaled : bool) (gains : list float)
    (es es' : ElectricalSeries) (k : string) :
  SI013NwbEphysWriter.conversion_kwargs write_scaled gains es = Ok es' ->
  k <> "conversion" -> k <> "channel_conversion" ->
  Py.dict_get es' k = Py.dict_get es k.
Proof.
  unfold SI013NwbEphysWriter.conversion_kwargs. intros H K1 K2.
  destruct write_scaled.
  - injection H as <-. now rewrite dict_get_set_ne by congruence.
  - destruct (_ =? 1)%nat.
    + destruct (SI013NwbEphysWriter.item gains 0); simpl in H; [|discriminate].
      injection H as <-. now rewrite dict_get_set_ne by congruence.
    + injection H as <-. now rewrite !dict_get_set_ne by congruence.
Qed.

(** The rows of the electrode table region. *)
Lemma region_rows (ids : list Z) (chans : list Z) (table_ids : list nat) :
  mapM (fun id => match Py.Z_index ids id with
                  | Some i => Ok i
                  | None => Raise (ValueError "is not in list")
                  end) chans = Ok table_ids ->
  length table_ids = length chans
  /\ forall j c i, chans !! j = Some c -> table_ids !! j = Some i ->
       Py.Z_index ids c = Some i.
Proof.
  revert table_ids. induction chans as [|c chans IH]; intros table_ids; simpl.
  - intros [= <-]. split; [reflexivity|]. intros j c i Hc. discriminate.
  - unfold mbind, Res_bind, res_bind.
    destruct (Py.Z_index ids c) as [i0|] eqn:Hi0; [|discriminate].
    destruct (mapM _ chans) as [rest|] eqn:Hrest; [|discriminate].
    intros [= <-]. destruct (IH rest eq_refl) as [Hlen Hrows].
    split; [simpl; now rewrite Hlen|].
    intros [|j] c' i; simpl.
    + intros [= <-] [= <-]. exact Hi0.
    + apply Hrows.
Qed.

(** When [add_electrical_series] returns, the series it wrote refers to
    the electrodes table of the container by a region with one row per
    channel of the recording, in the order of the channels: the row of a
    channel is the first row of the table that has the channel's id. *)
Theorem electrical_series_region_rows (w w' : World) (r : RecordingExtractor) :
  SI013NwbEphysWriter.add_electrical_series ArrayType_is py_repr w = (Ok tt, w') ->
  recording (self w) = Some r ->
  exists name es f' t table_ids,
    series_at (nwbfile (self w')) (default "raw" (kw_write_as (_kwargs (self w)))) name
    = Some es
    /\ nwbfile (self w') = Some f'
    /\ electrodes f' = Some t
    /\ Py.dict_get es "electrodes"
       = Some (ERegion table_ids "electrode_table_region")
    /\ length table_ids = length (channel_ids r)
    /\ forall j c i, channel_ids r !! j = Some c -> table_ids !! j = Some i ->
         tbl_id t !! i = Some c
         /\ forall i', (i' < i)%nat -> tbl_id t !! i' <> Some c.
Proof.
  intros H Hr.
  destruct (add_electrical_series_inv w w' H)
    as (w1 & w2 & opts & Hframe & Hself & _ & _ & _ & Hwrite).
  assert (Hr2 : recording (self w2) = Some r).
  { rewrite Hself, (frame_recording _ _ Hframe). exact Hr. }
  destruct (write_series_written _ _ _ _ _ _ _ _ _ _ r Hwrite Hr2)
    as (name & es0 & es1 & t & table_ids & coercion & ephys_data & w0 & w3 & f'
        & _ & _ & Hids & Hconv & _ & _ & _ & Hf' & Ht & Hat).
  exists name. eexists. exists f', t, table_ids.
  split; [exact Hat|]. split; [exact Hf'|]. split; [exact Ht|].
  split.
  - rewrite final_series_get by discriminate.
    rewrite (conversion_kwargs_get _ _ _ _ _ Hconv) by discriminate.
    apply dict_get_set_eq.
  - destruct (region_rows _ _ _ Hids) as [Hlen Hrows]. split; [exact Hlen|].
    intros j c i Hc Hi. specialize (Hrows j c i Hc Hi).
    split; [now apply Z_index_Some in Hrows|].
    intros i' Hlt Hi'. clear -Hrows Hlt Hi'.
    revert i i' Hrows Hlt Hi'. induction (tbl_id t) as [|y ids IH]; intros i i';
      simpl; [discriminate|].
    destruct (Z.eqb_spec y c) as [->|Hne].
    + intros [= <-]. lia.
    + destruct (Py.Z_index ids c) as [i0|] eqn:Hi0; simpl; [|discriminate].
      intros [= <-] Hlt. destruct i' as [|i']; simpl.
      * intros [= ->]. contradiction.
      * apply (IH i0 i' eq_refl). lia.
Qed.

End SeriesWritten.

Section SeriesData.

Variable ArrayType_is : proptype -> bool.
Variable py_repr : pyval -> string.

(** When [add_electrical_series] returns, the data of the series it wrote
    is wrapped with the compression asked for, [gzip] by default, and with
    the level 4 for [gzip] without level, the level given for [gzip] with
    a level, which lies in 0..9, no level for [lzf], and the level as given
    without compression; the time of the series is given by a starting
    time and a rate, or, with [use_times], by the timestamps of all
    frames, compressed as the data. *)
Theorem electrical_series_data_and_time (w w' : World) (r : RecordingExtractor) :
  SI013NwbEphysWriter.add_electrical_series ArrayType_is py_repr w = (Ok tt, w') ->
  recording (self w) = Some r ->
  let kw := _kwargs (self w) in
  let compression := default (Some "gzip") (kw_compression kw) in
  let level :=
    match compression with
    | Some c =>
        if String.eqb c "gzip" then Some (default 4%Z (kw_compression_opts kw))
        else if String.eqb c "lzf" then None
        else kw_compression_opts kw
    | None => kw_compression_opts kw
    end in
  exists name es ephys_data,
    series_at (nwbfile (self w')) (default "raw" (kw_write_as kw)) name = Some es
    /\ Py.dict_get es "data"
       = Some (EData {| h5_data := ephys_data; h5_compression := compression;
                        h5_compression_opts := level |})
    /\ (compression = Some "gzip" ->
        forall l, kw_compression_opts kw = Some l -> (0 <= l < 10)%Z)
    /\ if default false (kw_use_times kw)
       then Py.dict_get es "timestamps"
            = Some (EData {| h5_data := FrameTimes (num_frames r);
                             h5_compression := compression;
                             h5_compression_opts := level |})
       else Py.dict_get es "starting_time" = Some (EPy (VFloat (frame_to_time r 0)))
            /\ Py.dict_get es "rate" = Some (EPy (VFloat (sampling_frequency r))).
Proof.
  intros H Hr. cbv zeta.
  destruct (add_electrical_series_inv ArrayType_is py_repr w w' H)
    as (w1 & w2 & opts & Hframe & Hself & _ & Hopts & Hrange & Hwrite).
  assert (Hr2 : recording (self w2) = Some r).
  { rewrite Hself, (frame_recording _ _ Hframe). exact Hr. }
  destruct (write_series_written _ _ _ _ _ _ _ _ _ _ r Hwrite Hr2)
    as (name & es0 & es1 & t & table_ids & coercion & ephys_data & w0 & w3 & f'
        & _ & _ & _ & _ & _ & _ & _ & _ & _ & Hat).
  exists name. eexists. exists ephys_data.
  split; [exact Hat|]. rewrite <- Hopts.
  split; [|split; [exact Hrange|]].
  - destruct (negb _); unfold Py.dict_update; simpl.
    + rewrite !dict_get_set_ne by discriminate. apply dict_get_set_eq.
    + rewrite dict_get_set_ne by discriminate. apply dict_get_set_eq.
  - destruct (default false (kw_use_times (_kwargs (self w)))); simpl.
    + apply dict_get_set_eq.
    + unfold Py.dict_update. simpl. split.
      * rewrite dict_get_set_ne by discriminate. apply dict_get_set_eq.
      * apply dict_get_set_eq.
Qed.

(** With [write_scaled], the series that [add_electrical_series] writes
    has the conversion [1e-6] and, unless the user metadata chosen by
    [es_key] sets one, no conversion per channel, whatever the gains. *)
Theorem electrical_series_scaled_conversion (w w' : World) (r : RecordingExtractor) :
  SI013NwbEphysWriter.add_electrical_series ArrayType_is py_repr w = (Ok tt, w') ->
  default false (kw_write_scaled (_kwargs (self w))) = true ->
  recording (self w) = Some r ->
  series_metadata_lacks (metadata (self w)) (kw_es_key (_kwargs (self w)))
                        "channel_conversion" ->
  exists name es,
    series_at (nwbfile (self w')) (default "raw" (kw_write_as (_kwargs (self w)))) name
    = Some es
    /\ Py.dict_get es "conversion" = Some (EPy (VFloat Float64.micro))
    /\ Py.dict_get es "channel_conversion" = None.
Proof.
  intros H Hscaled Hr Hlacks.
  destruct (add_electrical_series_inv ArrayType_is py_repr w w' H)
    as (w1 & w2 & opts & Hframe & Hself & _ & _ & _ & Hwrite).
  assert (Hr2 : recording (self w2) = Some r).
  { rewrite Hself, (frame_recording _ _ Hframe). exact Hr. }
  destruct (write_series_written _ _ _ _ _ _ _ _ _ _ r Hwrite Hr2)
    as (name & es0 & es1 & t & table_ids & coercion & ephys_data & w0 & w3 & f'
        & Hmeta & _ & _ & Hconv & _ & _ & _ & _ & _ & Hat).
  rewrite Hscaled in Hconv. simpl in Hconv. injection Hconv as <-.
  exists name. eexists. split; [exact Hat|].
  apply series_metadata_lacks_kw with (kw := "channel_conversion") in Hmeta
    as [_ Hcc]; try discriminate.
  - split.
    + rewrite final_series_get by discriminate. apply dict_get_set_eq.
    + rewrite final_series_get by discriminate.
      rewrite !dict_get_set_ne by discriminate. exact Hcc.
  - rewrite Hself. eapply series_metadata_lacks_completed; [|exact Hlacks].
    exact (frame_metadata _ _ Hframe).
Qed.


End SeriesData.

(** ** The spike times that [add_units] writes *)

Lemma find_app_first {A} (p : A -> bool) (l1 l2 : list A) (a : A) :
  find p l1 = Some a -> find p (l1 ++ l2) = Some a.
Proof.
  induction l1 as [|x l1 IH]; simpl; [discriminate|].
  destruct (p x); [auto|exact IH].
Qed.

Lemma find_app_none {A} (p : A -> bool) (l1 l2 : list A) :
  find p l1 = None -> find p (l1 ++ l2) = find p l2.
Proof.
  induction l1 as [|x l1 IH]; simpl; [reflexivity|].
  destruct (p x); [discriminate|exact IH].
Qed.

Lemma get_column_absent (t : DynamicTable) (n : string) :
  Py.str_mem n (Table.colnames t) = false -> Table.get_column t n = None.
Proof.
  unfold Py.str_mem, Table.colnames, Table.get_column.
  induction (tbl_columns t) as [|c cols IH]; simpl; [reflexivity|].
  rewrite (String.eqb_sym (col_name c) n).
  destruct (String.eqb n (col_name c)); simpl; [discriminate|exact IH].
Qed.

Lemma get_column_present (t : DynamicTable) (n : string) (c : Column) :
  Table.get_column t n = Some c -> Py.str_mem n (Table.colnames t) = true.
Proof.
  destruct (Py.str_mem n (Table.colnames t)) eqn:E; [reflexivity|].
  rewrite (get_column_absent _ _ E). discriminate.
Qed.

Lemma add_column_kept (t t' : DynamicTable) (name description : string)
    (data : list pyval) (index : index_arg) (table : bool) (n : string) (c : Column) :
  Table.add_column t name description data index table = Ok t' ->
  Table.get_column t n = Some c -> Table.get_column t' n = Some c.
Proof.
  unfold Table.add_column.
  destruct (Py.str_mem _ _); [discriminate|].
  destruct (negb _); [discriminate|]. intros [= <-] Hc.
  unfold Table.get_column in *. simpl. now apply find_app_first.
Qed.

Lemma add_column_other (t t' : DynamicTable) (name description : string)
    (data : list pyval) (index : index_arg) (table : bool) (n : string) :
  Table.add_column t name description data index table = Ok t' ->
  name <> n -> Table.get_column t' n = Table.get_column t n.
Proof.
  unfold Table.add_column.
  destruct (Py.str_mem _ _); [discriminate|].
  destruct (negb _); [discriminate|]. intros [= <-] Hne.
  unfold Table.get_column. simpl.
  destruct (find _ (tbl_columns t)) as [c|] eqn:Hc.
  - now apply find_app_first.
  - rewrite (find_app_none _ _ _ Hc). simpl.
    destruct (String.eqb name n) eqn:E; [|reflexivity].
    apply String.eqb_eq in E. contradiction.
Qed.

Lemma add_column_new (t t' : DynamicTable) (name description : string)
    (data : list pyval) (table : bool) :
  Table.add_column t name description data IndexTrue table = Ok t' ->
  Table.get_column t' name
  = Some {| col_name := name; col_description := description; col_data := data;
            col_index := Some []; col_table := table |}.
Proof.
  unfold Table.add_column.
  destruct (Py.str_mem _ _) eqn:Hmem; [discriminate|].
  destruct (negb _); [discriminate|]. intros [= <-].
  unfold Table.get_column. simpl.
  rewrite find_app_none by (apply (get_column_absent t name Hmem)).
  simpl. now rewrite String.eqb_refl.
Qed.

Lemma add_optional_kept (optional : list (string * bool)) (row : list (string * pyval))
    (t t' : DynamicTable) (n : string) (c : Column) :
  Table.add_optional t optional row = Ok t' ->
  Table.get_column t n = Some c -> Table.get_column t' n = Some c.
Proof.
  revert t. induction optional as [|[name ragged] optional IH]; intros t; simpl.
  - now intros [= <-].
  - destruct (Py.dict_get row name) as [v|]; simpl; [|apply IH].
    destruct (Py.str_mem name (Table.colnames t)); simpl; [apply IH|].
    destruct (Table.add_column t name name [] _ false) as [t1|] eqn:Hadd; simpl;
      [|discriminate].
    intros H Hc. apply (IH _ H). exact (add_column_kept _ _ _ _ _ _ _ _ _ Hadd Hc).
Qed.

(** The first row with a ragged optional column brings the column along:
    ragged and empty. *)
Lemma add_optional_first (rest : list (string * bool)) (row : list (string * pyval))
    (t t' : DynamicTable) (n : string) (v : pyval) :
  Table.add_optional t ((n, true) :: rest) row = Ok t' ->
  Py.dict_get row n = Some v ->
  Table.get_column t n = None ->
  Table.get_column t' n
  = Some {| col_name := n; col_description := n;
            col_data := []; col_index := Some []; col_table := false |}.
Proof.
  simpl. intros H Hv Hnone. rewrite Hv in H.
  destruct (Py.str_mem n (Table.colnames t)) eqn:Hmem.
  - exfalso. unfold Table.get_column in Hnone.
    unfold Py.str_mem, Table.colnames in Hmem.
    induction (tbl_columns t) as [|c cols IH]; simpl in *; [discriminate|].
    rewrite (String.eqb_sym (col_name c)) in Hnone.
    destruct (String.eqb n (col_name c)); simpl in *; [discriminate|auto].
  - destruct (Table.add_column t n n [] IndexTrue false) as [t1|] eqn:Hadd;
      simpl in H; [|discriminate].
    apply (add_optional_kept _ _ _ _ _ _ H).
    exact (add_column_new _ _ _ _ _ _ Hadd).
Qed.

Lemma append_cell_name (c c' : Column) (v : pyval) :
  Table.append_cell c v = Ok c' -> col_name c' = col_name c.
Proof.
  unfold Table.append_cell. destruct (col_index c).
  - destruct (Py.iter v); simpl; [|discriminate]. now intros [= <-].
  - now intros [= <-].
Qed.

Lemma append_cells_get (row : list (string * pyval)) (n : string)
    (cols cols' : list Column) (c : Column) :
  Table.append_cells cols row = Ok cols' ->
  find (fun c => String.eqb (col_name c) n) cols = Some c ->
  exists v c', Py.dict_get row (col_name c) = Some v
               /\ Table.append_cell c v = Ok c'
               /\ find (fun c => String.eqb (col_name c) n) cols' = Some c'.
Proof.
  revert cols'. induction cols as [|c0 cols IH]; intros cols'; simpl; [discriminate|].
  destruct (Py.dict_get row (col_name c0)) as [v|] eqn:Hv; [|discriminate].
  destruct (Table.append_cell c0 v) as [c0'|] eqn:Hcell; simpl; [|discriminate].
  destruct (Table.append_cells cols row) as [cols1|] eqn:Hrest; simpl; [|discriminate].
  intros [= <-]. simpl. rewrite (append_cell_name _ _ _ Hcell).
  destruct (String.eqb (col_name c0) n).
  - intros [= <-]. eauto.
  - intros Hc. exact (IH _ eq_refl Hc).
Qed.

(** The properties that are written are keys of the keyword dict of the
    unit. *)
Lemma unit_properties_kwargs_keys (s : SortingExtractor) (unit_id : Z)
    (write_properties : list string) (acc kw : list (string * pyval)) (k : string) :
  SI013NwbEphysWriter.unit_properties_kwargs s unit_id write_properties acc = Ok kw ->
  In k write_properties \/ Py.dict_mem acc k = true ->
  Py.dict_mem kw k = true.
Proof.
  revert acc. induction write_properties as [|pr wp IH]; intros acc; simpl.
  - intros [= <-] [[]|H]. exact H.
  - assert (Hnext : forall v, (pr = k \/ In k wp) \/ Py.dict_mem acc k = true ->
                              In k wp \/ Py.dict_mem (Py.dict_set acc pr v) k = true).
    { intros v [[->|Hin]|Hacc]; [right|now left|right].
      - unfold Py.dict_mem. now rewrite dict_get_set_eq.
      - unfold Py.dict_mem in *. rewrite dict_get_set.
        now destruct (String.eqb pr k). }
    destruct (Py.str_mem pr _).
    + destruct (Extractor.get_unit_property s unit_id pr) as [v|]; simpl;
        [|discriminate].
      intros H Hk. apply (IH _ H), Hnext, Hk.
    + intros H Hk. apply (IH _ H), Hnext, Hk.
Qed.

Lemma spike_times_length (s : SortingExtractor) (use_times : bool) (fs : float)
    (unit_id : Z) :
  length (spike_times_of s use_times fs unit_id)
  = length (unit_spike_train s unit_id).
Proof. unfold spike_times_of. destruct use_times; apply length_map. Qed.

(** One row: the spike times of the unit go to the end of the data of the
    column, and the index gets the new length of the data. *)
Lemma add_unit_row_spike_times (s : SortingExtractor) (use_times : bool) (fs : float)
    (write_properties : list string) (unit_id : Z) (w w' : World) (u : unit)
    (data : list pyval) (ix : list Z) :
  SI013NwbEphysWriter.add_unit_row s use_times fs write_properties unit_id w
  = (Ok u, w') ->
  match units_column w "spike_times" with
  | Some c => col_data c = data /\ col_index c = Some ix
  | None => data = [] /\ ix = []
  end ->
  ~ In "spike_times" write_properties
  /\ exists c', units_column w' "spike_times" = Some c'
       /\ col_data c' = data ++ map VFloat (spike_times_of s use_times fs unit_id)
       /\ col_index c'
          = Some (ix ++ [(Z.of_nat (length data)
                          + Z.of_nat (length (unit_spike_train s unit_id)))%Z]).
Proof.
  unfold SI013NwbEphysWriter.add_unit_row. cbv zeta. intros H Hstate.
  fold (spike_times_of s use_times fs unit_id) in H.
  inv_bind H as unit_kwargs wa Hs. apply lift_inv in Hs as [Hkw ->].
  destruct (Py.dict_mem unit_kwargs "id"); [discriminate|].
  destruct (Py.dict_mem unit_kwargs "spike_times") eqn:Hmem; [discriminate|].
  split.
  { intros Hin.
    rewrite (unit_properties_kwargs_keys _ _ _ _ _ _ Hkw (or_introl Hin)) in Hmem.
    discriminate. }
  simpl in H.
  apply update_nwbfile_inv in H as (f & f' & Hf & Hadd & ->).
  unfold units_column in *. simpl. rewrite Hf in Hstate.
  unfold NWB.add_unit in Hadd.
  destruct (Table.add_row _ _ _ _) as [t'|] eqn:Hrow; simpl in Hadd; [|discriminate].
  injection Hadd as <-. simpl.
  unfold Table.add_row in Hrow.
  destruct (Table.add_optional _ _ _) as [t1|] eqn:Hopt; simpl in Hrow;
    [|discriminate].
  destruct (negb _); [discriminate|].
  destruct (Table.append_cells _ _) as [cols|] eqn:Hcells; simpl in Hrow;
    [|discriminate].
  injection Hrow as <-.
  assert (Hcol : exists c1, Table.get_column t1 "spike_times" = Some c1
                            /\ col_data c1 = data /\ col_index c1 = Some ix).
  { unfold NWB.units_or_new in Hopt. destruct (units f) as [t|] eqn:Ht.
    - destruct (Table.get_column t "spike_times") as [c|] eqn:Hc.
      + exists c. split; [|exact Hstate].
        exact (add_optional_kept _ _ _ _ _ _ Hopt Hc).
      + destruct Hstate as [-> ->]. eexists.
        split; [now apply (add_optional_first _ _ _ _ _ _ Hopt eq_refl)|now split].
    - destruct Hstate as [-> ->]. eexists.
      split; [now apply (add_optional_first _ _ _ _ _ _ Hopt eq_refl)|now split]. }
  destruct Hcol as (c1 & Hc1 & Hdata & Hix).
  destruct (append_cells_get _ _ _ _ _ Hcells Hc1) as (v & c' & Hv & Hcell & Hc').
  assert (Hname : col_name c1 = "spike_times").
  { unfold Table.get_column in Hc1. apply find_some in Hc1 as [_ E].
    now apply String.eqb_eq in E. }
  rewrite Hname in Hv. simpl in Hv. injection Hv as <-.
  unfold Table.append_cell in Hcell. rewrite Hix in Hcell. simpl in Hcell.
  injection Hcell as <-.
  exists {| col_name := col_name c1; col_description := col_description c1;
            col_data := col_data c1 ++ map VFloat (spike_times_of s use_times fs unit_id);
            col_index := Some (ix ++ [Z.of_nat (length (col_data c1 ++
                           map VFloat (spike_times_of s use_times fs unit_id)))]);
            col_table := col_table c1 |}.
  split; [exact Hc'|]. simpl. rewrite Hdata. split; [reflexivity|].
  now rewrite length_app, length_map, spike_times_length, Nat2Z.inj_add.
Qed.

(** The rows after the first extend the column. *)
Lemma unit_rows_extend_spike_times (s : SortingExtractor) (use_times : bool)
    (fs : float) (write_properties : list string) (units : list Z) :
  forall (w w' : World) (c : Column) (ix : list Z),
  for_each units (SI013NwbEphysWriter.add_unit_row s use_times fs write_properties) w
  = (Ok tt, w') ->
  units_column w "spike_times" = Some c ->
  col_index c = Some ix ->
  exists c', units_column w' "spike_times" = Some c'
    /\ col_data c'
       = col_data c
         ++ concat (map (fun u => map VFloat (spike_times_of s use_times fs u)) units)
    /\ col_index c'
       = Some (ix ++ SI013NwbEphysWriter.cumsum (Z.of_nat (length (col_data c)))
                       (map (fun u => Z.of_nat (length (unit_spike_train s u))) units)).
Proof.
  induction units as [|unit_id units IH]; intros w w' c ix; simpl.
  - intros [= <-] Hc Hix. exists c. now rewrite !app_nil_r.
  - intros H Hc Hix. inv_bind H as u w1 Hs.
    destruct (add_unit_row_spike_times _ _ _ _ _ _ _ _ (col_data c) ix Hs)
      as (_ & c1 & Hc1 & Hdata1 & Hix1).
    { now rewrite Hc. }
    destruct (IH _ _ _ _ H Hc1 Hix1) as (c' & Hc' & Hdata' & Hix').
    exists c'. split; [exact Hc'|]. rewrite Hdata', Hix', Hdata1.
    rewrite length_app, length_map, spike_times_length, Nat2Z.inj_add.
    now rewrite <- !app_assoc.
Qed.

Lemma same_units_column_refl (n : string) (w : World) : same_units_column n w w.
Proof. reflexivity. Qed.

Lemma same_units_column_trans (n : string) (w1 w2 w3 : World) :
  same_units_column n w1 w2 -> same_units_column n w2 w3 -> same_units_column n w1 w3.
Proof. unfold same_units_column. congruence. Qed.

Lemma same_units_column_emitted (n : string) (w : World) (d : Diag) :
  same_units_column n w (emitted w d).
Proof. reflexivity. Qed.

Lemma units_column_kept_refl (n : string) (w : World) : units_column_kept n w w.
Proof. intros c H. exact H. Qed.

Lemma units_column_kept_trans (n : string) (w1 w2 w3 : World) :
  units_column_kept n w1 w2 -> units_column_kept n w2 w3 -> units_column_kept n w1 w3.
Proof. unfold units_column_kept. auto. Qed.

Lemma units_column_kept_emitted (n : string) (w : World) (d : Diag) :
  units_column_kept n w (emitted w d).
Proof. intros c H. exact H. Qed.

(** A property column of another name leaves the column as it is. *)
Lemma keeps_column_update (n : string) (op : NWBFile -> Res NWBFile) :
  (forall f f', op f = Ok f' ->
     Table.get_column (NWB.units_or_new f') n = Table.get_column (NWB.units_or_new f) n) ->
  keeps (same_units_column n) (update_nwbfile op).
Proof.
  intros Hop w. unfold update_nwbfile. run_step.
  destruct (nwbfile (self w)) as [f|] eqn:Hf; simpl; [|reflexivity].
  destruct (op f) as [f'|e] eqn:Hf'; simpl; [|reflexivity].
  unfold same_units_column, units_column. simpl. rewrite Hf.
  specialize (Hop f f' Hf'). unfold NWB.units_or_new in Hop.
  destruct (units f'), (units f); unfold Table.get_column, Table.empty in *;
    simpl in *; congruence.
Qed.

Lemma keeps_column_add_property (n : string)
    (property_descriptions : list (string * string)) (pr : string) :
  pr <> n ->
  keeps (same_units_column n)
        (SI013NwbEphysWriter.add_property_column property_descriptions pr).
Proof.
  intros Hne. unfold SI013NwbEphysWriter.add_property_column.
  apply keeps_bind; [apply same_units_column_trans| |].
  - apply keeps_get_nwbfile;
      [apply same_units_column_refl|apply same_units_column_trans].
  - intros f. cbv zeta. apply keeps_column_update. intros f0 f'.
    unfold NWB.add_unit_column.
    destruct (Table.add_column _ _ _ _ _ _) as [t|e] eqn:Hadd; simpl; [|discriminate].
    intros [= <-]. simpl. exact (add_column_other _ _ _ _ _ _ _ n Hadd Hne).
Qed.

Lemma keeps_column_property_columns (n : string)
    (property_descriptions : list (string * string)) (write_properties : list string) :
  ~ In n write_properties ->
  keeps (same_units_column n)
        (for_each write_properties
           (SI013NwbEphysWriter.add_property_column property_descriptions)).
Proof.
  induction write_properties as [|pr wp IH]; intros Hnot; simpl.
  - apply keeps_ret, same_units_column_refl.
  - apply keeps_bind; [apply same_units_column_trans| |].
    + apply keeps_column_add_property. intros ->. apply Hnot. now left.
    + intros _. apply IH. intros Hin. apply Hnot. now right.
Qed.

(** A column that is there stays as it is when the features are written. *)
Lemma set_property_kept (t t' : DynamicTable) (row_ids : list Z) (name : string)
    (values : list pyval) (counts : list Z) (default_value : pyval)
    (table : bool) (description : string) (n : string) (c : Column) :
  TableProperty.set_dynamic_table_property t row_ids name values (IndexArray counts)
    default_value table description = Ok t' ->
  Table.get_column t n = Some c -> Table.get_column t' n = Some c.
Proof.
  unfold TableProperty.set_dynamic_table_property. cbv zeta.
  destruct (existsb _ _); [discriminate|].
  destruct (Table.contains t name); [discriminate|].
  intros Hadd Hc. exact (add_column_kept _ _ _ _ _ _ _ _ _ Hadd Hc).
Qed.

Lemma keeps_column_write_feature (n : string) (s : SortingExtractor)
    (nspikes : list (Z * Z)) (skip_features : list string) (ft : string) :
  keeps (units_column_kept n)
        (SI013NwbEphysWriter.write_feature s nspikes skip_features ft).
Proof.
  unfold SI013NwbEphysWriter.write_feature.
  assert (Hcol : forall values skip,
    keeps (units_column_kept n)
          (SI013NwbEphysWriter.write_feature_column s nspikes ft values skip)).
  { intros values skip w. unfold SI013NwbEphysWriter.write_feature_column. run_step.
    destruct (nwbfile (self w)) as [f|] eqn:Hf; simpl;
      [|apply units_column_kept_refl].
    destruct (units f) as [t|] eqn:Ht; simpl; [|apply units_column_kept_refl].
    destruct (Table.contains t ft); simpl; [intros c Hc; exact Hc|].
    destruct (TableProperty.set_dynamic_table_property _ _ _ _ _ _ _ _) as [t'|e]
      eqn:Hset; simpl; [|apply units_column_kept_refl].
    intros c. unfold units_column. simpl. rewrite Hf, Ht.
    apply (set_property_kept _ _ _ _ _ _ _ _ _ _ _ Hset). }
  repeat first
    [ apply Hcol
    | rel_step (units_column_kept_refl n) (units_column_kept_trans n)
        (units_column_kept_emitted n) ].
Qed.

(** When [add_units] returns for a container without units table and a
    sorting with units, the column [spike_times] of the units table is
    ragged: its data are the spike times of the units one after the
    other, in the order of the unit ids, the spike times being the times
    of the frames with [use_times] and the frames over the sampling
    frequency without; its index holds the running count of the spikes. *)
Theorem add_units_spike_times_column (w w' : World) (s : SortingExtractor)
    (f : NWBFile) (fs : float) :
  sorting (self w) = Some s ->
  sorting_sampling_frequency s = Some fs ->
  unit_ids s <> [] ->
  nwbfile (self w) = Some f ->
  units f = None ->
  SI013NwbEphysWriter.add_units w = (Ok tt, w') ->
  exists c, units_column w' "spike_times" = Some c
    /\ col_data c
       = concat (map (fun u => map VFloat
                        (spike_times_of s (default false (kw_use_times (_kwargs (self w))))
                           fs u))
                     (unit_ids s))
    /\ col_index c
       = Some (SI013NwbEphysWriter.cumsum 0
                 (map (fun u => Z.of_nat (length (unit_spike_train s u))) (unit_ids s))).
Proof.
  intros Hs Hfs Hsome Hf Hu H. unfold SI013NwbEphysWriter.add_units in H.
  inv_bind H as kw wa Hk. apply get_kwargs_inv in Hk as [-> ->]. cbv zeta in H.
  inv_bind H as s' wa Hk.
  assert (s' = s /\ wa = w) as [-> ->].
  { unfold get_sorting in Hk. revert Hk. run_step. rewrite Hs.
    intros [= <- <-]. now split. }
  clear Hk. rewrite Hfs in H.
  inv_bind H as fs' wa Hk. apply ret_inv in Hk as [-> ->].
  inv_bind H as f' wa Hk. apply get_nwbfile_inv in Hk as [Hf' ->].
  rewrite Hf in Hf'. injection Hf' as <-. rewrite Hu in H.
  assert (Hstart : units_column w "spike_times" = None).
  { unfold units_column. now rewrite Hf, Hu. }
  unfold SI013NwbEphysWriter.add_units_body in H.
  inv_bind H as st1 w1 Hk.
  assert (H1 : units_column w1 "spike_times" = units_column w "spike_times").
  { match type of Hk with
    | ?m w = _ =>
        assert (K : keeps (same_units_column "spike_times") m)
          by (unfold SI013NwbEphysWriter.property_shape;
              repeat rel_step (same_units_column_refl "spike_times")
                (same_units_column_trans "spike_times")
                (same_units_column_emitted "spike_times"));
        specialize (K w); now rewrite Hk in K
    end. }
  clear Hk. destruct st1 as [property_shapes skip_properties].
  inv_bind H as skip_properties' w2 Hk.
  assert (H2 : units_column w2 "spike_times" = units_column w1 "spike_times").
  { match type of Hk with
    | ?m w1 = _ =>
        assert (K : keeps (same_units_column "spike_times") m)
          by (unfold SI013NwbEphysWriter.property_size;
              repeat rel_step (same_units_column_refl "spike_times")
                (same_units_column_trans "spike_times")
                (same_units_column_emitted "spike_times"));
        specialize (K w1); now rewrite Hk in K
    end. }
  clear Hk. cbv zeta in H.
  inv_bind H as u3 w3 Hk.
  assert (H3 : units_column w3 "spike_times" = units_column w2 "spike_times").
  { match type of Hk with
    | ?m w2 = _ =>
        assert (K : keeps (same_units_column "spike_times") m)
          by repeat rel_step (same_units_column_refl "spike_times")
               (same_units_column_trans "spike_times")
               (same_units_column_emitted "spike_times");
        specialize (K w2); now rewrite Hk in K
    end. }
  clear Hk.
  inv_bind H as u4 w4 Hcolumns.
  inv_bind H as u5 w5 Hrows. destruct u5.
  destruct (unit_ids s) as [|unit_id units] eqn:Hids; [contradiction|].
  simpl in Hrows. inv_bind Hrows as u6 w6 Hrow.
  assert (Hnot : ~ In "spike_times"
                   (elements (SI013NwbEphysWriter.all_properties s
                              ∖ list_to_set skip_properties'))).
  { unfold SI013NwbEphysWriter.add_unit_row in Hrow. cbv zeta in Hrow.
    inv_bind Hrow as unit_kwargs wa Hkw. apply lift_inv in Hkw as [Hkw ->].
    intros Hin.
    rewrite (unit_properties_kwargs_keys _ _ _ _ _ _ Hkw (or_introl Hin)) in Hrow.
    rewrite orb_true_r in Hrow. discriminate. }
  assert (H4 : units_column w4 "spike_times" = units_column w3 "spike_times").
  { match type of Hcolumns with
    | for_each _ (SI013NwbEphysWriter.add_property_column ?pd) _ = _ =>
        pose proof (keeps_column_property_columns "spike_times" pd _ Hnot w3) as K
    end.
    now rewrite Hcolumns in K. }
  destruct (add_unit_row_spike_times _ _ _ _ _ _ _ _ [] [] Hrow)
    as (_ & c1 & Hc1 & Hdata1 & Hix1).
  { now rewrite H4, H3, H2, H1, Hstart. }
  destruct (unit_rows_extend_spike_times _ _ _ _ _ _ _ _ _ Hrows Hc1 Hix1)
    as (c & Hc & Hdata & Hix).
  exists c. split; [|split].
  - match type of H with
    | ?m w5 = _ =>
        assert (K : keeps (units_column_kept "spike_times") m)
          by (unfold SI013NwbEphysWriter.feature_shape,
                SI013NwbEphysWriter.count_spikes, SI013NwbEphysWriter.feature_size;
              repeat first
                [ apply keeps_column_write_feature
                | rel_step (units_column_kept_refl "spike_times")
                    (units_column_kept_trans "spike_times")
                    (units_column_kept_emitted "spike_times") ]);
        specialize (K w5); rewrite H in K; exact (K c Hc)
    end.
  - rewrite Hdata, Hdata1. reflexivity.
  - rewrite Hix, Hdata1. simpl. rewrite length_map, spike_times_length.
    reflexivity.
Qed.

(** ** [add_electrical_series], a second time *)

Lemma series_metadata_pure (write_as : string) (es_key : option string)
    (md : option pyval) (w w1 : World) (es : ElectricalSeries) :
  SI013NwbEphysWriter.series_metadata write_as es_key md w = (Ok es, w1) ->
  forall w0, SI013NwbEphysWriter.series_metadata write_as es_key md w0 = (Ok es, w0).
Proof.
  unfold SI013NwbEphysWriter.series_metadata. cbv zeta.
  destruct md as [md|]; [|now intros [= <- _] w0].
  unfold Meta.contains, Meta.getitem, Meta.as_dict. run_step.
  destruct md; simpl; try discriminate.
  destruct (Py.dict_mem d "Ecephys"); [|now intros [= <- _] w0].
  destruct es_key as [key|]; [|now intros [= <- _] w0].
  destruct (Py.dict_get d "Ecephys") as [ecephys|]; simpl; [|discriminate].
  destruct ecephys; simpl; try discriminate.
  destruct (Py.dict_mem d0 key); simpl; [|discriminate].
  destruct (Py.dict_get d0 key) as [entry|]; simpl; [|discriminate].
  destruct entry; simpl; try discriminate.
  now intros [= <- _] w0.
Qed.

Lemma add_series_world (write_as : string) (es : ElectricalSeries) (w w' : World)
    (u : unit) :
  SI013NwbEphysWriter.add_series write_as es w = (Ok u, w') ->
  exists f', self w' = with_nwbfile (self w) (Some f').
Proof.
  unfold SI013NwbEphysWriter.add_series, Meta.as_str. run_step.
  destruct (SI013NwbEphysWriter.series_name es) as [v|]; simpl; [|discriminate].
  destruct v; simpl; try discriminate.
  destruct (nwbfile (self w)) as [f|]; simpl; [|discriminate].
  destruct (String.eqb write_as "raw").
  - destruct (bool_decide _); simpl; [discriminate|].
    intros [= <- <-]. simpl. eauto.
  - destruct (processing f !! "ecephys") as [m|]; [|discriminate].
    destruct (pm_data_interfaces m !! _) as [i|]; [|discriminate].
    destruct (bool_decide _); simpl; [discriminate|].
    intros [= <- <-]. simpl. eauto.
Qed.

(** Where the interface is there already, the step that ensures it
    leaves the writer as it is. *)
Lemma interface_step_again (write_as : string) (w : World) (f : NWBFile)
    (d : gmap string ElectricalSeries) :
  nwbfile (self w) = Some f ->
  SI013NwbEphysWriter.written_series f write_as = Ok d ->
  exists w0,
    (if String.eqb write_as "raw" then mret tt
     else SI013NwbEphysWriter.ensure_interface write_as) w = (Ok tt, w0)
    /\ self w0 = self w.
Proof.
  intros Hf Hd. unfold SI013NwbEphysWriter.written_series in Hd.
  destruct (String.eqb write_as "raw"); [now exists w|].
  destruct (processing f !! "ecephys") as [m|] eqn:Hm; [|discriminate].
  destruct (pm_data_interfaces m !! SI013NwbEphysWriter.interface_name write_as)
    as [i|] eqn:Hi; [|discriminate].
  unfold SI013NwbEphysWriter.ensure_interface, check_module. run_step.
  rewrite Hf. simpl. rewrite Hm, Hi. simpl.
  eexists. split; [reflexivity|]. simpl.
  rewrite (insert_id (processing f) "ecephys" m Hm).
  destruct w as [[] ? ? ? ?]. simpl in *. rewrite Hf. now destruct f.
Qed.

(** What a run of [write_series] that returns leaves behind for the next
    one. *)
Lemma write_series_leaves (write_as : string) (es_key : option string)
    (write_scaled use_times iterate : bool) (buffer_mb : Z)
    (compression : option string) (compression_opts : option Z)
    (w w' : World) :
  SI013NwbEphysWriter.write_series write_as es_key write_scaled use_times iterate
    buffer_mb compression compression_opts w = (Ok tt, w') ->
  exists es0 name f' d' t table_ids r,
    recording (self w') = recording (self w)
    /\ metadata (self w') = metadata (self w)
    /\ _kwargs (self w') = _kwargs (self w)
    /\ (forall w0, SI013NwbEphysWriter.series_metadata write_as es_key
                     (metadata (self w)) w0 = (Ok es0, w0))
    /\ SI013NwbEphysWriter.series_name es0 = Ok (VStr name)
    /\ nwbfile (self w') = Some f'
    /\ SI013NwbEphysWriter.written_series f' write_as = Ok d'
    /\ is_Some (d' !! name)
    /\ electrodes f' = Some t
    /\ recording (self w) = Some r
    /\ mapM (fun id => match Py.Z_index (tbl_id t) id with
                       | Some i => Ok i
                       | None => Raise (ValueError "is not in list")
                       end) (channel_ids r) = Ok table_ids.
Proof.
  intros H. unfold SI013NwbEphysWriter.write_series in H.
  inv_bind H as u0 w0 Hs.
  pose proof (interface_step_inv _ _ _ _ Hs) as Hstep. clear Hs.
  assert (Hw0 : recording (self w0) = recording (self w)
                /\ metadata (self w0) = metadata (self w)
                /\ _kwargs (self w0) = _kwargs (self w)).
  { destruct Hstep as [->|(f & p & Hf & ->)]; simpl; now repeat split. }
  clear Hstep. destruct Hw0 as (Hr0 & Hmd0 & Hkw0).
  inv_bind H as md wa Hs. apply get_metadata_inv in Hs as [-> ->].
  inv_bind H as es0 wa Hs.
  pose proof (series_metadata_world _ _ _ _ _ _ Hs) as ->.
  rewrite Hmd0 in Hs. pose proof (series_metadata_pure _ _ _ _ _ _ Hs) as Hpure.
  clear Hs.
  inv_bind H as f wa Hs'. apply get_nwbfile_inv in Hs' as [Hf ->].
  inv_bind H as name0 wa Hs'. apply lift_inv in Hs' as [Hname ->].
  inv_bind H as d wa Hs'. apply lift_inv in Hs' as [Hwritten ->].
  inv_bind H as u1 wa Hs'. apply assert_inv in Hs' as [Hnew ->].
  inv_bind H as r wa Hs'. apply get_recording_inv in Hs' as [Hr ->].
  inv_bind H as t wa Hs'.
  assert (electrodes f = Some t /\ wa = w0) as [Ht ->].
  { destruct (electrodes f); [apply ret_inv in Hs' as [-> ->]; now split|discriminate]. }
  clear Hs'.
  inv_bind H as table_ids wa Hs'. apply lift_inv in Hs' as [Hids ->].
  inv_bind H as coercion w2 Hs'.
  apply check_coercion_world in Hs' as (Hself2 & _ & _).
  inv_bind H as es1 wa Hs'. apply lift_inv in Hs' as [Hconv ->].
  inv_bind H as ephys_data w3 Hdata.
  pose proof (series_data_world r iterate write_scaled buffer_mb coercion w2) as Hself3.
  rewrite Hdata in Hself3. simpl in Hself3.
  assert (Hf3 : nwbfile (self w3) = Some f) by now rewrite Hself3, Hself2.
  destruct (add_series_inv _ _ _ _ _ _ _ Hf3 Hwritten H) as (name & Hfinal & Hat).
  destruct (add_series_electrodes _ _ _ _ _ _ Hf3 H) as (f' & Hf' & He').
  destruct (add_series_world _ _ _ _ _ H) as (f'' & Hself').
  unfold series_at in Hat. rewrite Hf' in Hat.
  destruct (SI013NwbEphysWriter.written_series f' write_as) as [d'|] eqn:Hd';
    [|discriminate].
  exists es0, name, f', d', t, table_ids, r.
  rewrite Hself'. simpl. rewrite Hself3, Hself2.
  split; [exact Hr0|]. split; [exact Hmd0|]. split; [exact Hkw0|].
  split; [exact Hpure|]. split.
  { rewrite <- Hfinal. unfold SI013NwbEphysWriter.series_name.
    rewrite final_series_get by discriminate.
    rewrite (conversion_kwargs_get _ _ _ _ "name" Hconv) by discriminate.
    now rewrite dict_get_set_ne by discriminate. }
  split; [now rewrite Hself' in Hf'|]. split; [exact Hd'|]. split; [eauto|].
  split; [congruence|]. split; [congruence|exact Hids].
Qed.

(** A series of that name is there: [write_series] raises at the check. *)
Lemma write_series_again (write_as : string) (es_key : option string)
    (write_scaled use_times iterate : bool) (buffer_mb : Z)
    (compression : option string) (compression_opts : option Z)
    (w : World) (es0 : ElectricalSeries) (name : string) (f : NWBFile)
    (d : gmap string ElectricalSeries) :
  (forall w0, SI013NwbEphysWriter.series_metadata write_as es_key
                (metadata (self w)) w0 = (Ok es0, w0)) ->
  SI013NwbEphysWriter.series_name es0 = Ok (VStr name) ->
  nwbfile (self w) = Some f ->
  SI013NwbEphysWriter.written_series f write_as = Ok d ->
  is_Some (d !! name) ->
  exists w0,
    SI013NwbEphysWriter.write_series write_as es_key write_scaled use_times iterate
      buffer_mb compression compression_opts w
    = (Raise (AssertionError "ElectricalSeries is already written in the NWBFile!"), w0)
    /\ self w0 = self w.
Proof.
  intros Hmd Hname Hf Hd Hin.
  destruct (interface_step_again _ _ _ _ Hf Hd) as (w0 & Hstep & Hself).
  exists w0. split; [|exact Hself].
  unfold SI013NwbEphysWriter.write_series.
  rewrite (bind_ok _ _ _ _ _ Hstep).
  rewrite (bind_ok get_metadata _ w0 w0 (metadata (self w0)) eq_refl).
  rewrite Hself. rewrite (bind_ok _ _ _ _ _ (Hmd w0)).
  assert (Hfile : get_nwbfile w0 = (Ok f, w0)).
  { unfold get_nwbfile. run_step. now rewrite Hself, Hf. }
  rewrite (bind_ok _ _ _ _ _ Hfile).
  rewrite Hname, Hd. run_step.
  now rewrite bool_decide_eq_true_2.
Qed.

Lemma check_compression_again (compression : option string) (opts opts' : option Z)
    (w w2 : World) :
  SI013NwbEphysWriter.check_compression compression opts w = (Ok opts', w2) ->
  forall w0, exists w1,
    SI013NwbEphysWriter.check_compression compression opts w0 = (Ok opts', w1)
    /\ self w1 = self w0.
Proof.
  unfold SI013NwbEphysWriter.check_compression.
  destruct compression as [c|]; [|intros [= <- _] w0; now exists w0].
  destruct (String.eqb c "gzip").
  - destruct opts as [o|].
    + run_step. destruct ((0 <=? o)%Z && (o <? 10)%Z); simpl; [|discriminate].
      intros [= <- _] w0. now exists w0.
    + intros [= <- _] w0. now exists w0.
  - destruct (String.eqb c "lzf").
    + destruct opts; run_step; intros [= <- _] w0; eexists; split; reflexivity.
    + intros [= <- _] w0. now exists w0.
Qed.

Lemma region_populated (ids chans : list Z) (table_ids : list nat) :
  mapM (fun id => match Py.Z_index ids id with
                  | Some i => Ok i
                  | None => Raise (ValueError "is not in list")
                  end) chans = Ok table_ids ->
  chans <> [] -> ids <> [].
Proof.
  destruct chans as [|c chans]; [contradiction|]. simpl.
  destruct ids; [discriminate|]. intros _ _. discriminate.
Qed.

Section SeriesTwice.

Variable ArrayType_is : proptype -> bool.
Variable py_repr : pyval -> string.

(** [add_electrical_series] does not write the same series twice: when
    it has returned for a recording with channels, a second call on the
    writer as it is then raises AssertionError at the check that the
    name of the series is not yet taken where [write_as] points, and the
    writer stays as the first call left it. *)
Theorem add_electrical_series_twice (w w' : World) (r : RecordingExtractor) :
  recording (self w) = Some r ->
  channel_ids r <> [] ->
  SI013NwbEphysWriter.add_electrical_series ArrayType_is py_repr w = (Ok tt, w') ->
  exists msg w'',
    SI013NwbEphysWriter.add_electrical_series ArrayType_is py_repr w'
    = (Raise (AssertionError msg), w'')
    /\ self w'' = self w'.
Proof.
  intros Hr Hchans H.
  unfold SI013NwbEphysWriter.add_electrical_series in H.
  inv_bind H as kw wa Hs. apply get_kwargs_inv in Hs as [-> ->].
  cbv zeta in H.
  inv_bind H as u0 wa Hs. apply assert_inv in Hs as [Hbuffer ->].
  inv_bind H as u1 wa Hs. apply assert_inv in Hs as [Hcompression ->].
  inv_bind H as u2 w1 Hs.
  pose proof (keeps_ensure_electrodes ArrayType_is py_repr w) as Hframe.
  rewrite Hs in Hframe. simpl in Hframe. clear Hs.
  inv_bind H as u3 wa Hs. apply assert_inv in Hs as [Hwrite_as ->].
  inv_bind H as opts w2 Hs.
  pose proof (check_compression_inv _ _ _ _ _ Hs) as (Hself2 & _).
  pose proof (check_compression_again _ _ _ _ _ Hs w') as (w3 & Hagain & Hself3).
  clear Hs. destruct u3.
  destruct (write_series_leaves _ _ _ _ _ _ _ _ _ _ H)
    as (es0 & name & f' & d' & t & table_ids & r' & Hr' & Hmd' & Hkw' & Hpure
        & Hname & Hf' & Hd' & Hin & Ht & Hr2 & Hids).
  rewrite Hself2, (frame_recording _ _ Hframe), Hr in Hr2. injection Hr2 as <-.
  assert (Hkw : _kwargs (self w') = _kwargs (self w)).
  { now rewrite Hkw', Hself2, (frame_kwargs _ _ Hframe). }
  assert (Hpop : electrodes_populated w').
  { exists f', t. split; [exact Hf'|]. split; [exact Ht|].
    exact (region_populated _ _ _ Hids Hchans). }
  destruct (write_series_again
              (default "raw" (kw_write_as (_kwargs (self w))))
              (kw_es_key (_kwargs (self w)))
              (default false (kw_write_scaled (_kwargs (self w))))
              (default false (kw_use_times (_kwargs (self w))))
              (default true (kw_iterate (_kwargs (self w))))
              (default 500%Z (kw_buffer_mb (_kwargs (self w))))
              (default (Some "gzip") (kw_compression (_kwargs (self w))))
              opts w3 es0 name f' d')
    as (w4 & Hraise & Hself4).
  { intros w0. rewrite Hself3, Hmd'. apply Hpure. }
  { exact Hname. }
  { now rewrite Hself3. }
  { exact Hd'. }
  { exact Hin. }
  exists "ElectricalSeries is already written in the NWBFile!", w4.
  split; [|now rewrite Hself4, Hself3].
  unfold SI013NwbEphysWriter.add_electrical_series.
  rewrite (bind_ok get_kwargs _ w' w' (_kwargs (self w')) eq_refl).
  cbv zeta. rewrite Hkw.
  rewrite (bind_ok (assert _ _) _ w' w' tt) by (now rewrite Hbuffer).
  rewrite (bind_ok (assert _ _) _ w' w' tt) by (now rewrite Hcompression).
  rewrite (bind_ok _ _ _ _ _
             (ensure_electrodes_populated ArrayType_is py_repr w' Hpop)).
  rewrite (bind_ok (assert _ _) _ w' w' tt) by (now rewrite Hwrite_as).
  rewrite (bind_ok _ _ _ _ _ Hagain).
  exact Hraise.
Qed.

End SeriesTwice.

Import Cases.

(** ** The statements above, on concrete tables and writers *)

Lemma set_property_adds_column_witness :
  exists data,
    TableProperty.set_dynamic_table_property two_rows [5%Z] "depth" [VFloat 1%float]
      IndexFalse (VFloat PrimFloat.nan) false "depth of the row"
    = Ok {| tbl_id := [3%Z; 5%Z];
            tbl_columns :=
              [quality_column;
               {| col_name := "depth"; col_description := "depth of the row";
                  col_data := data; col_index := None; col_table := false |}] |}
    /\ data !! 0%nat = Some (VFloat PrimFloat.nan)
    /\ data !! 1%nat = Some (VFloat 1%float).
Proof.
  destruct (set_property_adds_column two_rows [5%Z] "depth" [VFloat 1%float]
              (VFloat PrimFloat.nan) false "depth of the row")
    as (data & Hrun & _ & Hset & Hdefault).
  - intros r Hr. apply list_elem_of_singleton in Hr as ->. repeat constructor.
  - reflexivity.
  - reflexivity.
  - exists data. split; [exact Hrun|]. split.
    + apply Hdefault; [simpl; lia|].
      intros r Hr. apply list_elem_of_singleton in Hr as ->. discriminate.
    + destruct (Hset 0%nat 5%Z (VFloat 1%float) eq_refl eq_refl) as (i & Hi & Hv).
      * intros [|j'] Hlt; [lia|discriminate].
      * injection Hi as <-. exact Hv.
Defined.

Lemma set_property_overwrites_cells_witness :
  exists data t',
    TableProperty.set_dynamic_table_property two_rows [5%Z] "quality" [VStr "bad"]
      IndexFalse (VStr "") false "quality" = Ok t'
    /\ tbl_id t' = [3%Z; 5%Z]
    /\ Table.get_column t' "quality"
       = Some (TableProperty.set_column_data quality_column data)
    /\ data !! 0%nat = Some (VStr "good")
    /\ data !! 1%nat = Some (VStr "bad").
Proof.
  destruct (set_property_overwrites_cells two_rows [5%Z] "quality" [VStr "bad"]
              (VStr "") false "quality" quality_column)
    as (data & t' & Hrun & Hids & _ & Hcol & _ & _ & Hset & Hkept).
  - intros r Hr. apply list_elem_of_singleton in Hr as ->. repeat constructor.
  - reflexivity.
  - reflexivity.
  - reflexivity.
  - reflexivity.
  - exists data, t'. split; [exact Hrun|]. split; [exact Hids|].
    split; [exact Hcol|]. split.
    + rewrite (Hkept 0%nat); [reflexivity|].
      intros r Hr. apply list_elem_of_singleton in Hr as ->. discriminate.
    + destruct (Hset 0%nat 5%Z (VStr "bad") eq_refl eq_refl) as (i & Hi & Hv).
      * intros [|j'] Hlt; [lia|discriminate].
      * injection Hi as <-. exact Hv.
Defined.


Lemma set_property_refusals_witness :
  TableProperty.set_dynamic_table_property two_rows [4%Z] "depth" [VFloat 1%float]
    IndexFalse (VFloat PrimFloat.nan) false "depth of the row"
  = Raise (ValueError "'ids' contains values outside the range of existing ids")
  /\ TableProperty.set_dynamic_table_property two_rows [3%Z] "depth" []
       IndexFalse (VFloat PrimFloat.nan) false "depth of the row"
     = Raise (ValueError "'ids' and 'values' should be lists of same size")
  /\ TableProperty.set_dynamic_table_property two_rows [3%Z] "quality" []
       (IndexArray [0%Z; 0%Z]) (VFloat PrimFloat.nan) false "quality"
     = Raise (NotImplementedError "").
Proof.
  split; [|split].
  - apply (set_property_refusals two_rows [4%Z] "depth" [VFloat 1%float] IndexFalse
             (VFloat PrimFloat.nan) false "depth of the row").
    exists 4%Z. split; [repeat constructor|].
    intros Hin. apply elem_of_cons in Hin as [Hin|Hin]; [discriminate|].
    apply list_elem_of_singleton in Hin. discriminate.
  - apply (set_property_refusals two_rows [3%Z] "depth" [] IndexFalse
             (VFloat PrimFloat.nan) false "depth of the row").
    + intros r Hr. apply list_elem_of_singleton in Hr as ->. repeat constructor.
    + reflexivity.
    + discriminate.
  - apply (set_property_refusals two_rows [3%Z] "quality" [] (IndexArray [0%Z; 0%Z])
             (VFloat PrimFloat.nan) false "quality").
    + intros r Hr. apply list_elem_of_singleton in Hr as ->. repeat constructor.
    + discriminate.
    + reflexivity.
Defined.


Lemma add_devices_default_device_witness :
  exists w',
    BaseNwbEphysWriter.add_devices None uniform_world = (Ok tt, w')
    /\ devices_of w' = {["Device" := BaseNwbEphysWriter.device_defaults]}.
Proof.
  destruct (add_devices_default_device None uniform_world container_with_group []
              eq_refl eq_refl (or_introl eq_refl)) as (w' & Hrun & Hdev).
  exists w'. split; [exact Hrun|exact Hdev].
Defined.

Lemma add_devices_creates_named_devices_witness :
  is_Some (devices_of (BaseNwbEphysWriter.add_devices None probe_world).2 !! "ProbeA").
Proof.
  assert (Hrun : BaseNwbEphysWriter.add_devices None probe_world
                 = (Ok tt, (BaseNwbEphysWriter.add_devices None probe_world).2))
    by (vm_compute; reflexivity).
  destruct (add_devices_creates_named_devices None probe_world _
              [VDict [("name", VStr "ProbeA")]] Hrun eq_refl)
    with (dev := VDict [("name", VStr "ProbeA")])
    as (d & name & Hd & Hname & Hdev).
  - intros d Hd. apply list_elem_of_singleton in Hd. injection Hd as ->.
    apply NoDup_singleton.
  - repeat constructor.
  - injection Hd as <-. simpl in Hname. injection Hname as <-. exact Hdev.
Defined.

Lemma add_devices_again_only_prints_witness :
  exists printed printed',
    BaseNwbEphysWriter.add_devices None
      (BaseNwbEphysWriter.add_devices None probe_world).2
    = (Ok tt,
       emitted (emitted (BaseNwbEphysWriter.add_devices None probe_world).2
                  (Printed printed)) (Printed printed')).
Proof.
  assert (Hrun : BaseNwbEphysWriter.add_devices None probe_world
                 = (Ok tt, (BaseNwbEphysWriter.add_devices None probe_world).2))
    by (vm_compute; reflexivity).
  apply (add_devices_again_only_prints None probe_world _
           [VDict [("name", VStr "ProbeA")]] Hrun eq_refl).
  intros d Hd. apply list_elem_of_singleton in Hd. injection Hd as ->.
  apply NoDup_singleton.
Defined.

Lemma get_nwb_metadata_witness :
  exists groups,
    (SI013NwbEphysWriter.get_nwb_metadata uniform_world).2 = uniform_world
    /\ increasing groups
    /\ (forall z, z ∈ groups <-> exists c, c ∈ [0%Z; 1%Z] /\ 0%Z = z).
Proof.
  destruct (get_nwb_metadata_one_entry_per_group uniform_world uniform_recording
              (fun _ => 0%Z) eq_refl eq_refl) as (groups & Hrun & Hinc & Hin & _).
  exists groups. split; [now rewrite Hrun|]. split; [exact Hinc|exact Hin].
Defined.


Lemma get_num_spikes_witness :
  SI013NwbEphysWriter.get_num_spikes one_unit 7%Z = Ok 2%Z
  /\ exists msg,
       SI013NwbEphysWriter.get_num_spikes one_unit 8%Z = Raise (ValueError msg).
Proof.
  split.
  - exact (get_num_spikes_undoes_cumsum one_unit [2%Z] 7%Z eq_refl 2%Z eq_refl).
  - exact (get_num_spikes_undoes_cumsum one_unit [2%Z] 8%Z eq_refl).
Defined.

Lemma add_units_one_row_per_unit_witness :
  unit_table_ids (SI013NwbEphysWriter.add_units feature_world).2 = [7%Z].
Proof.
  assert (Hrun : SI013NwbEphysWriter.add_units feature_world
                 = (Ok tt, (SI013NwbEphysWriter.add_units feature_world).2))
    by (vm_compute; reflexivity).
  exact (add_units_one_row_per_unit feature_world _ feature_sorting (NWB.new [])
           eq_refl eq_refl eq_refl Hrun).
Defined.

Lemma add_units_spike_times_column_witness :
  exists c,
    units_column (SI013NwbEphysWriter.add_units feature_world).2 "spike_times" = Some c
    /\ col_data c = [VFloat (10 / 1000)%float; VFloat (20 / 1000)%float]
    /\ col_index c = Some [2%Z].
Proof.
  assert (Hrun : SI013NwbEphysWriter.add_units feature_world
                 = (Ok tt, (SI013NwbEphysWriter.add_units feature_world).2))
    by (vm_compute; reflexivity).
  destruct (add_units_spike_times_column feature_world
              (SI013NwbEphysWriter.add_units feature_world).2 feature_sorting
              (NWB.new []) 1000%float eq_refl eq_refl) as (c & Hc & Hdata & Hix).
  - discriminate.
  - reflexivity.
  - reflexivity.
  - exact Hrun.
  - exists c. split; [exact Hc|]. split; [exact Hdata|exact Hix].
Defined.

Lemma add_units_without_units_witness :
  SI013NwbEphysWriter.add_units empty_sorting_world = (Ok tt, empty_sorting_world).
Proof.
  exact (add_units_without_units empty_sorting_world empty_sorting (NWB.new [])
           1000%float eq_refl eq_refl eq_refl eq_refl eq_refl).
Defined.

Lemma write_sorting_to_a_path_witness :
  exists f',
    disk (SI013NwbEphysWriter.write_sorting (path_world (Some 1000%float))).2
      !! "out.nwb" = Some (Some f')
    /\ (SI013NwbEphysWriter.write_sorting
          (SI013NwbEphysWriter.write_sorting (path_world (Some 1000%float))).2).1
       = Raise (AssertionError
           "Either pass a save_path location, or nwbfile object, but not both!").
Proof.
  assert (Hrun : SI013NwbEphysWriter.write_sorting (path_world (Some 1000%float))
                 = (Ok tt,
                    (SI013NwbEphysWriter.write_sorting (path_world (Some 1000%float))).2))
    by (vm_compute; reflexivity).
  destruct (write_sorting_to_a_path_only_once (path_world (Some 1000%float)) _
              "out.nwb" eq_refl eq_refl Hrun) as (f' & _ & Hdisk & Hagain).
  exists f'. split; [exact Hdisk|]. now rewrite Hagain.
Defined.


Lemma write_recording_never_returns_witness :
  is_raise (SI013NwbEphysWriter.write_to_nwb ArrayType_union repr_unknown
              uniform_world).1 = true.
Proof.
  apply (write_recording_never_returns ArrayType_union repr_unknown uniform_world).
  now exists uniform_recording.
Defined.


Lemma electrical_series_region_rows_witness :
  exists name es,
    series_at (nwbfile (self uniform_written)) "raw" name = Some es
    /\ exists table_ids,
         Py.dict_get es "electrodes"
         = Some (ERegion table_ids "electrode_table_region")
         /\ length table_ids = 2%nat.
Proof.
  assert (Hrun : SI013NwbEphysWriter.add_electrical_series ArrayType_union
                   repr_unknown uniform_world = (Ok tt, uniform_written))
    by (vm_compute; reflexivity).
  destruct (electrical_series_region_rows ArrayType_union repr_unknown
              uniform_world uniform_written uniform_recording Hrun eq_refl)
    as (name & es & f' & t & table_ids & Hat & _ & _ & Hregion & Hlen & _).
  exists name, es. split; [exact Hat|]. exists table_ids.
  split; [exact Hregion|exact Hlen].
Defined.

Lemma electrical_series_data_and_time_witness :
  exists name es ephys_data,
    series_at (nwbfile (self uniform_written)) "raw" name = Some es
    /\ Py.dict_get es "data"
       = Some (EData {| h5_data := ephys_data; h5_compression := Some "gzip";
                        h5_compression_opts := Some 4%Z |})
    /\ Py.dict_get es "starting_time" = Some (EPy (VFloat 0%float))
    /\ Py.dict_get es "rate" = Some (EPy (VFloat 1000%float)).
Proof.
  assert (Hrun : SI013NwbEphysWriter.add_electrical_series ArrayType_union
                   repr_unknown uniform_world = (Ok tt, uniform_written))
    by (vm_compute; reflexivity).
  destruct (electrical_series_data_and_time ArrayType_union repr_unknown
              uniform_world uniform_written uniform_recording Hrun eq_refl)
    as (name & es & ephys_data & Hat & Hdata & _ & Hstart & Hrate).
  exists name, es, ephys_data.
  split; [exact Hat|]. split; [exact Hdata|]. split; [exact Hstart|exact Hrate].
Defined.

Lemma electrical_series_scaled_conversion_witness :
  exists name es,
    series_at (nwbfile (self (SI013NwbEphysWriter.add_electrical_series
                                ArrayType_union repr_unknown scaled_world).2))
              "raw" name = Some es
    /\ Py.dict_get es "conversion" = Some (EPy (VFloat Float64.micro))
    /\ Py.dict_get es "channel_conversion" = None.
Proof.
  assert (Hrun : SI013NwbEphysWriter.add_electrical_series ArrayType_union
                   repr_unknown scaled_world
                 = (Ok tt, (SI013NwbEphysWriter.add_electrical_series
                              ArrayType_union repr_unknown scaled_world).2))
    by (vm_compute; reflexivity).
  exact (electrical_series_scaled_conversion ArrayType_union repr_unknown
           scaled_world _ uniform_recording Hrun eq_refl eq_refl I).
Defined.


Lemma add_electrical_series_twice_witness :
  exists msg,
    (SI013NwbEphysWriter.add_electrical_series ArrayType_union repr_unknown
       uniform_written).1
    = Raise (AssertionError msg).
Proof.
  assert (Hrun : SI013NwbEphysWriter.add_electrical_series ArrayType_union
                   repr_unknown uniform_world = (Ok tt, uniform_written))
    by (vm_compute; reflexivity).
  destruct (add_electrical_series_twice ArrayType_union repr_unknown
              uniform_world uniform_written uniform_recording eq_refl)
    as (msg & w'' & Hagain & _).
  - discriminate.
  - exact Hrun.
  - exists msg. now rewrite Hagain.
Defined.
